(** * walmartEntropy: the discount-recommendation and chatbot rule engines

    A shallow embedding of
    - [DiscountRecommendationService] (discountRecommendationService.ts),
    - [UserTrainingService.calculateWasteRate] (userTrainingService.ts),
    - the intent loop of [ChatbotService.analyzeIntent] (chatbotService.ts),
    and the properties of the specification that concern them.

    Conventions of the embedding.
    - A JavaScript [number] is an exact rational ([Q]); the rounding error of
      IEEE doubles, NaN and the infinities are not modelled.  Numeric results
      are compared with [==] ([Qeq]); an object left untouched is compared
      with [=].
    - [undefined] / [null] are [None].
    - The mutable singleton is a record threaded through every method; an
      element of [this.recommendations] mutated in place is the list with
      that element replaced.
    - [Math.random], [Date.now] and the number-to-text conversions of the
      runtime are fields of a [Runtime] record handed to the methods. *)

From Stdlib Require Import ZArith QArith Qround Qminmax.
From Stdlib Require Import List String Ascii Bool Lia Lqa.
From Stdlib Require Import Permutation Sorted DecimalString.
Import ListNotations.

Open Scope Q_scope.

(* ================================================================= *)
(** ** JavaScript numbers and [Math] *)

Module JsNum.

(** [x <= y], [x < y], [x >= y], [x > y] on numbers. *)
Definition leb (x y : Q) : bool := Qle_bool x y.
Definition ltb (x y : Q) : bool := negb (Qle_bool y x).
Definition geb (x y : Q) : bool := leb y x.
Definition gtb (x y : Q) : bool := ltb y x.

(** [Math.floor]. *)
Definition Math_floor (x : Q) : Q := inject_Z (Qfloor x).

(** [Math.round]: the nearest integer, a tie going towards +infinity. *)
Definition Math_round (x : Q) : Q := inject_Z (Qfloor (x + (1 # 2))).

Definition Math_min (x y : Q) : Q := Qmin x y.
Definition Math_max (x y : Q) : Q := Qmax x y.

(** Truthiness of a number: every number but zero. *)
Definition truthy (x : Q) : bool := negb (Qeq_bool x 0).

(** [a || b] where [a] is an optional number and [b] may be [undefined]. *)
Definition or_else (a b : option Q) : option Q :=
  match a with
  | Some x => if truthy x then Some x else b
  | None => b
  end.

(** [array.length] as a number. *)
Definition of_nat (n : nat) : Q := inject_Z (Z.of_nat n).

End JsNum.

Infix "<=?" := JsNum.leb (at level 70, no associativity) : Q_scope.
Infix "<?" := JsNum.ltb (at level 70, no associativity) : Q_scope.
Infix ">=?" := JsNum.geb (at level 70, no associativity) : Q_scope.
Infix ">?" := JsNum.gtb (at level 70, no associativity) : Q_scope.

(* ================================================================= *)
(** ** discountRecommendationService.ts: the prediction arithmetic *)

(** [environmentalFactors] of a historical pattern: [{}] is [None]. *)
Record EnvironmentalFactors : Type := mkEnvironmentalFactors {
  avgTemp : Q;
  avgHumidity : Q
}.

(** The object returned by [analyzeHistoricalWastePattern]. *)
Record HistoricalPattern : Type := mkHistoricalPattern {
  wasteRate : Q;
  dataPoints : nat;
  avgDaysToWaste : Q;
  environmentalFactors : option EnvironmentalFactors
}.

(** The [currentConditions] object built by the generator. *)
Record CurrentConditions : Type := mkCurrentConditions {
  cc_temperature : Q;
  cc_humidity : Q
}.

(** The object returned by [calculatePredictedWaste]. *)
Record Prediction : Type := mkPrediction {
  p_wasteAmount : Q;
  p_wastePercentage : Q;
  p_confidence : Q
}.

(** [x > field + d] where [field] is read from a possibly empty
    [environmentalFactors]: a comparison with [undefined + d] is false. *)
Definition exceeds (x : Q) (field : option Q) (d : Q) : bool :=
  match field with
  | Some m => x >? m + d
  | None => false
  end.

(** The value of [baseWasteRate] after the time-until-expiry adjustment. *)
Definition expiryAdjusted (hoursUntilExpiry baseWasteRate : Q) : Q :=
  let daysUntilExpiry := hoursUntilExpiry / 24 in
  if daysUntilExpiry <=? 1 then baseWasteRate * 2.0
  else if daysUntilExpiry <=? 2 then baseWasteRate * 1.5
  else if daysUntilExpiry <=? 3 then baseWasteRate * 1.2
  else baseWasteRate.

(** ... after the two environmental adjustments. *)
Definition environmentAdjusted (historicalPattern : HistoricalPattern)
    (currentConditions : CurrentConditions) (baseWasteRate : Q) : Q :=
  let env := environmentalFactors historicalPattern in
  let baseWasteRate :=
    if exceeds (cc_temperature currentConditions) (option_map avgTemp env) 5
    then baseWasteRate * 1.3 else baseWasteRate in
  if exceeds (cc_humidity currentConditions) (option_map avgHumidity env) 10
  then baseWasteRate * 1.2 else baseWasteRate.

(** ... after the stock-level adjustment, the branches in the order of the
    source: [> 50] is tested first, [> 100] in its [else]. *)
Definition stockAdjusted (currentStock baseWasteRate : Q) : Q :=
  if currentStock >? 50 then baseWasteRate * 1.1
  else if currentStock >? 100 then baseWasteRate * 1.2
  else baseWasteRate.

(** The value of [baseWasteRate] when the adjustment chain is over. *)
Definition adjustedWasteRate (currentStock hoursUntilExpiry : Q)
    (historicalPattern : HistoricalPattern)
    (currentConditions : CurrentConditions) : Q :=
  stockAdjusted currentStock
    (environmentAdjusted historicalPattern currentConditions
       (expiryAdjusted hoursUntilExpiry (wasteRate historicalPattern))).

Definition calculatePredictedWaste (currentStock hoursUntilExpiry : Q)
    (historicalPattern : HistoricalPattern)
    (currentConditions : CurrentConditions) : Prediction :=
  let baseWasteRate :=
    adjustedWasteRate currentStock hoursUntilExpiry
      historicalPattern currentConditions in
  let finalWastePercentage :=
    JsNum.Math_min 100 (JsNum.Math_max 0 baseWasteRate) in
  let wasteAmount :=
    JsNum.Math_round ((finalWastePercentage / 100) * currentStock) in
  let confidence := 50 in
  let confidence :=
    confidence
    + JsNum.Math_min 30 (JsNum.of_nat (dataPoints historicalPattern) * 5) in
  let confidence :=
    confidence + (if hoursUntilExpiry <=? 24 then 15 else 0) in
  let confidence := JsNum.Math_min 95 confidence in
  {| p_wasteAmount := wasteAmount;
     p_wastePercentage := JsNum.Math_round (finalWastePercentage * 10) / 10;
     p_confidence := JsNum.Math_round confidence |}.

Definition calculateOptimalDiscount (wastePercentage hoursUntilExpiry : Q)
    (historicalPattern : HistoricalPattern) : Q :=
  let baseDiscount :=
    if wastePercentage >=? 60 then 50
    else if wastePercentage >=? 40 then 35
    else if wastePercentage >=? 25 then 25
    else if wastePercentage >=? 15 then 15
    else 10 in
  let baseDiscount :=
    if hoursUntilExpiry <=? 6 then baseDiscount * 1.4
    else if hoursUntilExpiry <=? 12 then baseDiscount * 1.2
    else if hoursUntilExpiry <=? 24 then baseDiscount * 1.1
    else baseDiscount in
  let baseDiscount :=
    if (5 <=? dataPoints historicalPattern)%nat
    then baseDiscount * 1.1 else baseDiscount in
  JsNum.Math_min 70 (JsNum.Math_max 5 (JsNum.Math_round baseDiscount)).

Inductive RiskLevel : Type := low | medium | high | critical.

Definition getRiskLevel (wastePercentage : Q) : RiskLevel :=
  if wastePercentage >=? 50 then critical
  else if wastePercentage >=? 30 then high
  else if wastePercentage >=? 15 then medium
  else low.

(* ================================================================= *)
(** ** JavaScript strings and arrays *)

Module JsString.

(** [toLowerCase] on the ASCII letters; other bytes are kept. *)
Definition lower_ascii (c : ascii) : ascii :=
  let n := nat_of_ascii c in
  if ((65 <=? n) && (n <=? 90))%nat then ascii_of_nat (n + 32) else c.

Fixpoint toLowerCase (s : string) : string :=
  match s with
  | EmptyString => EmptyString
  | String c s' => String (lower_ascii c) (toLowerCase s')
  end.

(** [s.includes(kw)]: [kw] occurs in [s] as a substring. *)
Fixpoint includes (s kw : string) : bool :=
  if String.prefix kw s then true
  else match s with
       | EmptyString => false
       | String _ s' => includes s' kw
       end.

(** Truthiness of a string: every string but the empty one. *)
Definition truthy (s : string) : bool := negb (String.eqb s EmptyString).

(** The white space [trim] removes, on the ASCII range: tab, line feed,
    vertical tab, form feed, carriage return and space. *)
Definition isWhiteSpace (c : ascii) : bool :=
  let n := nat_of_ascii c in
  (((9 <=? n) && (n <=? 13)) || (n =? 32))%nat.

Fixpoint trimStart (s : string) : string :=
  match s with
  | EmptyString => EmptyString
  | String c s' => if isWhiteSpace c then trimStart s' else s
  end.

(** [trimEnd s] drops the white space after the last other character. *)
Fixpoint trimEnd (s : string) : string :=
  match s with
  | EmptyString => EmptyString
  | String c s' =>
      match trimEnd s' with
      | EmptyString => if isWhiteSpace c then EmptyString
                       else String c EmptyString
      | rest => String c rest
      end
  end.

Definition trim (s : string) : string := trimEnd (trimStart s).

(** A natural number interpolated in a template literal. *)
Definition ofNat (n : nat) : string :=
  NilEmpty.string_of_uint (Nat.to_uint n).

Definition isDigit (c : ascii) : bool :=
  let n := nat_of_ascii c in ((48 <=? n) && (n <=? 57))%nat.

(** [s] is [prefix] followed by the string returned. *)
Fixpoint stripPrefix (prefix s : string) : option string :=
  match prefix, s with
  | EmptyString, _ => Some s
  | String a prefix', String b s' =>
      if Ascii.eqb a b then stripPrefix prefix' s' else None
  | String _ _, EmptyString => None
  end.

(** The longest run of digits [s] starts with. *)
Fixpoint leadingDigits (s : string) : string :=
  match s with
  | EmptyString => EmptyString
  | String c s' =>
      if isDigit c then String c (leadingDigits s') else EmptyString
  end.

(** [parseInt] of a run of digits, read from the left onto [acc]. *)
Fixpoint digitsValue (acc : N) (digits : string) : N :=
  match digits with
  | EmptyString => acc
  | String c digits' =>
      digitsValue (10 * acc + N.of_nat (nat_of_ascii c - 48))%N digits'
  end.

End JsString.

Module JsArray.

Section Ops.
Context {A : Type}.

(** [l.reduce((sum, d) => sum + f(d), 0)]. *)
Definition sumOf (f : A -> Q) (l : list A) : Q :=
  fold_left (fun sum d => sum + f d) l 0.

(** [l.push(x)]. *)
Definition push (l : list A) (x : A) : list A := l ++ [x].

(** The element [find] returns is mutated in place: the first element
    satisfying [p] is replaced by its image under [f]. *)
Fixpoint updateFirst (p : A -> bool) (f : A -> A) (l : list A) : list A :=
  match l with
  | [] => []
  | x :: l' => if p x then f x :: l' else x :: updateFirst p f l'
  end.

(** [l.sort(cmp)]: the sort of the runtime is stable; [a] stays before
    [b] unless [cmp(a, b) > 0]. *)
Fixpoint insertBy (cmp : A -> A -> Q) (a : A) (l : list A) : list A :=
  match l with
  | [] => [a]
  | b :: l' => if cmp a b >? 0 then b :: insertBy cmp a l'
               else a :: b :: l'
  end.

Definition sort (cmp : A -> A -> Q) (l : list A) : list A :=
  fold_right (insertBy cmp) [] l.
End Ops.

(** [[...new Set(l)]]: the distinct strings of [l], by first occurrence. *)
Fixpoint unique (l : list string) : list string :=
  match l with
  | [] => []
  | x :: l' => x :: filter (fun y => negb (String.eqb y x)) (unique l')
  end.

Section Slices.
Context {A : Type}.

(** [l.slice(0, limit)] for a limit that is a natural number. *)
Definition slice0 (limit : nat) (l : list A) : list A := firstn limit l.

(** [l.slice(-n)]: the last [n] elements. *)
Definition lastN (n : nat) (l : list A) : list A :=
  skipn (List.length l - n) l.

(** The callbacks of [forEach] and [map] see each element with its
    index. *)
Fixpoint indexedFrom (start : nat) (l : list A) : list (A * nat) :=
  match l with
  | [] => []
  | x :: l' => (x, start) :: indexedFrom (S start) l'
  end.

End Slices.

End JsArray.

(* ================================================================= *)
(** ** The data model of the discount engine *)

Module UserTrainingData.
Record t : Type := mk {
  productName : string;
  category : string;
  purchaseDate : string;
  expiryDate : string;
  initialStock : Q;
  finalStock : Q;
  wasteAmount : Q;
  temperature : Q;
  humidity : Q;
  promotionActive : bool;
  location : string
}.
End UserTrainingData.

Module Status.
Inductive t : Type := pending | approved | rejected | applied.

Definition eqb (a b : t) : bool :=
  match a, b with
  | pending, pending | approved, approved
  | rejected, rejected | applied, applied => true
  | _, _ => false
  end.
End Status.

Module DiscountRecommendation.
Record t : Type := mk {
  id : string;
  productName : string;
  category : string;
  currentStock : Q;
  hoursUntilExpiry : Q;
  predictedWasteAmount : Q;
  predictedWastePercentage : Q;
  suggestedDiscountPercentage : Q;
  estimatedRevenueSaved : Q;
  confidence : Q;
  riskLevel : RiskLevel;
  reasoning : list string;
  location : string;
  currentPrice : Q;
  discountedPrice : Q;
  status : Status.t;
  timestamp : Z;
  basedOnDataPoints : nat;
  historicalWasteRate : Q
}.

(** [r.status = s]. *)
Definition set_status (s : Status.t) (r : t) : t :=
  mk (id r) (productName r) (category r) (currentStock r)
     (hoursUntilExpiry r) (predictedWasteAmount r)
     (predictedWastePercentage r) (suggestedDiscountPercentage r)
     (estimatedRevenueSaved r) (confidence r) (riskLevel r) (reasoning r)
     (location r) (currentPrice r) (discountedPrice r) s (timestamp r)
     (basedOnDataPoints r) (historicalWasteRate r).

(** [r.suggestedDiscountPercentage = d]. *)
Definition set_suggestedDiscountPercentage (d : Q) (r : t) : t :=
  mk (id r) (productName r) (category r) (currentStock r)
     (hoursUntilExpiry r) (predictedWasteAmount r)
     (predictedWastePercentage r) d
     (estimatedRevenueSaved r) (confidence r) (riskLevel r) (reasoning r)
     (location r) (currentPrice r) (discountedPrice r) (status r)
     (timestamp r) (basedOnDataPoints r) (historicalWasteRate r).

(** [r.discountedPrice = p]. *)
Definition set_discountedPrice (p : Q) (r : t) : t :=
  mk (id r) (productName r) (category r) (currentStock r)
     (hoursUntilExpiry r) (predictedWasteAmount r)
     (predictedWastePercentage r) (suggestedDiscountPercentage r)
     (estimatedRevenueSaved r) (confidence r) (riskLevel r) (reasoning r)
     (location r) (currentPrice r) p (status r) (timestamp r)
     (basedOnDataPoints r) (historicalWasteRate r).

(** [r.estimatedRevenueSaved = e]. *)
Definition set_estimatedRevenueSaved (e : Q) (r : t) : t :=
  mk (id r) (productName r) (category r) (currentStock r)
     (hoursUntilExpiry r) (predictedWasteAmount r)
     (predictedWastePercentage r) (suggestedDiscountPercentage r)
     e (confidence r) (riskLevel r) (reasoning r)
     (location r) (currentPrice r) (discountedPrice r) (status r)
     (timestamp r) (basedOnDataPoints r) (historicalWasteRate r).

(** [r.reasoning = l]. *)
Definition set_reasoning (l : list string) (r : t) : t :=
  mk (id r) (productName r) (category r) (currentStock r)
     (hoursUntilExpiry r) (predictedWasteAmount r)
     (predictedWastePercentage r) (suggestedDiscountPercentage r)
     (estimatedRevenueSaved r) (confidence r) (riskLevel r) l
     (location r) (currentPrice r) (discountedPrice r) (status r)
     (timestamp r) (basedOnDataPoints r) (historicalWasteRate r).
End DiscountRecommendation.

Module Decision.
Inductive t : Type := approved | rejected.
End Decision.

Module DiscountDecision.
Record t : Type := mk {
  recommendationId : string;
  decision : Decision.t;
  actualDiscountApplied : option Q;
  ownerNotes : option string;
  timestamp : Z
}.
End DiscountDecision.

(** The private fields of [DiscountRecommendationService].  The trained
    model is opaque to the service, which only tests it for truthiness:
    [trainedModelData] is [Some tt] for a truthy marker, [None] otherwise. *)
Record Service : Type := mkService {
  recommendations : list DiscountRecommendation.t;
  decisions : list DiscountDecision.t;
  trainedModelData : option unit;
  userTrainingData : list UserTrainingData.t
}.

(** What the service asks of the runtime.  [Math_random n] is the n-th draw
    of [Math.random] during a call and [Date_now n] the n-th reading of the
    clock, in milliseconds. *)
Record Runtime : Type := mkRuntime {
  Math_random : nat -> Q;
  Date_now : nat -> Z;
  (** [new Date(s).getTime()] *)
  Date_parse : string -> Q;
  (** a number interpolated in a template literal *)
  Number_toString : Q -> string;
  (** [x.toFixed(1)] *)
  Number_toFixed1 : Q -> string;
  (** [x.toString(36).substr(2, 9)] *)
  Number_base36_suffix : Q -> string
}.

(** A method either returns or throws an [Error] with a message. *)
Inductive Outcome (A : Type) : Type :=
| Returned (a : A)
| Thrown (message : string).
Arguments Returned {A} a.
Arguments Thrown {A} message.

(* ================================================================= *)
(** ** discountRecommendationService.ts: the service *)

Module DiscountRecommendationService.

Import JsNum.

Definition setTrainedModelData (modelData : option unit)
    (rawTrainingData : list UserTrainingData.t) (this : Service) : Service :=
  {| recommendations := recommendations this;
     decisions := decisions this;
     trainedModelData := modelData;
     userTrainingData := rawTrainingData |}.

(** The first half of [analyzeHistoricalWastePattern]: the matched subset
    of the history, by product name and else by category. *)
Definition relevantData (this : Service) (productName category : string)
  : list UserTrainingData.t :=
  let exactMatches :=
    filter (fun d =>
              String.eqb
                (JsString.toLowerCase (UserTrainingData.productName d))
                (JsString.toLowerCase productName))
           (userTrainingData this) in
  let categoryMatches :=
    filter (fun d =>
              String.eqb
                (JsString.toLowerCase (UserTrainingData.category d))
                (JsString.toLowerCase category))
           (userTrainingData this) in
  if (0 <? List.length exactMatches)%nat then exactMatches
  else categoryMatches.

(** The second half: the pattern computed from the matched subset. *)
Definition patternOf (rt : Runtime)
    (relevantData : list UserTrainingData.t) : HistoricalPattern :=
  if (List.length relevantData =? 0)%nat then
    {| wasteRate := 0; dataPoints := 0; avgDaysToWaste := 0;
       environmentalFactors := None |}
  else
    let totalInitialStock :=
      JsArray.sumOf UserTrainingData.initialStock relevantData in
    let totalWaste :=
      JsArray.sumOf UserTrainingData.wasteAmount relevantData in
    let wasteRate :=
      if totalInitialStock >? 0
      then (totalWaste / totalInitialStock) * 100 else 0 in
    let avgDaysToWaste :=
      JsArray.sumOf
        (fun d =>
           let purchaseDate :=
             Date_parse rt (UserTrainingData.purchaseDate d) in
           let expiryDate :=
             Date_parse rt (UserTrainingData.expiryDate d) in
           (expiryDate - purchaseDate) / (1000 * 60 * 60 * 24))
        relevantData
      / of_nat (List.length relevantData) in
    let avgTemp :=
      JsArray.sumOf UserTrainingData.temperature relevantData
      / of_nat (List.length relevantData) in
    let avgHumidity :=
      JsArray.sumOf UserTrainingData.humidity relevantData
      / of_nat (List.length relevantData) in
    {| wasteRate := wasteRate;
       dataPoints := List.length relevantData;
       avgDaysToWaste := avgDaysToWaste;
       environmentalFactors :=
         Some {| avgTemp := avgTemp; avgHumidity := avgHumidity |} |}.

Definition analyzeHistoricalWastePattern (rt : Runtime) (this : Service)
    (productName category : string) : HistoricalPattern :=
  patternOf rt (relevantData this productName category).

Definition generateReasoning (rt : Runtime)
    (recommendation : DiscountRecommendation.t)
    (historicalPattern : HistoricalPattern) : list string :=
  let reasons : list string := [] in
  let reasons :=
    if (0 <? dataPoints historicalPattern)%nat then
      let reasons :=
        JsArray.push reasons
          ("Based on "
             ++ Number_toString rt (of_nat (dataPoints historicalPattern))
             ++ " historical data points for "
             ++ DiscountRecommendation.category recommendation)%string in
      JsArray.push reasons
        ("Historical waste rate: "
           ++ Number_toFixed1 rt (wasteRate historicalPattern)
           ++ "% for this category")%string
    else reasons in
  let pct := DiscountRecommendation.predictedWastePercentage recommendation in
  let reasons :=
    if pct >=? 40 then
      JsArray.push reasons
        ("High waste risk: " ++ Number_toString rt pct
           ++ "% predicted waste")%string
    else if pct >=? 20 then
      JsArray.push reasons
        ("Moderate waste risk: " ++ Number_toString rt pct
           ++ "% predicted waste")%string
    else reasons in
  let hours := DiscountRecommendation.hoursUntilExpiry recommendation in
  let reasons :=
    if hours <=? 12 then
      JsArray.push reasons
        ("Urgent: Only " ++ Number_toString rt hours
           ++ " hours until expiry")%string
    else if hours <=? 24 then
      JsArray.push reasons
        ("Time-sensitive: " ++ Number_toString rt hours
           ++ " hours until expiry")%string
    else reasons in
  let stock := DiscountRecommendation.currentStock recommendation in
  if stock >? 30 then
    JsArray.push reasons
      ("High inventory: " ++ Number_toString rt stock
         ++ " units need to be moved quickly")%string
  else reasons.

(** The state of the [forEach] loop of the generator: the batch built so
    far, and how many random draws and clock readings were made. *)
Record Loop : Type := mkLoop {
  newRecommendations : list DiscountRecommendation.t;
  draws : nat;
  ticks : nat
}.

(** The body of [uniqueProducts.forEach(productName => ...)]. *)
Definition forEachProduct (rt : Runtime) (this : Service)
    (loop : Loop) (productName : string) : Loop :=
  match find (fun d => String.eqb (UserTrainingData.productName d)
                                  productName)
             (userTrainingData this) with
  | None => loop
  | Some productData =>
    let n := draws loop in
    let currentStock := Math_floor (Math_random rt n * 80) + 20 in
    let hoursUntilExpiry :=
      Math_floor (Math_random rt (n + 1) * 72) + 6 in
    let currentPrice :=
      Math_round ((Math_random rt (n + 2) * 15 + 2) * 100) / 100 in
    let historicalPattern :=
      analyzeHistoricalWastePattern rt this productName
        (UserTrainingData.category productData) in
    if (0 <? dataPoints historicalPattern)%nat
       && (wasteRate historicalPattern >? 5)
    then
      let currentConditions :=
        {| cc_temperature :=
             UserTrainingData.temperature productData
             + (Math_random rt (n + 3) * 10 - 5);
           cc_humidity :=
             UserTrainingData.humidity productData
             + (Math_random rt (n + 4) * 20 - 10) |} in
      let prediction :=
        calculatePredictedWaste currentStock hoursUntilExpiry
          historicalPattern currentConditions in
      if (p_wastePercentage prediction >? 10) || (hoursUntilExpiry <=? 24)
      then
        let suggestedDiscount :=
          calculateOptimalDiscount (p_wastePercentage prediction)
            hoursUntilExpiry historicalPattern in
        let discountedPrice :=
          currentPrice * (1 - suggestedDiscount / 100) in
        let estimatedRevenueSaved :=
          p_wasteAmount prediction * discountedPrice in
        let recommendation :=
          {| DiscountRecommendation.id :=
               ("rec_"
                ++ Number_toString rt (inject_Z (Date_now rt (ticks loop)))
                ++ "_"
                ++ Number_base36_suffix rt (Math_random rt (n + 5)))%string;
             DiscountRecommendation.productName := productName;
             DiscountRecommendation.category :=
               UserTrainingData.category productData;
             DiscountRecommendation.currentStock := currentStock;
             DiscountRecommendation.hoursUntilExpiry := hoursUntilExpiry;
             DiscountRecommendation.predictedWasteAmount :=
               p_wasteAmount prediction;
             DiscountRecommendation.predictedWastePercentage :=
               p_wastePercentage prediction;
             DiscountRecommendation.suggestedDiscountPercentage :=
               suggestedDiscount;
             DiscountRecommendation.estimatedRevenueSaved :=
               Math_round (estimatedRevenueSaved * 100) / 100;
             DiscountRecommendation.confidence := p_confidence prediction;
             DiscountRecommendation.riskLevel :=
               getRiskLevel (p_wastePercentage prediction);
             DiscountRecommendation.reasoning := [];
             DiscountRecommendation.location :=
               if JsString.truthy (UserTrainingData.location productData)
               then UserTrainingData.location productData
               else (UserTrainingData.category productData
                     ++ " Section")%string;
             DiscountRecommendation.currentPrice := currentPrice;
             DiscountRecommendation.discountedPrice :=
               Math_round (discountedPrice * 100) / 100;
             DiscountRecommendation.status := Status.pending;
             DiscountRecommendation.timestamp :=
               Date_now rt (ticks loop + 1);
             DiscountRecommendation.basedOnDataPoints :=
               dataPoints historicalPattern;
             DiscountRecommendation.historicalWasteRate :=
               Math_round (wasteRate historicalPattern * 10) / 10 |} in
        let recommendation :=
          DiscountRecommendation.set_reasoning
            (generateReasoning rt recommendation historicalPattern)
            recommendation in
        {| newRecommendations :=
             JsArray.push (newRecommendations loop) recommendation;
           draws := n + 6;
           ticks := ticks loop + 2 |}
      else
        {| newRecommendations := newRecommendations loop;
           draws := n + 5;
           ticks := ticks loop |}
    else
      {| newRecommendations := newRecommendations loop;
         draws := n + 3;
         ticks := ticks loop |}
  end.

(** The comparator of the final sort. *)
Definition byUrgency (a b : DiscountRecommendation.t) : Q :=
  let urgencyA :=
    (DiscountRecommendation.predictedWastePercentage a / 100)
    * (72 - DiscountRecommendation.hoursUntilExpiry a) / 72 in
  let urgencyB :=
    (DiscountRecommendation.predictedWastePercentage b / 100)
    * (72 - DiscountRecommendation.hoursUntilExpiry b) / 72 in
  urgencyB - urgencyA.

Definition generateRecommendationsFromTrainingData (rt : Runtime)
    (this : Service)
  : Service * Outcome (list DiscountRecommendation.t) :=
  match trainedModelData this with
  | None =>
      (this,
       Thrown
        "No trained model data available. Please train the model first."%string)
  | Some _ =>
    if (List.length (userTrainingData this) =? 0)%nat then
      (this,
       Thrown
        "No trained model data available. Please train the model first."%string)
    else
      let uniqueProducts :=
        JsArray.unique
          (map UserTrainingData.productName (userTrainingData this)) in
      let loop :=
        fold_left (forEachProduct rt this) uniqueProducts
          {| newRecommendations := []; draws := 0; ticks := 0 |} in
      let newRecommendations :=
        JsArray.sort byUrgency (newRecommendations loop) in
      let kept :=
        filter (fun r => negb (Status.eqb (DiscountRecommendation.status r)
                                          Status.pending))
               (recommendations this) in
      ({| recommendations := (kept ++ newRecommendations)%list;
          decisions := decisions this;
          trainedModelData := trainedModelData this;
          userTrainingData := userTrainingData this |},
       Returned newRecommendations)
  end.

(** [r => r.id === recommendationId]. *)
Definition hasId (recommendationId : string)
    (r : DiscountRecommendation.t) : bool :=
  String.eqb (DiscountRecommendation.id r) recommendationId.

(** The mutation [approveRecommendation] makes on the object it found. *)
Definition approve (actualDiscount : option Q)
    (recommendation : DiscountRecommendation.t) : DiscountRecommendation.t :=
  let recommendation :=
    DiscountRecommendation.set_status Status.approved recommendation in
  match actualDiscount with
  | Some d =>
    if truthy d then
      let recommendation :=
        DiscountRecommendation.set_suggestedDiscountPercentage d
          recommendation in
      let recommendation :=
        DiscountRecommendation.set_discountedPrice
          (DiscountRecommendation.currentPrice recommendation
           * (1 - d / 100))
          recommendation in
      DiscountRecommendation.set_estimatedRevenueSaved
        (DiscountRecommendation.predictedWasteAmount recommendation
         * DiscountRecommendation.discountedPrice recommendation)
        recommendation
    else recommendation
  | None => recommendation
  end.

(** The object bound to [recommendation] is an element of the stored
    array: after the mutation, looking the id up again reads it back. *)
Definition approveRecommendation (rt : Runtime) (recommendationId : string)
    (actualDiscount : option Q) (notes : option string) (this : Service)
  : Service :=
  let recommendations' :=
    JsArray.updateFirst (hasId recommendationId) (approve actualDiscount)
      (recommendations this) in
  let recommendation := find (hasId recommendationId) recommendations' in
  let decision :=
    {| DiscountDecision.recommendationId := recommendationId;
       DiscountDecision.decision := Decision.approved;
       DiscountDecision.actualDiscountApplied :=
         or_else actualDiscount
           (option_map DiscountRecommendation.suggestedDiscountPercentage
              recommendation);
       DiscountDecision.ownerNotes := notes;
       DiscountDecision.timestamp := Date_now rt 0 |} in
  {| recommendations := recommendations';
     decisions := JsArray.push (decisions this) decision;
     trainedModelData := trainedModelData this;
     userTrainingData := userTrainingData this |}.

Definition rejectRecommendation (rt : Runtime) (recommendationId : string)
    (notes : option string) (this : Service) : Service :=
  let recommendations' :=
    JsArray.updateFirst (hasId recommendationId)
      (DiscountRecommendation.set_status Status.rejected)
      (recommendations this) in
  let decision :=
    {| DiscountDecision.recommendationId := recommendationId;
       DiscountDecision.decision := Decision.rejected;
       DiscountDecision.actualDiscountApplied := None;
       DiscountDecision.ownerNotes := notes;
       DiscountDecision.timestamp := Date_now rt 0 |} in
  {| recommendations := recommendations';
     decisions := JsArray.push (decisions this) decision;
     trainedModelData := trainedModelData this;
     userTrainingData := userTrainingData this |}.

Definition getPendingRecommendations (this : Service)
  : list DiscountRecommendation.t :=
  filter (fun r => Status.eqb (DiscountRecommendation.status r)
                              Status.pending)
         (recommendations this).

Definition clearRecommendations (this : Service) : Service :=
  {| recommendations := [];
     decisions := [];
     trainedModelData := trainedModelData this;
     userTrainingData := userTrainingData this |}.

(** [getAllRecommendations] sorts the stored array in place and returns
    it. *)
Definition newestFirst (a b : DiscountRecommendation.t) : Q :=
  inject_Z (DiscountRecommendation.timestamp b
            - DiscountRecommendation.timestamp a).

Definition getAllRecommendations (this : Service)
  : Service * list DiscountRecommendation.t :=
  let sorted := JsArray.sort newestFirst (recommendations this) in
  ({| recommendations := sorted;
      decisions := decisions this;
      trainedModelData := trainedModelData this;
      userTrainingData := userTrainingData this |},
   sorted).

Definition latestDecisionFirst (a b : DiscountDecision.t) : Q :=
  inject_Z (DiscountDecision.timestamp b - DiscountDecision.timestamp a).

(** [getDecisionHistory] does the same on the decisions. *)
Definition getDecisionHistory (this : Service)
  : Service * list DiscountDecision.t :=
  let sorted := JsArray.sort latestDecisionFirst (decisions this) in
  ({| recommendations := recommendations this;
      decisions := sorted;
      trainedModelData := trainedModelData this;
      userTrainingData := userTrainingData this |},
   sorted).

(** [this.recommendations.filter(r => r.status === s)]. *)
Definition withStatus (s : Status.t) (this : Service)
  : list DiscountRecommendation.t :=
  filter (fun r => Status.eqb (DiscountRecommendation.status r) s)
         (recommendations this).

(** The object [getRecommendationStats] returns. *)
Record Stats : Type := mkStats {
  total : nat;
  approved : nat;
  rejected : nat;
  pending : nat;
  approvalRate : Q;
  totalPotentialSavings : Q
}.

Definition getRecommendationStats (this : Service) : Stats :=
  let total := List.length (recommendations this) in
  let approved := List.length (withStatus Status.approved this) in
  let rejected := List.length (withStatus Status.rejected this) in
  let pending := List.length (withStatus Status.pending this) in
  let totalPotentialSavings :=
    JsArray.sumOf DiscountRecommendation.estimatedRevenueSaved
      (withStatus Status.approved this) in
  {| total := total;
     approved := approved;
     rejected := rejected;
     pending := pending;
     approvalRate :=
       if (0 <? total)%nat
       then Math_round ((of_nat approved / of_nat total) * 100) else 0;
     totalPotentialSavings :=
       Math_round (totalPotentialSavings * 100) / 100 |}.

End DiscountRecommendationService.

Module SessionStatus.
Inductive t : Type := training | completed | failed.
End SessionStatus.

Module TrainingSession.
Record t : Type := mk {
  id : string;
  timestamp : Z;
  dataPoints : list UserTrainingData.t;
  modelAccuracy : Q;
  status : SessionStatus.t
}.
End TrainingSession.

(* ================================================================= *)
(** ** userTrainingService.ts *)

Module UserTrainingService.

Import JsNum.

(** The service holds [trainingData]; the methods below read it. *)
Definition getProductData (trainingData : list UserTrainingData.t)
    (productName : string) : list UserTrainingData.t :=
  filter (fun d =>
            String.eqb
              (JsString.toLowerCase (UserTrainingData.productName d))
              (JsString.toLowerCase productName))
         trainingData.

Definition getCategoryData (trainingData : list UserTrainingData.t)
    (category : string) : list UserTrainingData.t :=
  filter (fun d =>
            String.eqb
              (JsString.toLowerCase (UserTrainingData.category d))
              (JsString.toLowerCase category))
         trainingData.

(** [if (s)] on an optional string argument. *)
Definition given (s : option string) : bool :=
  match s with
  | Some v => JsString.truthy v
  | None => false
  end.

(** The records [calculateWasteRate] works on. *)
Definition relevantData (trainingData : list UserTrainingData.t)
    (productName category : option string) : list UserTrainingData.t :=
  if given productName then
    getProductData trainingData
      (match productName with Some p => p | None => EmptyString end)
  else if given category then
    getCategoryData trainingData
      (match category with Some c => c | None => EmptyString end)
  else trainingData.

(** The part of [calculateWasteRate] after the selection. *)
Definition wasteRateOf (relevantData : list UserTrainingData.t) : Q :=
  if (List.length relevantData =? 0)%nat then 0
  else
    let totalInitialStock :=
      JsArray.sumOf UserTrainingData.initialStock relevantData in
    let totalWaste :=
      JsArray.sumOf UserTrainingData.wasteAmount relevantData in
    if totalInitialStock >? 0
    then (totalWaste / totalInitialStock) * 100 else 0.

Definition calculateWasteRate (trainingData : list UserTrainingData.t)
    (productName category : option string) : Q :=
  wasteRateOf (relevantData trainingData productName category).

(** The private fields of [UserTrainingService]. *)
Record State : Type := mkState {
  trainingData : list UserTrainingData.t;
  trainingSessions : list TrainingSession.t
}.

Definition addTrainingData (data : list UserTrainingData.t) (this : State)
  : State :=
  {| trainingData := (trainingData this ++ data)%list;
     trainingSessions := trainingSessions this |}.

Definition clearTrainingData (this : State) : State :=
  {| trainingData := []; trainingSessions := [] |}.

Definition getTrainingData (this : State) : list UserTrainingData.t :=
  trainingData this.

Module CategoryBreakdown.
Record t : Type := mk {
  category : string;
  count : nat;
  waste : Q
}.
End CategoryBreakdown.

Module DataSummary.
Record t : Type := mk {
  totalRecords : nat;
  categories : nat;
  totalWaste : Q;
  totalStock : Q;
  wastePercentage : Q;
  categoryBreakdown : list CategoryBreakdown.t
}.
End DataSummary.

(** [this.trainingData.filter(d => d.category === cat)]. *)
Definition inCategory (cat : string) (this : State)
  : list UserTrainingData.t :=
  filter (fun d => String.eqb (UserTrainingData.category d) cat)
         (trainingData this).

Definition getDataSummary (this : State) : DataSummary.t :=
  let categories :=
    JsArray.unique (map UserTrainingData.category (trainingData this)) in
  let totalWaste :=
    JsArray.sumOf UserTrainingData.wasteAmount (trainingData this) in
  let totalStock :=
    JsArray.sumOf UserTrainingData.initialStock (trainingData this) in
  let wastePercentage :=
    if totalStock >? 0 then (totalWaste / totalStock) * 100 else 0 in
  {| DataSummary.totalRecords := List.length (trainingData this);
     DataSummary.categories := List.length categories;
     DataSummary.totalWaste := totalWaste;
     DataSummary.totalStock := totalStock;
     DataSummary.wastePercentage := Math_round (wastePercentage * 10) / 10;
     DataSummary.categoryBreakdown :=
       map (fun cat =>
              {| CategoryBreakdown.category := cat;
                 CategoryBreakdown.count :=
                   List.length (inCategory cat this);
                 CategoryBreakdown.waste :=
                   JsArray.sumOf UserTrainingData.wasteAmount
                     (inCategory cat this) |})
           categories |}.

(** The synchronous part of [trainModel]: it throws on an empty store, or
    files a session in state [training], the object the promise later
    resolves to. *)
Definition trainModel (rt : Runtime) (this : State)
  : State * Outcome TrainingSession.t :=
  if (List.length (trainingData this) =? 0)%nat then
    (this,
     Thrown "No training data available. Please upload data first."%string)
  else
    let session :=
      {| TrainingSession.id :=
           ("session_"
            ++ Number_toString rt (inject_Z (Date_now rt 0)))%string;
         TrainingSession.timestamp := Date_now rt 1;
         TrainingSession.dataPoints := trainingData this;
         TrainingSession.modelAccuracy := 0;
         TrainingSession.status := SessionStatus.training |} in
    ({| trainingData := trainingData this;
        trainingSessions := JsArray.push (trainingSessions this) session |},
     Returned session).

(** What the timer callback of [trainModel] writes into the session
    object, from the store as it is when the timer fires. *)
Definition trainingCompleted (rt : Runtime) (this : State)
    (session : TrainingSession.t) : TrainingSession.t :=
  let dataQuality :=
    Math_min 100
      ((of_nat (List.length (trainingData this)) / 100) * 100) in
  let baseAccuracy := 65 in
  let qualityBonus := (dataQuality / 100) * 25 in
  let randomVariation := Math_random rt 0 * 10 in
  {| TrainingSession.id := TrainingSession.id session;
     TrainingSession.timestamp := TrainingSession.timestamp session;
     TrainingSession.dataPoints := TrainingSession.dataPoints session;
     TrainingSession.modelAccuracy :=
       Math_min 95 (baseAccuracy + qualityBonus + randomVariation);
     TrainingSession.status := SessionStatus.completed |}.

Definition latestSessionFirst (a b : TrainingSession.t) : Q :=
  inject_Z (TrainingSession.timestamp b - TrainingSession.timestamp a).

(** [getTrainingSessions] sorts the stored array in place and returns
    it. *)
Definition getTrainingSessions (this : State)
  : State * list TrainingSession.t :=
  let sorted := JsArray.sort latestSessionFirst (trainingSessions this) in
  ({| trainingData := trainingData this; trainingSessions := sorted |},
   sorted).

Definition getLatestSession (this : State)
  : State * option TrainingSession.t :=
  let sessions := getTrainingSessions this in
  (fst sessions,
   if (0 <? List.length (snd sessions))%nat then hd_error (snd sessions)
   else None).

(** [new Date(a) >= new Date(b)]: an invalid date, [None], compares false
    with everything. *)
Definition dateGeb (a b : option Q) : bool :=
  match a, b with
  | Some x, Some y => x >=? y
  | _, _ => false
  end.

(** The messages one row adds to [errors]; [parse] is
    [s => new Date(s).getTime()]. *)
Definition rowErrors (parse : string -> option Q)
    (row : UserTrainingData.t) (index : nat) : list string :=
  let label := ("Row " ++ JsString.ofNat (index + 1))%string in
  ((if negb (JsString.truthy
               (JsString.trim (UserTrainingData.productName row)))
    then [(label ++ ": Product name is required")%string] else [])
   ++ (if negb (JsString.truthy (UserTrainingData.purchaseDate row))
          || negb (JsString.truthy (UserTrainingData.expiryDate row))
       then [(label ++ ": Purchase and expiry dates are required")%string]
       else [])
   ++ (if dateGeb (parse (UserTrainingData.purchaseDate row))
                  (parse (UserTrainingData.expiryDate row))
       then [(label ++ ": Expiry date must be after purchase date")%string]
       else [])
   ++ (if (UserTrainingData.initialStock row <? 0)
          || (UserTrainingData.finalStock row <? 0)
          || (UserTrainingData.wasteAmount row <? 0)
       then [(label
              ++ ": Stock and waste amounts cannot be negative")%string]
       else [])
   ++ (if UserTrainingData.wasteAmount row
          >? UserTrainingData.initialStock row
       then [(label ++ ": Waste amount cannot exceed initial stock")%string]
       else [])
   ++ (if (UserTrainingData.temperature row <? -20)
          || (UserTrainingData.temperature row >? 120)
       then [(label ++ ": Temperature seems unrealistic")%string]
       else [])
   ++ (if (UserTrainingData.humidity row <? 0)
          || (UserTrainingData.humidity row >? 100)
       then [(label ++ ": Humidity must be between 0-100%")%string]
       else []))%list.

Record Validation : Type := mkValidation {
  valid : bool;
  errors : list string
}.

Definition validateData (parse : string -> option Q)
    (data : list UserTrainingData.t) : Validation :=
  let errors :=
    flat_map (fun entry => rowErrors parse (fst entry) (snd entry))
             (JsArray.indexedFrom 0 data) in
  {| valid := (List.length errors =? 0)%nat; errors := errors |}.

End UserTrainingService.

(* ================================================================= *)
(** ** mockData.ts: the product catalog *)

Module DealType.
Inductive t : Type := flash | waste_reduction | regular.

Definition eqb (a b : t) : bool :=
  match a, b with
  | flash, flash | waste_reduction, waste_reduction
  | regular, regular => true
  | _, _ => false
  end.
End DealType.

Module Deal.
Record t : Type := mk {
  type : DealType.t;
  discount : Q;
  originalPrice : Q;
  expiryHours : option Q
}.
End Deal.

Module WasteRisk.
Inductive t : Type := low | medium | high.
End WasteRisk.

Module Product.
Record t : Type := mk {
  id : string;
  name : string;
  category : string;
  price : Q;
  image : string;
  rating : Q;
  reviews : Q;
  deal : option Deal.t;
  wasteRisk : option WasteRisk.t
}.
End Product.

(** The projection of a product the chatbot hands out. *)
Module ProductCard.
Record t : Type := mk {
  id : string;
  name : string;
  price : Q;
  image : string;
  category : string;
  deal : option Deal.t
}.
End ProductCard.

Module MockData.

Local Open Scope string_scope.

Definition pexels (photo : string) : string :=
  "https://images.pexels.com/photos/" ++ photo
  ++ "?auto=compress&cs=tinysrgb&w=400".

Definition mockProducts : list Product.t :=
  [ Product.mk "1" "Organic Bananas (3 lbs)" "groceries" 2.49
      (pexels "2872755/pexels-photo-2872755.jpeg") 4.5 234
      (Some (Deal.mk DealType.flash 40 4.15 (Some 2)))
      (Some WasteRisk.high);
    Product.mk "2" "Fresh Milk (1 Gallon)" "groceries" 3.99
      (pexels "416978/pexels-photo-416978.jpeg") 4.7 456
      (Some (Deal.mk DealType.flash 25 5.32 (Some 4)))
      (Some WasteRisk.medium);
    Product.mk "3" "Premium Bread Loaf" "groceries" 2.99
      (pexels "1640777/pexels-photo-1640777.jpeg") 4.3 189
      (Some (Deal.mk DealType.flash 35 4.60 (Some 6)))
      (Some WasteRisk.high);
    Product.mk "4" "Greek Yogurt (32oz)" "groceries" 4.49
      (pexels "1435735/pexels-photo-1435735.jpeg") 4.6 321
      (Some (Deal.mk DealType.flash 30 6.41 (Some 8)))
      (Some WasteRisk.medium);
    Product.mk "5" "Mixed Vegetables (2 lbs)" "groceries" 3.79
      (pexels "143133/pexels-photo-143133.jpeg") 4.4 276
      (Some (Deal.mk DealType.waste_reduction 20 4.74 None))
      (Some WasteRisk.medium);
    Product.mk "6" "Chicken Breast (2 lbs)" "groceries" 8.99
      (pexels "616401/pexels-photo-616401.jpeg") 4.8 543
      (Some (Deal.mk DealType.waste_reduction 15 10.58 None))
      (Some WasteRisk.low);
    Product.mk "7" "Seasonal Apples (3 lbs)" "groceries" 4.29
      (pexels "102104/pexels-photo-102104.jpeg") 4.5 198
      (Some (Deal.mk DealType.waste_reduction 25 5.72 None))
      (Some WasteRisk.medium);
    Product.mk "8" "Cheese Slices (12oz)" "groceries" 3.49
      (pexels "773253/pexels-photo-773253.jpeg") 4.2 167
      (Some (Deal.mk DealType.waste_reduction 18 4.26 None))
      (Some WasteRisk.low);
    Product.mk "9" "Wireless Headphones" "electronics" 149.99
      (pexels "3394650/pexels-photo-3394650.jpeg") 4.7 892
      (Some (Deal.mk DealType.regular 10 166.66 None)) None;
    Product.mk "10" "Smartphone Pro Max" "electronics" 699.99
      (pexels "607812/pexels-photo-607812.jpeg") 4.8 1234
      (Some (Deal.mk DealType.regular 5 736.83 None)) None;
    Product.mk "11" "Cotton T-Shirt" "clothing" 8.99
      (pexels "996329/pexels-photo-996329.jpeg") 4.3 445
      (Some (Deal.mk DealType.regular 15 10.58 None)) None;
    Product.mk "12" "Home DÃ©cor Lamp" "home" 34.99
      (pexels "1884581/pexels-photo-1884581.jpeg") 4.6 267 None None;
    Product.mk "13" "Kitchen Blender" "home" 89.99
      (pexels "4226882/pexels-photo-4226882.jpeg") 4.5 678 None None;
    Product.mk "14" "Running Shoes" "clothing" 79.99
      (pexels "2529148/pexels-photo-2529148.jpeg") 4.4 523 None None;
    Product.mk "15" "Laptop Computer" "electronics" 899.99
      (pexels "205421/pexels-photo-205421.jpeg") 4.7 345 None None;
    Product.mk "16" "Coffee Maker" "home" 129.99
      (pexels "324028/pexels-photo-324028.jpeg") 4.6 234 None None ].

End MockData.

(* ================================================================= *)
(** ** chatbotService.ts: the classification of an utterance *)

Module ChatbotService.

Import JsNum.
Local Open Scope string_scope.

(** The object literal [categories]; [Object.entries] lists its keys in
    the order they are written. *)
Definition categories : list (string * list string) :=
  [ ("groceries",
     ["grocery"; "groceries"; "food"; "eat"; "cooking"; "kitchen"; "fresh";
      "organic"; "fruit"; "vegetable"; "meat"; "dairy"; "bread"; "milk";
      "cheese"; "snack"; "beverage"; "drink"; "produce"; "frozen";
      "canned"; "pantry"; "breakfast"; "lunch"; "dinner"; "healthy";
      "nutrition"]);
    ("electronics",
     ["electronics"; "electronic"; "phone"; "smartphone"; "laptop";
      "computer"; "headphones"; "tech"; "gadget"; "device"; "tablet"; "tv";
      "television"; "camera"; "gaming"; "console"; "smart"; "wireless";
      "bluetooth"; "charger"]);
    ("clothing",
     ["clothing"; "clothes"; "shirt"; "pants"; "dress"; "shoes"; "fashion";
      "wear"; "outfit"; "jacket"; "jeans"; "sweater"; "boots"; "sneakers";
      "accessories"; "hat"; "belt"; "style"; "size"; "color"]);
    ("home",
     ["home"; "house"; "furniture"; "decor"; "kitchen"; "bedroom";
      "living room"; "appliance"; "lamp"; "blender"; "cleaning";
      "organization"; "storage"; "bathroom"; "garden"; "outdoor"; "tools";
      "improvement"]) ].

(** The object literal [intents], in the order it is written. *)
Definition intents : list (string * list string) :=
  [ ("search_product",
     ["looking for"; "need"; "want"; "find"; "search"; "show me"; "get me";
      "where can i find"; "do you have"; "i'm looking"; "help me find"]);
    ("price_inquiry",
     ["cheap"; "expensive"; "budget"; "affordable"; "cost"; "price";
      "money"; "under"; "less than"; "maximum"; "minimum"; "range";
      "how much"]);
    ("deal_inquiry",
     ["deal"; "deals"; "discount"; "sale"; "offer"; "promotion"; "bargain";
      "special"; "clearance"; "markdown"; "reduced"; "savings"; "coupon"]);
    ("recommendation",
     ["recommend"; "suggest"; "advice"; "help"; "what should"; "best";
      "popular"; "trending"; "top rated"; "favorite"; "good choice"]);
    ("comparison",
     ["compare"; "difference"; "better"; "versus"; "vs"; "which one";
      "pros and cons"; "similar"; "alternative"; "option"]);
    ("greeting",
     ["hi"; "hello"; "hey"; "good morning"; "good afternoon";
      "good evening"; "howdy"; "greetings"; "what's up"]);
    ("waste_reduction",
     ["eco"; "environment"; "waste"; "sustainable"; "green"; "expiring";
      "organic"; "natural"; "recyclable"; "biodegradable";
      "earth friendly"]);
    ("complaint",
     ["problem"; "issue"; "wrong"; "broken"; "defective"; "complaint";
      "disappointed"; "unsatisfied"; "return"; "refund"]);
    ("compliment",
     ["great"; "awesome"; "excellent"; "perfect"; "amazing"; "wonderful";
      "fantastic"; "love"; "thank you"; "thanks"; "helpful"]) ].

(** [keywords.filter(keyword => lowerMessage.includes(keyword))]. *)
Definition matchesOf (lowerMessage : string) (keywords : list string)
  : list string :=
  filter (fun keyword => JsString.includes lowerMessage keyword) keywords.

(** The loop [for (const [intent, keywords] of Object.entries(intents))]
    with its [break], started from [detectedIntent = 'general'] and
    [confidence = 0.5]. *)
Fixpoint detectIntent (table : list (string * list string))
    (lowerMessage : string) (context : list string) : string * Q :=
  match table with
  | [] => ("general", 0.5)
  | (intent, keywords) :: table' =>
    let matches := matchesOf lowerMessage keywords in
    if (0 <? List.length matches)%nat then
      let confidence :=
        Math_min 0.95 (0.6 + of_nat (List.length matches) * 0.1) in
      let contextSupport :=
        existsb (fun ctx =>
                   existsb (fun keyword =>
                              JsString.includes (JsString.toLowerCase ctx)
                                                keyword)
                           keywords)
                context in
      let confidence :=
        if (0 <? List.length context)%nat && contextSupport
        then confidence + 0.1 else confidence in
      (intent, confidence)
    else detectIntent table' lowerMessage context
  end.

(** The loop over [categories]: every category with a matching keyword,
    in table order. *)
Definition detectCategories (lowerMessage : string) : list string :=
  map fst
    (filter (fun entry =>
               (0 <? List.length (matchesOf lowerMessage (snd entry)))%nat)
            categories).

Inductive Sentiment : Type := positive | neutral | negative.
Inductive Urgency : Type := urgency_low | urgency_medium | urgency_high.

Definition positiveWords : list string :=
  ["good"; "great"; "excellent"; "love"; "like"; "awesome"; "perfect";
   "amazing"].
Definition negativeWords : list string :=
  ["bad"; "terrible"; "hate"; "dislike"; "awful"; "horrible"; "worst";
   "disappointed"].
Definition urgentWords : list string :=
  ["urgent"; "asap"; "immediately"; "now"; "quick"; "fast"; "emergency"].
Definition mediumUrgencyWords : list string :=
  ["soon"; "today"; "this week"; "need"].

Record Analysis : Type := mkAnalysis {
  intent : string;
  entities : list string;
  confidence : Q;
  sentiment : Sentiment;
  urgency : Urgency
}.

(** The value [analyzeIntent] returns.  Its writes to the conversation
    memory (the interest lists, the price range) are not part of the
    returned value and are left out. *)
Definition analyzeIntent (message : string) (context : list string)
  : Analysis :=
  let lowerMessage := JsString.toLowerCase message in
  let detected := detectIntent intents lowerMessage context in
  let positiveCount :=
    List.length (matchesOf lowerMessage positiveWords) in
  let negativeCount :=
    List.length (matchesOf lowerMessage negativeWords) in
  {| intent := fst detected;
     entities := detectCategories lowerMessage;
     confidence := snd detected;
     sentiment :=
       if (negativeCount <? positiveCount)%nat then positive
       else if (positiveCount <? negativeCount)%nat then negative
       else neutral;
     urgency :=
       if existsb (fun word => JsString.includes lowerMessage word)
                  urgentWords
       then urgency_high
       else if existsb (fun word => JsString.includes lowerMessage word)
                       mediumUrgencyWords
       then urgency_medium
       else urgency_low |}.

(** *** The conversation memory *)

Record PriceRange : Type := mkPriceRange {
  min : Q;
  max : Q
}.

Record ConversationMemory : Type := mkConversationMemory {
  userInterests : list string;
  preferredCategories : list string;
  priceRange : option PriceRange;
  previousPurchases : list string;
  sessionStartTime : Z
}.

(** [l.includes(x)] on an array of strings. *)
Definition arrayIncludes (l : list string) (x : string) : bool :=
  existsb (fun y => String.eqb y x) l.

Definition updateUserInterests (category : string)
    (memory : ConversationMemory) : ConversationMemory :=
  {| userInterests :=
       if arrayIncludes (userInterests memory) category
       then userInterests memory
       else JsArray.push (userInterests memory) category;
     preferredCategories :=
       if arrayIncludes (preferredCategories memory) category
       then preferredCategories memory
       else JsArray.push (preferredCategories memory) category;
     priceRange := priceRange memory;
     previousPurchases := previousPurchases memory;
     sessionStartTime := sessionStartTime memory |}.

(** One alternative of the price pattern, anchored at the start of [s]: the
    keyword, an optional dollar sign, and the digits captured. *)
Definition priceAfter (keyword s : string) : option string :=
  match JsString.stripPrefix keyword s with
  | None => None
  | Some rest =>
      let rest :=
        match rest with
        | String "$" rest' => rest'
        | _ => rest
        end in
      let digits := JsString.leadingDigits rest in
      if JsString.truthy digits then Some digits else None
  end.

(** The alternatives [under \$?(\d+)|less than \$?(\d+)|maximum \$?(\d+)|
    max \$?(\d+)], tried in that order at one position. *)
Definition priceAt (s : string) : option string :=
  match priceAfter "under " s with
  | Some digits => Some digits
  | None =>
    match priceAfter "less than " s with
    | Some digits => Some digits
    | None =>
      match priceAfter "maximum " s with
      | Some digits => Some digits
      | None => priceAfter "max " s
      end
    end
  end.

(** [lowerMessage.match(...)]: the match at the leftmost position that has
    one; the value is the captured group. *)
Fixpoint priceMatch (s : string) : option string :=
  match priceAt s with
  | Some digits => Some digits
  | None =>
      match s with
      | EmptyString => None
      | String _ s' => priceMatch s'
      end
  end.

(** What [analyzeIntent] writes to the conversation memory: the categories
    detected, and the price range when the pattern matches. *)
Definition remember (message : string) (memory : ConversationMemory)
  : ConversationMemory :=
  let lowerMessage := JsString.toLowerCase message in
  let memory :=
    fold_left (fun m category => updateUserInterests category m)
              (detectCategories lowerMessage) memory in
  match priceMatch lowerMessage with
  | Some digits =>
      let maxPrice := inject_Z (Z.of_N (JsString.digitsValue 0 digits)) in
      {| userInterests := userInterests memory;
         preferredCategories := preferredCategories memory;
         priceRange := Some {| min := 0; max := maxPrice |};
         previousPurchases := previousPurchases memory;
         sessionStartTime := sessionStartTime memory |}
  | None => memory
  end.

(** *** Selecting products; [mockProducts] is the imported catalog *)

Definition toCard (product : Product.t) : ProductCard.t :=
  {| ProductCard.id := Product.id product;
     ProductCard.name := Product.name product;
     ProductCard.price := Product.price product;
     ProductCard.image := Product.image product;
     ProductCard.category := Product.category product;
     ProductCard.deal := Product.deal product |}.

(** [product.deal ? 1 : 0]. *)
Definition hasDeal (product : Product.t) : Q :=
  match Product.deal product with
  | Some _ => 1
  | None => 0
  end.

(** [product.deal?.discount || 0]. *)
Definition discountOr0 (product : Product.t) : Q :=
  match Product.deal product with
  | Some d => if truthy (Deal.discount d) then Deal.discount d else 0
  | None => 0
  end.

Definition getPersonalizedProducts (mockProducts : list Product.t)
    (category : string) (limit : nat) (priceRange : option PriceRange)
  : list ProductCard.t :=
  let filteredProducts :=
    filter (fun product => String.eqb (Product.category product) category)
           mockProducts in
  let filteredProducts :=
    match priceRange with
    | Some range =>
        filter (fun product =>
                  (Product.price product >=? min range)%Q
                  && (Product.price product <=? max range)%Q)
               filteredProducts
    | None => filteredProducts
    end in
  let filteredProducts :=
    JsArray.sort (fun a b =>
                    let aHasDeal := hasDeal a in
                    let bHasDeal := hasDeal b in
                    bHasDeal - aHasDeal)
                 filteredProducts in
  map toCard (JsArray.slice0 limit filteredProducts).

Definition getDealsProducts (mockProducts : list Product.t) (limit : nat)
  : list ProductCard.t :=
  map toCard
    (JsArray.slice0 limit
       (JsArray.sort (fun a b => discountOr0 b - discountOr0 a)
          (filter (fun product =>
                     match Product.deal product with
                     | Some _ => true
                     | None => false
                     end)
                  mockProducts))).

Definition getBudgetProducts (mockProducts : list Product.t) (limit : nat)
    (maxPrice : Q) : list ProductCard.t :=
  map toCard
    (JsArray.slice0 limit
       (JsArray.sort (fun a b => Product.price a - Product.price b)
          (filter (fun product => (Product.price product <=? maxPrice)%Q)
                  mockProducts))).

(** [product.deal?.type === t]. *)
Definition dealTypeIs (t : DealType.t) (product : Product.t) : bool :=
  match Product.deal product with
  | Some d => DealType.eqb (Deal.type d) t
  | None => false
  end.

Definition getWasteReductionProducts (mockProducts : list Product.t)
    (limit : nat) : list ProductCard.t :=
  map toCard
    (JsArray.slice0 limit
       (filter (fun product =>
                  dealTypeIs DealType.waste_reduction product
                  || dealTypeIs DealType.flash product)
               mockProducts)).

Definition getSmartRecommendations (mockProducts : list Product.t)
    (memory : ConversationMemory) (limit : nat) : list ProductCard.t :=
  let preferredCategories :=
    if (0 <? List.length (preferredCategories memory))%nat
    then preferredCategories memory
    else ["groceries"; "electronics"] in
  let recommendations :=
    fold_left
      (fun recommendations category =>
         (recommendations
          ++ getPersonalizedProducts mockProducts category 2
               (priceRange memory))%list)
      preferredCategories [] in
  let recommendations :=
    if (List.length recommendations =? 0)%nat
    then getDealsProducts mockProducts limit
    else recommendations in
  JsArray.slice0 limit recommendations.

(** *** Suggestions and responses *)

(** The object literal [baseSuggestions]. *)
Definition baseSuggestions : list (string * list string) :=
  [ ("search_product",
     ["Show me more options"; "Compare similar items"; "Filter by price";
      "Show customer reviews"]);
    ("deal_inquiry",
     ["Flash sales"; "Clearance items"; "Bundle deals"; "Weekly specials"]);
    ("recommendation",
     ["Best sellers"; "Customer favorites"; "New arrivals"; "Trending now"]);
    ("price_inquiry",
     ["Budget under $25"; "Premium options"; "Best value deals";
      "Price comparison"]);
    ("waste_reduction",
     ["Eco-friendly products"; "Sustainable brands"; "Organic options";
      "Recyclable items"]);
    ("greeting",
     ["Browse categories"; "Today's deals"; "Popular items";
      "Help me find something"]) ].

(** [baseSuggestions[intent] || baseSuggestions.greeting], for the intent
    names the service passes. *)
Definition suggestionsFor (intent : string) : list string :=
  match find (fun entry => String.eqb (fst entry) intent) baseSuggestions with
  | Some entry => snd entry
  | None =>
      ["Browse categories"; "Today's deals"; "Popular items";
       "Help me find something"]
  end.

Definition generateContextualSuggestions (memory : ConversationMemory)
    (intent : string) (entities : list string) : list string :=
  let suggestions := suggestionsFor intent in
  let suggestions :=
    if (0 <? List.length entities)%nat then
      fold_left
        (fun suggestions entity =>
           JsArray.push
             (JsArray.push suggestions ("More " ++ entity ++ " items"))
             (entity ++ " deals"))
        entities suggestions
    else suggestions in
  let suggestions :=
    if (0 <? List.length (preferredCategories memory))%nat then
      match preferredCategories memory with
      | topCategory :: _ =>
          JsArray.push suggestions ("Recommended " ++ topCategory)
      | [] => suggestions
      end
    else suggestions in
  JsArray.slice0 4 suggestions.

Record ChatResponse : Type := mkChatResponse {
  message : string;
  products : option (list ProductCard.t);
  suggestions : option (list string)
}.

Record UserEngagement : Type := mkUserEngagement {
  totalMessages : nat;
  productsViewed : nat;
  productsAddedToCart : nat;
  averageResponseTime : Q
}.

Inductive Feedback : Type := feedback_positive | feedback_negative.

(** The private fields of [ChatbotService]; [feedbackData] lists the
    feedback recorded, latest first. *)
Record State : Type := mkState {
  conversationHistory : list string;
  conversationMemory : ConversationMemory;
  feedbackData : list (string * Feedback);
  userEngagement : UserEngagement
}.

(** [this.conversationMemory.priceRange?.max || 50]. *)
Definition budgetOf (memory : ConversationMemory) : Q :=
  match priceRange memory with
  | Some range => if truthy (max range) then max range else 50
  | None => 50
  end.

(** The [switch] of [generateResponse], on the analysis and the memory as
    [analyzeIntent] left it; [hour] is [new Date().getHours()]. *)
Definition respond (rt : Runtime) (hour : nat)
    (mockProducts : list Product.t) (memory : ConversationMemory)
    (analysis : Analysis) (context : list string) : ChatResponse :=
  let response :=
    {| message :=
         "I understand you're looking for products. Could you be more specific about what you need?";
       products := None;
       suggestions :=
         Some (generateContextualSuggestions memory (intent analysis)
                 (entities analysis)) |} in
  let intentIs name := String.eqb (intent analysis) name in
  if intentIs "greeting" then
    let greeting :=
      if (hour <? 12)%nat then "Good morning"
      else if (hour <? 18)%nat then "Good afternoon" else "Good evening" in
    {| message :=
         greeting
         ++ "! Welcome to Walmart! I'm your AI shopping assistant powered by SmartWaste technology. I can help you find products, discover deals, and make eco-friendly choices. What brings you here today?";
       products := None;
       suggestions :=
         Some ["Show me today's deals"; "I need groceries";
               "Electronics on sale"; "Eco-friendly products"] |}
  else if intentIs "search_product" then
    match entities analysis with
    | category :: _ =>
        {| message :=
             "Perfect! I found some excellent " ++ category
             ++ " products for you"
             ++ (match priceRange memory with
                 | Some _ => " within your budget"
                 | None => ""
                 end)
             ++ ". Here are my top recommendations:";
           products :=
             Some (getPersonalizedProducts mockProducts category 4
                     (priceRange memory));
           suggestions :=
             Some (generateContextualSuggestions memory (intent analysis)
                     (entities analysis)) |}
    | [] =>
        {| message :=
             "I'd love to help you find the perfect products! What category interests you most, or do you have something specific in mind?";
           products := None;
           suggestions :=
             Some ["Groceries"; "Electronics"; "Clothing"; "Home & Garden";
                   "Show me deals"] |}
    end
  else if intentIs "deal_inquiry" then
    {| message :=
         "Fantastic! I've found some incredible deals for you. Our SmartWaste AI has identified these special offers that help reduce waste while saving you money:";
       products := Some (getDealsProducts mockProducts 4);
       suggestions :=
         Some ["More flash sales"; "Clearance items"; "Eco-friendly deals";
               "Category-specific deals"] |}
  else if intentIs "price_inquiry" then
    let maxPrice := budgetOf memory in
    {| message :=
         "Great! I've found some excellent budget-friendly options"
         ++ (if Qeq_bool maxPrice 50 then ""
             else " under $" ++ Number_toString rt maxPrice)
         ++ ". These products offer outstanding value:";
       products := Some (getBudgetProducts mockProducts 4 maxPrice);
       suggestions :=
         Some ["More budget items"; "Best value deals"; "Clearance section";
               "Bundle savings"] |}
  else if intentIs "waste_reduction" then
    {| message :=
         "Excellent choice for sustainable shopping! Here are eco-friendly deals from our SmartWaste AI system. These products help reduce waste while offering great savings:";
       products := Some (getWasteReductionProducts mockProducts 4);
       suggestions :=
         Some ["More eco deals"; "Sustainable brands"; "Organic products";
               "Learn about our impact"] |}
  else if intentIs "recommendation" then
    {| message :=
         "Based on your interests and our conversation, here are my personalized recommendations for you:";
       products := Some (getSmartRecommendations mockProducts memory 4);
       suggestions :=
         Some ["More like these"; "Customer favorites"; "Trending items";
               "New arrivals"] |}
  else if intentIs "comparison" then
    {| message :=
         "I'd be happy to help you compare products! Could you tell me which specific items or categories you'd like me to compare?";
       products := None;
       suggestions :=
         Some ["Compare phones"; "Best vs budget options";
               "Brand comparison"; "Feature comparison"] |}
  else if intentIs "complaint" then
    {| message :=
         "I'm sorry to hear you're having an issue. I want to help make this right. Could you tell me more about the problem so I can assist you better?";
       products := None;
       suggestions :=
         Some ["Return policy"; "Contact customer service";
               "Product replacement"; "Refund information"] |}
  else if intentIs "compliment" then
    {| message :=
         "Thank you so much! I'm delighted I could help. Is there anything else you'd like to explore or any other way I can assist you today?";
       products := None;
       suggestions :=
         Some ["Browse more products"; "Check out deals"; "Save favorites";
               "Share with friends"] |}
  else
    match entities analysis with
    | category :: _ =>
        {| message :=
             "I found some great " ++ category
             ++ " products that might interest you:";
           products :=
             Some (getPersonalizedProducts mockProducts category 4 None);
           suggestions :=
             Some (generateContextualSuggestions memory "search_product"
                     (entities analysis)) |}
    | [] =>
        if (0 <? List.length context)%nat then
          {| message :=
               "Based on our conversation, here are some products I think you might like:";
             products :=
               Some (getSmartRecommendations mockProducts memory 4);
             suggestions :=
               Some ["Tell me more"; "Different category"; "Price range";
                     "Special offers"] |}
        else response
    end.

Definition generateResponse (rt : Runtime) (hour : nat)
    (mockProducts : list Product.t) (userMessage : string)
    (context : list string) (this : State) : State * ChatResponse :=
  let memory := remember userMessage (conversationMemory this) in
  let analysis := analyzeIntent userMessage context in
  ({| conversationHistory :=
        JsArray.push (conversationHistory this) userMessage;
      conversationMemory := memory;
      feedbackData := feedbackData this;
      userEngagement :=
        {| totalMessages := S (totalMessages (userEngagement this));
           productsViewed := productsViewed (userEngagement this);
           productsAddedToCart :=
             productsAddedToCart (userEngagement this);
           averageResponseTime :=
             averageResponseTime (userEngagement this) |} |},
   respond rt hour mockProducts memory analysis context).

Definition getConversationContext (this : State) : list string :=
  JsArray.lastN 5 (conversationHistory this).

Definition clearHistory (rt : Runtime) (this : State) : State :=
  {| conversationHistory := [];
     conversationMemory :=
       {| userInterests := [];
          preferredCategories := [];
          priceRange := None;
          previousPurchases := [];
          sessionStartTime := Date_now rt 0 |};
     feedbackData := [];
     userEngagement := userEngagement this |}.

End ChatbotService.

(* ================================================================= *)
(** ** Vocabulary of the specification *)

(** The discount rule as section 4.2 of the specification words it: a base
    from the waste-percentage ladder, times the urgency multiplier, times
    the history multiplier, rounded and clamped. *)
Module Spec.

Import JsNum.

Definition baseDiscount (w : Q) : Q :=
  if w >=? 60 then 50
  else if w >=? 40 then 35
  else if w >=? 25 then 25
  else if w >=? 15 then 15
  else 10.

Definition urgencyMultiplier (h : Q) : Q :=
  if h <=? 6 then 1.4
  else if h <=? 12 then 1.2
  else if h <=? 24 then 1.1
  else 1.

Definition historyMultiplier (n : nat) : Q :=
  if (5 <=? n)%nat then 1.1 else 1.

Definition clamp (lo hi x : Q) : Q :=
  if x <? lo then lo else if x >? hi then hi else x.

Definition optimalDiscount (w h : Q) (n : nat) : Q :=
  clamp 5 70
    (Math_round (baseDiscount w * urgencyMultiplier h * historyMultiplier n)).

(** The stock-level factor as the specification words it: above 100 the
    factor is 1.2, otherwise above 50 it is 1.1. *)
Definition stockFactor (currentStock : Q) : Q :=
  if currentStock >? 100 then 1.2
  else if currentStock >? 50 then 1.1
  else 1.

(** [x] rounded to two decimal places. *)
Definition round2 (x : Q) : Q := Math_round (x * 100) / 100.

(** The historical waste rate as the specification words it: 0 over an
    empty subset, otherwise the sum of the waste amounts divided by the
    sum of the initial stocks, times 100; the quotient has no value when
    the sum of the initial stocks is 0. *)
Definition historicalWasteRate (subset : list UserTrainingData.t)
  : option Q :=
  match subset with
  | [] => Some 0
  | _ :: _ =>
      let totalInitialStock :=
        JsArray.sumOf UserTrainingData.initialStock subset in
      if Qeq_bool totalInitialStock 0 then None
      else Some (JsArray.sumOf UserTrainingData.wasteAmount subset
                 / totalInitialStock * 100)
  end.

End Spec.

(** A historical record with its [initialStock] and [wasteAmount] doubled. *)
Definition doubled (d : UserTrainingData.t) : UserTrainingData.t :=
  UserTrainingData.mk
    (UserTrainingData.productName d) (UserTrainingData.category d)
    (UserTrainingData.purchaseDate d) (UserTrainingData.expiryDate d)
    (2 * UserTrainingData.initialStock d) (UserTrainingData.finalStock d)
    (2 * UserTrainingData.wasteAmount d) (UserTrainingData.temperature d)
    (UserTrainingData.humidity d) (UserTrainingData.promotionActive d)
    (UserTrainingData.location d).

(** The decision calls an operator can make on the service, and a session
    of such calls. *)
Inductive Call : Type :=
| Approve (recommendationId : string) (actualDiscount : option Q)
          (notes : option string)
| Reject (recommendationId : string) (notes : option string).

Definition targetOf (c : Call) : string :=
  match c with
  | Approve recommendationId _ _ => recommendationId
  | Reject recommendationId _ => recommendationId
  end.

Definition perform (rt : Runtime) (this : Service) (c : Call) : Service :=
  match c with
  | Approve recommendationId actualDiscount notes =>
      DiscountRecommendationService.approveRecommendation rt
        recommendationId actualDiscount notes this
  | Reject recommendationId notes =>
      DiscountRecommendationService.rejectRecommendation rt
        recommendationId notes this
  end.

Definition session (rt : Runtime) (calls : list Call) (this : Service)
  : Service :=
  fold_left (perform rt) calls this.

Definition decided (s : Status.t) : Prop :=
  s = Status.approved \/ s = Status.rejected.

Definition isPending (r : DiscountRecommendation.t) : Prop :=
  DiscountRecommendation.status r = Status.pending.

(** The first entry of an intent table with a keyword occurring in the
    lower-cased utterance. *)
Definition entryMatches (lowerMessage : string)
    (entry : string * list string) : bool :=
  existsb (fun keyword => JsString.includes lowerMessage keyword) (snd entry).

(** The upload handler of the training page (Home.tsx, [handleDataUpload]),
    as far as the training store goes: a batch is added only when it
    validates. *)
Definition handleDataUpload (parse : string -> option Q)
    (data : list UserTrainingData.t) (this : UserTrainingService.State)
  : UserTrainingService.State :=
  if UserTrainingService.valid (UserTrainingService.validateData parse data)
  then UserTrainingService.addTrainingData data this
  else this.

(** The conditions [validateData] puts on a row. *)
Definition rowAccepted (parse : string -> option Q)
    (row : UserTrainingData.t) : Prop :=
  JsString.trim (UserTrainingData.productName row) <> EmptyString
  /\ UserTrainingData.purchaseDate row <> EmptyString
  /\ UserTrainingData.expiryDate row <> EmptyString
  /\ UserTrainingService.dateGeb
       (parse (UserTrainingData.purchaseDate row))
       (parse (UserTrainingData.expiryDate row)) = false
  /\ 0 <= UserTrainingData.initialStock row
  /\ 0 <= UserTrainingData.finalStock row
  /\ 0 <= UserTrainingData.wasteAmount row
  /\ UserTrainingData.wasteAmount row <= UserTrainingData.initialStock row
  /\ -20 <= UserTrainingData.temperature row <= 120
  /\ 0 <= UserTrainingData.humidity row <= 100.

(** Descending order of a numeric key along a list. *)
Definition descendingBy {A : Type} (key : A -> Q) (l : list A) : Prop :=
  StronglySorted (fun a b => key b <= key a) l.

(** The score the generator ranks a recommendation by. *)
Definition urgencyOf (r : DiscountRecommendation.t) : Q :=
  (DiscountRecommendation.predictedWastePercentage r / 100)
  * (72 - DiscountRecommendation.hoursUntilExpiry r) / 72.

(** [Math.random] returns a number in [0, 1). *)
Definition fairRandom (rt : Runtime) : Prop :=
  forall n, 0 <= Math_random rt n < 1.

(** What every generated recommendation satisfies. *)
Definition wellFormed (r : DiscountRecommendation.t) : Prop :=
  DiscountRecommendation.status r = Status.pending
  /\ 20 <= DiscountRecommendation.currentStock r <= 99
  /\ 6 <= DiscountRecommendation.hoursUntilExpiry r <= 77
  /\ 2 <= DiscountRecommendation.currentPrice r <= 17
  /\ 5 <= DiscountRecommendation.suggestedDiscountPercentage r <= 70
  /\ 0 <= DiscountRecommendation.predictedWastePercentage r <= 100
  /\ 0 <= DiscountRecommendation.predictedWasteAmount r
       <= DiscountRecommendation.currentStock r
  /\ 50 <= DiscountRecommendation.confidence r <= 95
  /\ 0 <= DiscountRecommendation.discountedPrice r
       <= DiscountRecommendation.currentPrice r
  /\ (0 < DiscountRecommendation.basedOnDataPoints r)%nat.

(** The levels of risk, by increasing severity. *)
Definition riskRank (level : RiskLevel) : nat :=
  match level with
  | low => 0
  | medium => 1
  | high => 2
  | critical => 3
  end.

(** The decision a call records. *)
Definition kindOf (c : Call) : Decision.t :=
  match c with
  | Approve _ _ _ => Decision.approved
  | Reject _ _ => Decision.rejected
  end.

(** What identifies a decision in the log: the id it names and its kind. *)
Definition logEntry (d : DiscountDecision.t) : string * Decision.t :=
  (DiscountDecision.recommendationId d, DiscountDecision.decision d).

(** The status a decision writes. *)
Definition statusOf (k : Decision.t) : Status.t :=
  match k with
  | Decision.approved => Status.approved
  | Decision.rejected => Status.rejected
  end.

(** The status a session leaves on the recommendation an id resolves to,
    from the status [s] it had: every call naming the id writes its own
    decision, the other calls write nothing. *)
Definition statusAfter (calls : list Call) (recommendationId : string)
    (s : Status.t) : Status.t :=
  fold_left
    (fun s c =>
       if String.eqb (targetOf c) recommendationId
       then statusOf (kindOf c) else s)
    calls s.

(** Position [i] of the stored list [l] is where [find] resolves the id
    of [r]: no earlier element has that id. *)
Definition resolvedAt (l : list DiscountRecommendation.t) (i : nat)
    (r : DiscountRecommendation.t) : Prop :=
  find (DiscountRecommendationService.hasId (DiscountRecommendation.id r))
       (firstn i l)
  = None.



(** A series of uploads through the handler. *)
Definition uploads (parse : string -> option Q)
    (batches : list (list UserTrainingData.t))
    (this : UserTrainingService.State) : UserTrainingService.State :=
  fold_left (fun store data => handleDataUpload parse data store)
            batches this.

(** Ascending order of a numeric key along a list. *)
Definition ascendingBy {A : Type} (key : A -> Q) (l : list A) : Prop :=
  StronglySorted (fun a b => key a <= key b) l.

(** Some character of the string is a digit. *)
Fixpoint hasDigit (s : string) : bool :=
  match s with
  | EmptyString => false
  | String c s' => JsString.isDigit c || hasDigit s'
  end.

(** The discount a card shows, 0 without a deal. *)
Definition cardDiscount (card : ProductCard.t) : Q :=
  match ProductCard.deal card with
  | Some d => if JsNum.truthy (Deal.discount d) then Deal.discount d else 0
  | None => 0
  end.

(* ================================================================= *)
(** ** Fixtures used by the examples *)

Module Fixture.

Local Open Scope string_scope.

Definition rt : Runtime :=
  {| Math_random := fun _ => 1 # 2;
     Date_now := fun n => (1700000000000 + Z.of_nat n)%Z;
     Date_parse := fun _ => 0;
     Number_toString := fun _ => "n";
     Number_toFixed1 := fun _ => "n.n";
     Number_base36_suffix := fun _ => "i" |}.

(** A pending recommendation priced 2.01 with a suggested discount of 25. *)
Definition rec1 : DiscountRecommendation.t :=
  {| DiscountRecommendation.id := "rec_1";
     DiscountRecommendation.productName := "Milk";
     DiscountRecommendation.category := "Dairy";
     DiscountRecommendation.currentStock := 60;
     DiscountRecommendation.hoursUntilExpiry := 30;
     DiscountRecommendation.predictedWasteAmount := 18;
     DiscountRecommendation.predictedWastePercentage := 30;
     DiscountRecommendation.suggestedDiscountPercentage := 25;
     DiscountRecommendation.estimatedRevenueSaved := 27.18;
     DiscountRecommendation.confidence := 65;
     DiscountRecommendation.riskLevel := high;
     DiscountRecommendation.reasoning := [];
     DiscountRecommendation.location := "Dairy Section";
     DiscountRecommendation.currentPrice := 2.01;
     DiscountRecommendation.discountedPrice := 1.51;
     DiscountRecommendation.status := Status.pending;
     DiscountRecommendation.timestamp := 1699999999000%Z;
     DiscountRecommendation.basedOnDataPoints := 3;
     DiscountRecommendation.historicalWasteRate := 20 |}.

(** An already rejected recommendation. *)
Definition rec2 : DiscountRecommendation.t :=
  DiscountRecommendation.mk "rec_2" "Bread" "Bakery" 40 20 8 20 15 13.6 80
    medium [] "Bakery Section" 2 1.7 Status.rejected 1699999998000%Z 2 12.

Definition milk : UserTrainingData.t :=
  {| UserTrainingData.productName := "Milk";
     UserTrainingData.category := "Dairy";
     UserTrainingData.purchaseDate := "2024-01-01";
     UserTrainingData.expiryDate := "2024-01-08";
     UserTrainingData.initialStock := 100;
     UserTrainingData.finalStock := 10;
     UserTrainingData.wasteAmount := 20;
     UserTrainingData.temperature := 4;
     UserTrainingData.humidity := 60;
     UserTrainingData.promotionActive := false;
     UserTrainingData.location := "" |}.

Definition service : Service :=
  {| recommendations := [rec1; rec2];
     decisions := [];
     trainedModelData := Some tt;
     userTrainingData := [milk] |}.

Definition untrained : Service :=
  {| recommendations := [rec1; rec2];
     decisions := [];
     trainedModelData := None;
     userTrainingData := [milk] |}.


(** Two dates the fixtures use are understood, any other is invalid. *)
Definition parse (s : string) : option Q :=
  if String.eqb s "2024-01-01" then Some 1704067200000
  else if String.eqb s "2024-01-08" then Some 1704672000000
  else None.

(** A row [validateData] rejects: more waste than stock. *)
Definition spoiled : UserTrainingData.t :=
  {| UserTrainingData.productName := "Bread";
     UserTrainingData.category := "Bakery";
     UserTrainingData.purchaseDate := "2024-01-01";
     UserTrainingData.expiryDate := "2024-01-08";
     UserTrainingData.initialStock := 10;
     UserTrainingData.finalStock := 0;
     UserTrainingData.wasteAmount := 12;
     UserTrainingData.temperature := 20;
     UserTrainingData.humidity := 50;
     UserTrainingData.promotionActive := true;
     UserTrainingData.location := "Aisle 3" |}.

Definition store : UserTrainingService.State :=
  {| UserTrainingService.trainingData := [milk];
     UserTrainingService.trainingSessions := [] |}.

Definition session1 : TrainingSession.t :=
  {| TrainingSession.id := "session_1";
     TrainingSession.timestamp := 1700000000000%Z;
     TrainingSession.dataPoints := [milk];
     TrainingSession.modelAccuracy := 0;
     TrainingSession.status := SessionStatus.training |}.

Definition memory : ChatbotService.ConversationMemory :=
  {| ChatbotService.userInterests := ["home"];
     ChatbotService.preferredCategories := ["home"];
     ChatbotService.priceRange := None;
     ChatbotService.previousPurchases := [];
     ChatbotService.sessionStartTime := 1700000000000%Z |}.

Definition chat : ChatbotService.State :=
  {| ChatbotService.conversationHistory := ["hello"];
     ChatbotService.conversationMemory := memory;
     ChatbotService.feedbackData := [];
     ChatbotService.userEngagement :=
       {| ChatbotService.totalMessages := 1;
          ChatbotService.productsViewed := 0;
          ChatbotService.productsAddedToCart := 0;
          ChatbotService.averageResponseTime := 0 |} |}.

Definition pattern : HistoricalPattern :=
  {| wasteRate := 20; dataPoints := 3; avgDaysToWaste := 7;
     environmentalFactors := Some {| avgTemp := 4; avgHumidity := 60 |} |}.

Definition conditions : CurrentConditions :=
  {| cc_temperature := 5; cc_humidity := 62 |}.

(** A second delivery of milk, its name in capitals. *)
Definition milk2 : UserTrainingData.t :=
  {| UserTrainingData.productName := "MILK";
     UserTrainingData.category := "Dairy";
     UserTrainingData.purchaseDate := "2024-01-01";
     UserTrainingData.expiryDate := "2024-01-08";
     UserTrainingData.initialStock := 50;
     UserTrainingData.finalStock := 40;
     UserTrainingData.wasteAmount := 5;
     UserTrainingData.temperature := 5;
     UserTrainingData.humidity := 65;
     UserTrainingData.promotionActive := true;
     UserTrainingData.location := "Dairy Section" |}.

(** A history of three records, two of them of milk. *)
Definition history : list UserTrainingData.t := [milk; spoiled; milk2].

Definition dairy : Service :=
  {| recommendations := [];
     decisions := [];
     trainedModelData := Some tt;
     userTrainingData := history |}.

(** A row [validateData] accepts, of a product never stocked: no stock
    and no waste. *)
Definition idle : UserTrainingData.t :=
  {| UserTrainingData.productName := "Candles";
     UserTrainingData.category := "Home";
     UserTrainingData.purchaseDate := "2024-01-01";
     UserTrainingData.expiryDate := "2024-01-08";
     UserTrainingData.initialStock := 0;
     UserTrainingData.finalStock := 0;
     UserTrainingData.wasteAmount := 0;
     UserTrainingData.temperature := 20;
     UserTrainingData.humidity := 50;
     UserTrainingData.promotionActive := false;
     UserTrainingData.location := "Aisle 7" |}.

Definition idleService : Service :=
  {| recommendations := [];
     decisions := [];
     trainedModelData := Some tt;
     userTrainingData := [idle] |}.

End Fixture.

(* ================================================================= *)
(** ** Comparisons and rounding *)

Section Numbers.

Lemma leb_le (x y : Q) : (x <=? y) = true <-> x <= y.
Proof. unfold JsNum.leb. apply Qle_bool_iff. Qed.

Lemma ltb_lt (x y : Q) : (x <? y) = true <-> x < y.
Proof.
  unfold JsNum.ltb. rewrite negb_true_iff.
  split; intro H.
  - apply Qnot_le_lt. intro Hle. apply Qle_bool_iff in Hle. congruence.
  - destruct (Qle_bool y x) eqn:E; [|reflexivity].
    apply Qle_bool_iff in E. exfalso. exact (Qlt_not_le _ _ H E).
Qed.

Lemma gtb_lt (x y : Q) : (x >? y) = true <-> y < x.
Proof. unfold JsNum.gtb. apply ltb_lt. Qed.

Lemma gtb_le (x y : Q) : (x >? y) = false <-> x <= y.
Proof.
  unfold JsNum.gtb, JsNum.ltb. rewrite negb_false_iff. apply Qle_bool_iff.
Qed.

End Numbers.

(* ================================================================= *)
(** ** The waste-prediction chain *)

Section WastePrediction.

(** Whatever the stock above 50, the first branch is taken: a stock above
    100 never reaches the branch written for it. *)
Lemma stockAdjusted_above_50 (currentStock baseWasteRate : Q) :
  50 < currentStock ->
  stockAdjusted currentStock baseWasteRate = baseWasteRate * 1.1.
Proof.
  intro H. unfold stockAdjusted.
  apply gtb_lt in H. rewrite H. reflexivity.
Qed.

Lemma stockAdjusted_above_100 (currentStock baseWasteRate : Q) :
  100 < currentStock ->
  stockAdjusted currentStock baseWasteRate = baseWasteRate * 1.1
  /\ Spec.stockFactor currentStock = 1.2.
Proof.
  intro H. split.
  - apply stockAdjusted_above_50. lra.
  - unfold Spec.stockFactor. apply gtb_lt in H. rewrite H. reflexivity.
Qed.


(** The method taken alone, at a stock no run passes to it: with a stock
    of 150, far from expiry and in normal conditions, a historical rate
    of 10 comes out of the adjustment chain as 11, the factor 1.1, where
    the specified factor for a stock above 100 is 1.2 and would give 12;
    the predicted percentage and amount follow the 11. *)
Lemma stock_150_is_adjusted_by_1_1 :
  let pattern :=
    {| wasteRate := 10; dataPoints := 3; avgDaysToWaste := 7;
       environmentalFactors :=
         Some {| avgTemp := 4; avgHumidity := 60 |} |} in
  let conditions := {| cc_temperature := 5; cc_humidity := 62 |} in
  adjustedWasteRate 150 100 pattern conditions == 10 * 1.1
  /\ Spec.stockFactor 150 == 1.2
  /\ ~ adjustedWasteRate 150 100 pattern conditions
       == 10 * Spec.stockFactor 150
  /\ p_wastePercentage (calculatePredictedWaste 150 100 pattern conditions)
     == 11
  /\ p_wasteAmount (calculatePredictedWaste 150 100 pattern conditions)
     == 17.
Proof.
  cbv zeta. repeat split; try (vm_compute; reflexivity).
  vm_compute. discriminate.
Qed.

End WastePrediction.

(* ================================================================= *)
(** ** The discount rule *)

Section DiscountRule.

Lemma clamp_min_max (x : Q) :
  JsNum.Math_min 70 (JsNum.Math_max 5 x) == Spec.clamp 5 70 x.
Proof.
  unfold Spec.clamp, JsNum.Math_min, JsNum.Math_max.
  destruct (x <? 5) eqn:E1.
  - apply ltb_lt in E1.
    rewrite (Q.max_l 5 x) by lra. rewrite Q.min_r by lra. reflexivity.
  - assert (H1 : 5 <= x).
    { destruct (Qlt_le_dec x 5) as [H|H]; [|exact H].
      apply ltb_lt in H. congruence. }
    rewrite (Q.max_r 5 x) by exact H1.
    destruct (x >? 70) eqn:E2.
    + apply gtb_lt in E2. rewrite Q.min_l by lra. reflexivity.
    + apply gtb_le in E2. rewrite Q.min_r by exact E2. reflexivity.
Qed.

(** C5.  For every waste percentage, every number of hours and every
    pattern, [calculateOptimalDiscount] is the specified value: the base
    of the five-bucket ladder times the urgency multiplier times the
    history multiplier, rounded to the nearest integer and clamped to
    [5, 70]; it lies between 5 and 70; and the buckets are closed below
    (at 60 the base is 50, at 15 it is 15, also when read off the code
    with no multiplier applying); at 0 percent and 0 hours it gives 14. *)
Theorem calculateOptimalDiscount_is_specified
    (wastePercentage hoursUntilExpiry : Q)
    (historicalPattern : HistoricalPattern) :
  calculateOptimalDiscount wastePercentage hoursUntilExpiry
    historicalPattern
  = Spec.optimalDiscount wastePercentage hoursUntilExpiry
      (dataPoints historicalPattern)
  /\ 5 <= calculateOptimalDiscount wastePercentage hoursUntilExpiry
            historicalPattern <= 70
  /\ Spec.baseDiscount 60 = 50
  /\ Spec.baseDiscount 15 = 15
  /\ calculateOptimalDiscount 60 48 (mkHistoricalPattern 60 0 0 None) = 50
  /\ calculateOptimalDiscount 15 48 (mkHistoricalPattern 15 0 0 None) = 15
  /\ calculateOptimalDiscount 0 0 (mkHistoricalPattern 0 0 0 None) = 14.
Proof.
  unfold calculateOptimalDiscount, Spec.optimalDiscount,
    Spec.baseDiscount at 1, Spec.urgencyMultiplier, Spec.historyMultiplier.
  destruct (wastePercentage >=? 60);
    [|destruct (wastePercentage >=? 40);
      [|destruct (wastePercentage >=? 25);
        [|destruct (wastePercentage >=? 15)]]];
    (destruct (hoursUntilExpiry <=? 6);
     [|destruct (hoursUntilExpiry <=? 12);
       [|destruct (hoursUntilExpiry <=? 24)]]);
    destruct (5 <=? dataPoints historicalPattern)%nat;
    vm_compute; repeat split; discriminate.
Qed.

End DiscountRule.

(* ================================================================= *)
(** ** The historical waste rate *)

Section WasteRate.

Variable rt : Runtime.

Lemma fold_sum_shift {A : Type} (f : A -> Q) (l : list A) (a : Q) :
  fold_left (fun sum d => sum + f d) l a == a + JsArray.sumOf f l.
Proof.
  unfold JsArray.sumOf. revert a.
  induction l as [|d l IH]; intro a; simpl.
  - lra.
  - rewrite (IH (a + f d)), (IH (0 + f d)). lra.
Qed.

Lemma sumOf_scaled {A : Type} (f g : A -> Q) (k : A -> A) (c : Q)
    (l : list A) :
  (forall d, g (k d) == c * f d) ->
  JsArray.sumOf g (map k l) == c * JsArray.sumOf f l.
Proof.
  intro Hk. induction l as [|d l IH].
  - unfold JsArray.sumOf. simpl. lra.
  - unfold JsArray.sumOf in *. simpl.
    rewrite (fold_sum_shift g (map k l) (0 + g (k d))).
    rewrite (fold_sum_shift f l (0 + f d)).
    unfold JsArray.sumOf. rewrite IH, Hk. lra.
Qed.

(** The rate the discount engine computes is the rate the training
    service computes on the same records. *)
Lemma wasteRate_patternOf (l : list UserTrainingData.t) :
  wasteRate (DiscountRecommendationService.patternOf rt l)
  = UserTrainingService.wasteRateOf l.
Proof.
  unfold DiscountRecommendationService.patternOf,
    UserTrainingService.wasteRateOf.
  destruct (List.length l =? 0)%nat; reflexivity.
Qed.

Lemma wasteRateOf_guard (l : list UserTrainingData.t) :
  UserTrainingService.wasteRateOf l
  = if JsArray.sumOf UserTrainingData.initialStock l >? 0
    then (JsArray.sumOf UserTrainingData.wasteAmount l
          / JsArray.sumOf UserTrainingData.initialStock l) * 100
    else 0.
Proof.
  unfold UserTrainingService.wasteRateOf.
  destruct l as [|d l]; reflexivity.
Qed.

Lemma wasteRateOf_doubled (l : list UserTrainingData.t) :
  UserTrainingService.wasteRateOf (map doubled l)
  == UserTrainingService.wasteRateOf l.
Proof.
  rewrite !wasteRateOf_guard.
  assert (HS : JsArray.sumOf UserTrainingData.initialStock (map doubled l)
               == 2 * JsArray.sumOf UserTrainingData.initialStock l).
  { apply sumOf_scaled. intro d. reflexivity. }
  assert (HW : JsArray.sumOf UserTrainingData.wasteAmount (map doubled l)
               == 2 * JsArray.sumOf UserTrainingData.wasteAmount l).
  { apply sumOf_scaled. intro d. reflexivity. }
  set (S2 := JsArray.sumOf UserTrainingData.initialStock (map doubled l))
    in *.
  set (W2 := JsArray.sumOf UserTrainingData.wasteAmount (map doubled l))
    in *.
  set (S1 := JsArray.sumOf UserTrainingData.initialStock l) in *.
  set (W1 := JsArray.sumOf UserTrainingData.wasteAmount l) in *.
  destruct (S1 >? 0) eqn:E1.
  - apply gtb_lt in E1.
    assert (E2 : (S2 >? 0) = true) by (apply gtb_lt; lra).
    rewrite E2, HS, HW. field. lra.
  - apply gtb_le in E1.
    assert (E2 : (S2 >? 0) = false) by (apply gtb_le; lra).
    rewrite E2. reflexivity.
Qed.

Lemma patternOf_doubled (l : list UserTrainingData.t) :
  wasteRate (DiscountRecommendationService.patternOf rt (map doubled l))
  == wasteRate (DiscountRecommendationService.patternOf rt l).
Proof. rewrite !wasteRate_patternOf. apply wasteRateOf_doubled. Qed.

(** Selecting by name or category does not look at the stock figures. *)
Lemma filter_doubled (p : UserTrainingData.t -> bool)
    (l : list UserTrainingData.t) :
  (forall d, p (doubled d) = p d) ->
  filter p (map doubled l) = map doubled (filter p l).
Proof.
  intro Hp. induction l as [|d l IH]; simpl.
  - reflexivity.
  - rewrite Hp, IH. destruct (p d); reflexivity.
Qed.

Lemma relevantData_doubled (this : Service) (productName category : string) :
  DiscountRecommendationService.relevantData
    (DiscountRecommendationService.setTrainedModelData
       (trainedModelData this) (map doubled (userTrainingData this)) this)
    productName category
  = map doubled
      (DiscountRecommendationService.relevantData this productName
         category).
Proof.
  unfold DiscountRecommendationService.relevantData,
    DiscountRecommendationService.setTrainedModelData. simpl.
  rewrite !filter_doubled by (intro d; reflexivity).
  rewrite length_map.
  destruct (0 <? _)%nat; reflexivity.
Qed.

Lemma training_relevantData_doubled (trainingData : list UserTrainingData.t)
    (productName category : option string) :
  UserTrainingService.relevantData (map doubled trainingData)
    productName category
  = map doubled
      (UserTrainingService.relevantData trainingData productName category).
Proof.
  unfold UserTrainingService.relevantData,
    UserTrainingService.getProductData,
    UserTrainingService.getCategoryData.
  destruct (UserTrainingService.given productName);
    [|destruct (UserTrainingService.given category)];
    try reflexivity;
    apply filter_doubled; intro d; reflexivity.
Qed.

Lemma sumOf_nonneg {A : Type} (f : A -> Q) (l : list A) :
  Forall (fun d => 0 <= f d) l -> 0 <= JsArray.sumOf f l.
Proof.
  intro H. induction H as [|d l Hd Hl IH].
  - unfold JsArray.sumOf. simpl. lra.
  - unfold JsArray.sumOf in *. simpl.
    rewrite (fold_sum_shift f l (0 + f d)). unfold JsArray.sumOf. lra.
Qed.

(** On records that pass [validateData] (no negative stock) the guard only
    returns 0 when the total initial stock is 0, where the ratio has no
    value to offer. *)
Lemma wasteRate_valid_history (l : list UserTrainingData.t) :
  Forall (fun d => 0 <= UserTrainingData.initialStock d) l ->
  wasteRate (DiscountRecommendationService.patternOf rt l)
  == (JsArray.sumOf UserTrainingData.wasteAmount l
      / JsArray.sumOf UserTrainingData.initialStock l) * 100
  \/ (JsArray.sumOf UserTrainingData.initialStock l == 0
      /\ wasteRate (DiscountRecommendationService.patternOf rt l) = 0).
Proof.
  intro H. apply sumOf_nonneg in H.
  rewrite wasteRate_patternOf, wasteRateOf_guard.
  destruct (JsArray.sumOf UserTrainingData.initialStock l >? 0) eqn:E.
  - left. reflexivity.
  - right. apply gtb_le in E. split; [lra|reflexivity].
Qed.

(** The three ways the rate of a subset comes out. *)
Lemma wasteRateOf_cases (subset : list UserTrainingData.t) :
  let totalInitialStock :=
    JsArray.sumOf UserTrainingData.initialStock subset in
  let totalWaste := JsArray.sumOf UserTrainingData.wasteAmount subset in
  let rate := UserTrainingService.wasteRateOf subset in
  (subset = [] -> rate = 0)
  /\ (0 < totalInitialStock ->
      rate = (totalWaste / totalInitialStock) * 100
      /\ exists q, Spec.historicalWasteRate subset = Some q /\ rate == q)
  /\ (totalInitialStock <= 0 -> rate = 0).
Proof.
  cbv zeta. split; [|split].
  - intros ->. reflexivity.
  - intro H. rewrite wasteRateOf_guard.
    pose proof H as Hb. apply gtb_lt in Hb. rewrite Hb.
    split; [reflexivity|].
    destruct subset as [|d l].
    + exfalso. unfold JsArray.sumOf in H. simpl in H. lra.
    + unfold Spec.historicalWasteRate.
      destruct (Qeq_bool _ 0) eqn:E.
      * apply Qeq_bool_iff in E. lra.
      * eexists. split; reflexivity.
  - intro H. rewrite wasteRateOf_guard. apply gtb_le in H. now rewrite H.
Qed.

(** C7 (as amended).  Over the matched subset, the waste rate that
    [analyzeHistoricalWastePattern] reports and the one
    [calculateWasteRate] returns are 0 when the subset is empty, are
    (sum of wasteAmount / sum of initialStock) x 100 when the sum of the
    initial stocks is positive, the value the specification gives there,
    and are 0 when that sum is not positive (the guard of the code);
    doubling the [initialStock] and the [wasteAmount] of every record
    doubles them in the matched subset and leaves the rate unchanged,
    for every subset. *)
Theorem wasteRate_is_guarded_ratio_and_scale_invariant
    (this : Service) (productName category : string)
    (trainingData : list UserTrainingData.t) (name cat : option string) :
  let subset :=
    DiscountRecommendationService.relevantData this productName category in
  let rate :=
    wasteRate (DiscountRecommendationService.analyzeHistoricalWastePattern
                 rt this productName category) in
  let scaled :=
    DiscountRecommendationService.setTrainedModelData
      (trainedModelData this) (map doubled (userTrainingData this)) this in
  let subset' := UserTrainingService.relevantData trainingData name cat in
  let rate' := UserTrainingService.calculateWasteRate trainingData name cat in
  (subset = [] -> rate = 0)
  /\ (0 < JsArray.sumOf UserTrainingData.initialStock subset ->
      rate = (JsArray.sumOf UserTrainingData.wasteAmount subset
              / JsArray.sumOf UserTrainingData.initialStock subset) * 100
      /\ exists q, Spec.historicalWasteRate subset = Some q /\ rate == q)
  /\ (JsArray.sumOf UserTrainingData.initialStock subset <= 0 -> rate = 0)
  /\ DiscountRecommendationService.relevantData scaled productName category
     = map doubled subset
  /\ wasteRate (DiscountRecommendationService.analyzeHistoricalWastePattern
                  rt scaled productName category)
     == rate
  /\ (subset' = [] -> rate' = 0)
  /\ (0 < JsArray.sumOf UserTrainingData.initialStock subset' ->
      rate' = (JsArray.sumOf UserTrainingData.wasteAmount subset'
               / JsArray.sumOf UserTrainingData.initialStock subset') * 100
      /\ exists q, Spec.historicalWasteRate subset' = Some q /\ rate' == q)
  /\ (JsArray.sumOf UserTrainingData.initialStock subset' <= 0 ->
      rate' = 0)
  /\ UserTrainingService.relevantData (map doubled trainingData) name cat
     = map doubled subset'
  /\ UserTrainingService.calculateWasteRate (map doubled trainingData)
       name cat
     == rate'.
Proof.
  cbv zeta.
  unfold DiscountRecommendationService.analyzeHistoricalWastePattern,
    UserTrainingService.calculateWasteRate.
  rewrite !wasteRate_patternOf.
  destruct (wasteRateOf_cases
              (DiscountRecommendationService.relevantData this productName
                 category)) as (H1 & H2 & H3).
  destruct (wasteRateOf_cases
              (UserTrainingService.relevantData trainingData name cat))
    as (H1' & H2' & H3').
  split; [exact H1|]. split; [exact H2|]. split; [exact H3|].
  split; [apply relevantData_doubled|].
  split; [rewrite relevantData_doubled; apply wasteRateOf_doubled|].
  split; [exact H1'|]. split; [exact H2'|]. split; [exact H3'|].
  split; [apply training_relevantData_doubled|].
  rewrite training_relevantData_doubled. apply wasteRateOf_doubled.
Qed.

End WasteRate.

(** C7, as first stated, fails: a row of a product never stocked (no
    stock, no waste) passes [validateData] and is the whole matched
    subset; the sum of the initial stocks is 0, so the quotient the claim
    equates the rate with has no value, and the code returns 0. *)
Lemma zero_stock_subset_has_rate_0_and_no_ratio :
  let subset :=
    UserTrainingService.relevantData [Fixture.idle]
      (Some "Candles"%string) None in
  UserTrainingService.valid
    (UserTrainingService.validateData Fixture.parse [Fixture.idle])
  = true
  /\ subset = [Fixture.idle]
  /\ DiscountRecommendationService.relevantData Fixture.idleService
       "Candles" "Home"
     = [Fixture.idle]
  /\ JsArray.sumOf UserTrainingData.initialStock subset == 0
  /\ Spec.historicalWasteRate subset = None
  /\ UserTrainingService.calculateWasteRate [Fixture.idle]
       (Some "Candles"%string) None
     = 0
  /\ wasteRate
       (DiscountRecommendationService.analyzeHistoricalWastePattern
          Fixture.rt Fixture.idleService "Candles" "Home")
     = 0
  /\ Spec.historicalWasteRate subset
     <> Some (UserTrainingService.calculateWasteRate [Fixture.idle]
                (Some "Candles"%string) None)
  /\ Spec.historicalWasteRate
       (DiscountRecommendationService.relevantData Fixture.idleService
          "Candles" "Home")
     <> Some (wasteRate
                (DiscountRecommendationService.analyzeHistoricalWastePattern
                   Fixture.rt Fixture.idleService "Candles" "Home")).
Proof.
  cbv zeta. repeat split; try (vm_compute; reflexivity);
    vm_compute; discriminate.
Qed.

(** Over the two deliveries of milk, 20 and 5 wasted of 100 and 50
    stocked. *)
Lemma wasteRate_witness :
  DiscountRecommendationService.relevantData Fixture.dairy "milk" ""
  = [Fixture.milk; Fixture.milk2]
  /\ wasteRate
       (DiscountRecommendationService.analyzeHistoricalWastePattern
          Fixture.rt Fixture.dairy "milk" "")
     = (25 / 150) * 100
  /\ UserTrainingService.relevantData Fixture.history None
       (Some "dairy"%string)
     = [Fixture.milk; Fixture.milk2]
  /\ UserTrainingService.calculateWasteRate Fixture.history None
       (Some "dairy"%string)
     = (25 / 150) * 100.
Proof.
  destruct (wasteRate_is_guarded_ratio_and_scale_invariant Fixture.rt
              Fixture.dairy "milk" "" Fixture.history None
              (Some "dairy"%string))
    as (_ & Hrate & _ & _ & _ & _ & Hrate' & _).
  split; [reflexivity|]. split; [exact (proj1 (Hrate eq_refl))|].
  split; [reflexivity|exact (proj1 (Hrate' eq_refl))].
Defined.

(* ================================================================= *)
(** ** The decision workflow *)

Section Decisions.

Import DiscountRecommendationService.

Variable rt : Runtime.

Section UpdateFirst.

Context {A : Type} (p : A -> bool) (f : A -> A).

Lemma updateFirst_absent (l : list A) :
  find p l = None -> JsArray.updateFirst p f l = l.
Proof.
  induction l as [|x l IH]; simpl; [reflexivity|].
  destruct (p x); [discriminate|].
  intro H. now rewrite IH.
Qed.

Lemma find_updateFirst (l : list A) (x : A) :
  find p l = Some x -> p (f x) = true ->
  find p (JsArray.updateFirst p f l) = Some (f x).
Proof.
  induction l as [|y l IH]; simpl; [discriminate|].
  destruct (p y) eqn:E; intros H Hf.
  - injection H as ->. simpl. now rewrite Hf.
  - simpl. rewrite E. now apply IH.
Qed.

(** In place: every position keeps its element, or holds the image of
    the element [find] returned. *)
Lemma nth_updateFirst (l : list A) (i : nat) (x : A) :
  nth_error l i = Some x ->
  exists y, nth_error (JsArray.updateFirst p f l) i = Some y
            /\ (y = x \/ (p x = true /\ y = f x)).
Proof.
  revert i. induction l as [|a l IH]; intros [|i]; simpl;
    try discriminate.
  - intro H. injection H as ->.
    destruct (p x) eqn:E; simpl; eauto.
  - intro H. destruct (p a); simpl; eauto.
Qed.

End UpdateFirst.

Lemma find_absent (recommendationId : string)
    (l : list DiscountRecommendation.t) :
  (forall r, In r l -> DiscountRecommendation.id r <> recommendationId) ->
  find (hasId recommendationId) l = None.
Proof.
  intro H. induction l as [|r l IH]; simpl; [reflexivity|].
  unfold hasId at 1.
  destruct (String.eqb_spec (DiscountRecommendation.id r) recommendationId)
    as [E|_].
  - exfalso. apply (H r); [now left|exact E].
  - apply IH. intros r' Hr'. apply H. now right.
Qed.

Lemma hasId_true (recommendationId : string)
    (r : DiscountRecommendation.t) :
  hasId recommendationId r = true
  <-> DiscountRecommendation.id r = recommendationId.
Proof. unfold hasId. apply String.eqb_eq. Qed.

Lemma approve_id (actualDiscount : option Q)
    (r : DiscountRecommendation.t) :
  DiscountRecommendation.id (approve actualDiscount r)
  = DiscountRecommendation.id r.
Proof.
  unfold approve. destruct actualDiscount as [d|]; [|reflexivity].
  destruct (JsNum.truthy d); reflexivity.
Qed.

Lemma approve_status (actualDiscount : option Q)
    (r : DiscountRecommendation.t) :
  DiscountRecommendation.status (approve actualDiscount r)
  = Status.approved.
Proof.
  unfold approve. destruct actualDiscount as [d|]; [|reflexivity].
  destruct (JsNum.truthy d); reflexivity.
Qed.

(** With a truthy override the price is the plain product: no rounding
    is applied on this path. *)
Lemma approve_override (d : Q) (r : DiscountRecommendation.t) :
  JsNum.truthy d = true ->
  DiscountRecommendation.discountedPrice (approve (Some d) r)
  = DiscountRecommendation.currentPrice r * (1 - d / 100)
  /\ DiscountRecommendation.suggestedDiscountPercentage (approve (Some d) r)
     = d.
Proof. intro H. unfold approve. rewrite H. split; reflexivity. Qed.

(** Approving twice what the id resolves to: the object is approved after
    the first call and after the second, its price after an override [d]
    is the plain product, and each call appends its own decision. *)
Lemma approve_twice (this : Service) (r : DiscountRecommendation.t)
    (d : Q) (notes : option string) :
  find (hasId (DiscountRecommendation.id r)) (recommendations this)
  = Some r ->
  JsNum.truthy d = true ->
  let once :=
    approveRecommendation rt (DiscountRecommendation.id r) (Some d) notes
      this in
  let twice :=
    approveRecommendation rt (DiscountRecommendation.id r) (Some d) notes
      once in
  find (hasId (DiscountRecommendation.id r)) (recommendations once)
  = Some (approve (Some d) r)
  /\ DiscountRecommendation.discountedPrice (approve (Some d) r)
     = DiscountRecommendation.currentPrice r * (1 - d / 100)
  /\ (exists r2,
        find (hasId (DiscountRecommendation.id r)) (recommendations twice)
        = Some r2
        /\ DiscountRecommendation.status r2 = Status.approved)
  /\ List.length (decisions once) = S (List.length (decisions this))
  /\ List.length (decisions twice) = S (S (List.length (decisions this))).
Proof.
  intros Hfind Hd. cbv zeta.
  assert (H1 :
    find (hasId (DiscountRecommendation.id r))
      (recommendations
         (approveRecommendation rt (DiscountRecommendation.id r) (Some d)
            notes this))
    = Some (approve (Some d) r)).
  { unfold approveRecommendation. cbn [recommendations].
    apply find_updateFirst; [exact Hfind|].
    apply hasId_true. apply approve_id. }
  split; [exact H1|].
  split; [apply approve_override; exact Hd|].
  split.
  - exists (approve (Some d) (approve (Some d) r)). split.
    + unfold approveRecommendation at 1. cbn [recommendations].
      apply find_updateFirst; [exact H1|].
      apply hasId_true. now rewrite !approve_id.
    + apply approve_status.
  - unfold approveRecommendation, JsArray.push. cbn [decisions].
    rewrite !length_app. simpl. split; lia.
Qed.

(** One call, seen from a position of the stored list. *)
Lemma perform_position (this : Service) (c : Call) (i : nat)
    (r : DiscountRecommendation.t) :
  nth_error (recommendations this) i = Some r ->
  exists r',
    nth_error (recommendations (perform rt this c)) i = Some r'
    /\ DiscountRecommendation.id r' = DiscountRecommendation.id r
    /\ (r' = r
        \/ (targetOf c = DiscountRecommendation.id r
            /\ decided (DiscountRecommendation.status r'))).
Proof.
  intro H. destruct c as [rid d notes|rid notes]; simpl.
  - destruct (nth_updateFirst (hasId rid) (approve d) _ _ _ H)
      as (y & Hy & [->|[Hp ->]]).
    + exists r. auto.
    + exists (approve d r). split; [exact Hy|].
      split; [apply approve_id|]. right.
      apply hasId_true in Hp. split; [now symmetry|].
      left. apply approve_status.
  - destruct (nth_updateFirst (hasId rid)
                (DiscountRecommendation.set_status Status.rejected)
                _ _ _ H)
      as (y & Hy & [->|[Hp ->]]).
    + exists r. auto.
    + exists (DiscountRecommendation.set_status Status.rejected r).
      split; [exact Hy|]. split; [reflexivity|]. right.
      apply hasId_true in Hp. split; [now symmetry|].
      right. reflexivity.
Qed.

Lemma session_position (calls : list Call) (this : Service) (i : nat)
    (r : DiscountRecommendation.t) :
  nth_error (recommendations this) i = Some r ->
  exists r',
    nth_error (recommendations (session rt calls this)) i = Some r'
    /\ DiscountRecommendation.id r' = DiscountRecommendation.id r
    /\ (r' = r
        \/ (decided (DiscountRecommendation.status r')
            /\ exists c, In c calls
                         /\ targetOf c = DiscountRecommendation.id r)).
Proof.
  unfold session. revert this r.
  induction calls as [|c calls IH]; intros this r H; simpl.
  - exists r. auto.
  - destruct (perform_position this c i r H) as (r1 & H1 & Hid1 & Hc).
    destruct (IH _ _ H1) as (r' & H' & Hid' & Hs).
    exists r'. split; [exact H'|]. split; [congruence|].
    destruct Hs as [->|(Hd & c' & Hin & Ht)].
    + destruct Hc as [->|[Ht Hd]]; [now left|].
      right. split; [exact Hd|]. exists c. split; [now left|exact Ht].
    + right. split; [exact Hd|]. exists c'.
      split; [now right|congruence].
Qed.

(** C9.  When no stored recommendation has the id, approve and reject
    leave the stored list as it is and append exactly one decision record
    carrying the id; an approve without override records an undefined
    [actualDiscountApplied], and so does every reject. *)
Theorem unknown_id_only_appends_a_decision (this : Service)
    (recommendationId : string) (actualDiscount : option Q)
    (notes : option string) :
  (forall r, In r (recommendations this) ->
             DiscountRecommendation.id r <> recommendationId) ->
  recommendations
    (approveRecommendation rt recommendationId actualDiscount notes this)
  = recommendations this
  /\ decisions
       (approveRecommendation rt recommendationId actualDiscount notes this)
     = (decisions this
        ++ [ {| DiscountDecision.recommendationId := recommendationId;
                DiscountDecision.decision := Decision.approved;
                DiscountDecision.actualDiscountApplied :=
                  JsNum.or_else actualDiscount None;
                DiscountDecision.ownerNotes := notes;
                DiscountDecision.timestamp := Date_now rt 0 |} ])%list
  /\ decisions (approveRecommendation rt recommendationId None notes this)
     = (decisions this
        ++ [ {| DiscountDecision.recommendationId := recommendationId;
                DiscountDecision.decision := Decision.approved;
                DiscountDecision.actualDiscountApplied := None;
                DiscountDecision.ownerNotes := notes;
                DiscountDecision.timestamp := Date_now rt 0 |} ])%list
  /\ recommendations (rejectRecommendation rt recommendationId notes this)
     = recommendations this
  /\ decisions (rejectRecommendation rt recommendationId notes this)
     = (decisions this
        ++ [ {| DiscountDecision.recommendationId := recommendationId;
                DiscountDecision.decision := Decision.rejected;
                DiscountDecision.actualDiscountApplied := None;
                DiscountDecision.ownerNotes := notes;
                DiscountDecision.timestamp := Date_now rt 0 |} ])%list.
Proof.
  intro H. apply find_absent in H.
  unfold approveRecommendation, rejectRecommendation, JsArray.push; simpl.
  rewrite !(updateFirst_absent _ _ _ H), H. simpl.
  repeat split; reflexivity.
Qed.

(** C10.  Approving the recommendation the id resolves to with an
    override of 0 is the same call as approving it with no override: the
    object becomes approved with its suggested discount, discounted price
    and estimated revenue untouched, and the decision appended records
    the original suggested discount, not 0. *)
Theorem zero_override_is_swallowed (this : Service)
    (r : DiscountRecommendation.t) (notes : option string) :
  find (hasId (DiscountRecommendation.id r)) (recommendations this)
  = Some r ->
  DiscountRecommendation.status r = Status.pending ->
  let this' :=
    approveRecommendation rt (DiscountRecommendation.id r) (Some 0) notes
      this in
  this'
  = approveRecommendation rt (DiscountRecommendation.id r) None notes this
  /\ (exists r',
        find (hasId (DiscountRecommendation.id r)) (recommendations this')
        = Some r'
        /\ r' = DiscountRecommendation.set_status Status.approved r
        /\ DiscountRecommendation.status r' = Status.approved
        /\ DiscountRecommendation.suggestedDiscountPercentage r'
           = DiscountRecommendation.suggestedDiscountPercentage r
        /\ DiscountRecommendation.discountedPrice r'
           = DiscountRecommendation.discountedPrice r
        /\ DiscountRecommendation.estimatedRevenueSaved r'
           = DiscountRecommendation.estimatedRevenueSaved r)
  /\ decisions this'
     = (decisions this
        ++ [ {| DiscountDecision.recommendationId :=
                  DiscountRecommendation.id r;
                DiscountDecision.decision := Decision.approved;
                DiscountDecision.actualDiscountApplied :=
                  Some (DiscountRecommendation.suggestedDiscountPercentage
                          r);
                DiscountDecision.ownerNotes := notes;
                DiscountDecision.timestamp := Date_now rt 0 |} ])%list.
Proof.
  intros Hfind _. cbv zeta.
  assert (Hup :
    find (hasId (DiscountRecommendation.id r))
      (JsArray.updateFirst (hasId (DiscountRecommendation.id r))
         (approve (Some 0)) (recommendations this))
    = Some (DiscountRecommendation.set_status Status.approved r)).
  { apply (find_updateFirst _ (approve (Some 0)) _ _ Hfind).
    apply hasId_true. reflexivity. }
  split; [reflexivity|]. split.
  - exists (DiscountRecommendation.set_status Status.approved r).
    repeat split. exact Hup.
  - unfold approveRecommendation, JsArray.push. simpl.
    rewrite Hup. reflexivity.
Qed.

End Decisions.

(* ================================================================= *)
(** ** Generating a batch *)

Section Generation.

Import DiscountRecommendationService.

Variable rt : Runtime.

Lemma forEachProduct_pending (this : Service) (loop : Loop)
    (productName : string) :
  Forall isPending (newRecommendations loop) ->
  Forall isPending
    (newRecommendations (forEachProduct rt this loop productName)).
Proof.
  intro H. unfold forEachProduct.
  destruct (find _ (userTrainingData this)) as [productData|]; [|exact H].
  destruct (_ && _); [|exact H].
  destruct (_ || _); [|exact H].
  cbn [newRecommendations]. unfold JsArray.push.
  apply Forall_app. split; [exact H|].
  constructor; [reflexivity|constructor].
Qed.

Lemma loop_pending (this : Service) (products : list string) (loop : Loop) :
  Forall isPending (newRecommendations loop) ->
  Forall isPending
    (newRecommendations (fold_left (forEachProduct rt this) products loop)).
Proof.
  revert loop. induction products as [|p products IH]; intros loop H.
  - exact H.
  - simpl. apply IH. now apply forEachProduct_pending.
Qed.

Lemma insertBy_Forall {A : Type} (P : A -> Prop) (cmp : A -> A -> Q)
    (a : A) (l : list A) :
  P a -> Forall P l -> Forall P (JsArray.insertBy cmp a l).
Proof.
  intros Ha H. induction H as [|b l Hb Hl IH]; simpl.
  - constructor; [exact Ha|constructor].
  - destruct (cmp a b >? 0); constructor; auto.
Qed.

Lemma sort_Forall {A : Type} (P : A -> Prop) (cmp : A -> A -> Q)
    (l : list A) :
  Forall P l -> Forall P (JsArray.sort cmp l).
Proof.
  intro H. unfold JsArray.sort.
  induction H as [|a l Ha Hl IH]; simpl.
  - constructor.
  - now apply insertBy_Forall.
Qed.

(** C4.  Without a trained-model marker, or with an empty history, the
    generator throws the fixed message and the service is exactly what
    it was: its recommendations, pending ones included, and its
    decisions are untouched. *)
Theorem generate_without_model_or_history_throws (this : Service) :
  trainedModelData this = None \/ userTrainingData this = [] ->
  generateRecommendationsFromTrainingData rt this
  = (this,
     Thrown
       "No trained model data available. Please train the model first.").
Proof.
  intro H. unfold generateRecommendationsFromTrainingData.
  destruct H as [H|H]; rewrite H.
  - reflexivity.
  - destruct (trainedModelData this); reflexivity.
Qed.

(** C8.  With a trained-model marker and a non-empty history the
    generator returns a batch, and the stored list becomes the former
    list without its pending recommendations, in order, followed by the
    batch; every recommendation that was not pending, approved and
    rejected ones in particular, is still there as it was, the decisions
    are untouched and every member of the batch is pending. *)
Theorem generate_replaces_pending (this : Service) :
  trainedModelData this <> None ->
  userTrainingData this <> [] ->
  exists batch this',
    generateRecommendationsFromTrainingData rt this
    = (this', Returned batch)
    /\ recommendations this'
       = (filter (fun r =>
                    negb (Status.eqb (DiscountRecommendation.status r)
                                     Status.pending))
                 (recommendations this)
          ++ batch)%list
    /\ decisions this' = decisions this
    /\ Forall isPending batch
    /\ (forall r, In r (recommendations this) ->
                  decided (DiscountRecommendation.status r) ->
                  In r (recommendations this'))
    /\ (forall r, In r (recommendations this') ->
                  In r batch
                  \/ (In r (recommendations this) /\ ~ isPending r)).
Proof.
  intros Hm Hd. unfold generateRecommendationsFromTrainingData.
  destruct (trainedModelData this) as [m|] eqn:Em; [|congruence].
  destruct (userTrainingData this) as [|d l] eqn:Ed; [congruence|].
  cbn [List.length Nat.eqb].
  eexists. eexists. split; [reflexivity|]. cbn [recommendations decisions].
  split; [reflexivity|]. split; [reflexivity|].
  split; [|split].
  - apply sort_Forall. apply loop_pending. constructor.
  - intros r Hin Hdec. apply in_or_app. left.
    apply filter_In. split; [exact Hin|].
    destruct Hdec as [E|E]; rewrite E; reflexivity.
  - intros r Hin. apply in_app_or in Hin.
    destruct Hin as [Hin|Hin]; [right|now left].
    apply filter_In in Hin. destruct Hin as [Hin Hs].
    split; [exact Hin|].
    intro Hp. unfold isPending in Hp. rewrite Hp in Hs. discriminate.
Qed.

End Generation.

(* ================================================================= *)
(** ** Intent classification *)

Section Intents.

Import ChatbotService.

Lemma some_match_iff {A : Type} (p : A -> bool) (l : list A) :
  (0 <? List.length (filter p l))%nat = existsb p l.
Proof.
  induction l as [|x l IH]; simpl; [reflexivity|].
  destruct (p x); simpl; [reflexivity|exact IH].
Qed.

(** The loop returns the name of the first entry that matches. *)
Lemma detectIntent_first (table : list (string * list string))
    (lowerMessage : string) (context : list string) :
  fst (detectIntent table lowerMessage context)
  = match find (entryMatches lowerMessage) table with
    | Some entry => fst entry
    | None => "general"%string
    end.
Proof.
  induction table as [|[name keywords] table IH]; simpl; [reflexivity|].
  unfold matchesOf, entryMatches at 1. rewrite some_match_iff. simpl.
  destruct (existsb _ keywords); [reflexivity|exact IH].
Qed.

(** [find] stops at the least matching position. *)
Lemma find_least {A : Type} (p : A -> bool) (l : list A) (i : nat) (x : A) :
  nth_error l i = Some x -> p x = true ->
  exists k y,
    (k <= i)%nat /\ nth_error l k = Some y /\ p y = true
    /\ find p l = Some y
    /\ (forall k' z, (k' < k)%nat -> nth_error l k' = Some z ->
                     p z = false).
Proof.
  revert i. induction l as [|a l IH]; intros [|i]; simpl;
    try discriminate.
  - intros H Hp. injection H as ->. exists 0%nat, x. rewrite Hp.
    repeat split; auto. intros k' z Hk. lia.
  - intros H Hp. destruct (p a) eqn:Ea.
    + exists 0%nat, a. repeat split; auto; [lia|]. intros k' z Hk. lia.
    + destruct (IH i H Hp) as (k & y & Hk & Hy & Hpy & Hf & Hmin).
      exists (S k), y. repeat split; auto; [lia|].
      intros [|k'] z Hk' Hz; simpl in Hz.
      * congruence.
      * apply (Hmin k' z); [lia|exact Hz].
Qed.

Lemma intents_distinct : NoDup (map fst intents).
Proof.
  repeat (constructor; [simpl; intuition discriminate|]). constructor.
Qed.

(** C6.  The utterance is lower-cased and the intent returned is the
    name of the first entry of the intent table, in declaration order,
    one of whose keywords occurs in it ("general" when there is none).
    So when two entries both match, however many keywords each matches,
    the intent is never the later one: it is a matching entry declared
    no later than the earlier of the two, with no match before it. *)
Theorem intent_is_first_match_in_declaration_order (message : string)
    (context : list string) :
  let lowerMessage := JsString.toLowerCase message in
  let detected := intent (analyzeIntent message context) in
  detected
  = match find (entryMatches lowerMessage) intents with
    | Some entry => fst entry
    | None => "general"%string
    end
  /\ forall i j earlier later,
       nth_error intents i = Some earlier ->
       nth_error intents j = Some later ->
       (i < j)%nat ->
       entryMatches lowerMessage earlier = true ->
       entryMatches lowerMessage later = true ->
       detected <> fst later
       /\ exists k winner,
            (k <= i)%nat
            /\ nth_error intents k = Some winner
            /\ entryMatches lowerMessage winner = true
            /\ detected = fst winner
            /\ (forall k' entry, (k' < k)%nat ->
                                 nth_error intents k' = Some entry ->
                                 entryMatches lowerMessage entry = false).
Proof.
  cbv zeta. unfold analyzeIntent. cbn [intent].
  rewrite detectIntent_first. split; [reflexivity|].
  intros i j earlier later Hi Hj Hij Hme Hml.
  destruct (find_least _ _ _ _ Hi Hme) as (k & w & Hk & Hw & Hpw & Hf & Hmin).
  rewrite Hf.
  split.
  - intro Heq.
    assert (Hkj : k = j).
    { apply (proj1 (NoDup_nth_error (map fst intents)) intents_distinct).
      - rewrite length_map. apply nth_error_Some. congruence.
      - rewrite !nth_error_map, Hw, Hj. simpl. now rewrite Heq. }
    lia.
  - exists k, w. repeat split; auto.
Qed.

End Intents.

(* ================================================================= *)
(** ** The properties at the fixtures *)

Section AtTheFixtures.

Import DiscountRecommendationService.
Local Open Scope string_scope.

(** C3 (the code departs from the claim).  Approving the pending
    recommendation priced 2.01 with an override of 40 makes it approved
    and records one decision, but stores the price 2.01 x 0.6 = 1.206 as
    it is, where the claim has it rounded to two decimals, 1.21.  A
    second approve leaves the status approved and appends a second
    decision. *)
Theorem approve_40_stores_the_unrounded_price :
  let once :=
    approveRecommendation Fixture.rt "rec_1" (Some 40) None
      Fixture.service in
  let twice := approveRecommendation Fixture.rt "rec_1" (Some 40) None once in
  exists r1 r2,
    find (hasId "rec_1") (recommendations once) = Some r1
    /\ find (hasId "rec_1") (recommendations twice) = Some r2
    /\ DiscountRecommendation.status Fixture.rec1 = Status.pending
    /\ DiscountRecommendation.status r1 = Status.approved
    /\ DiscountRecommendation.discountedPrice r1 == 1.206
    /\ Spec.round2 (DiscountRecommendation.currentPrice Fixture.rec1 * 0.6)
       == 1.21
    /\ ~ DiscountRecommendation.discountedPrice r1
         == Spec.round2
              (DiscountRecommendation.currentPrice Fixture.rec1 * 0.6)
    /\ DiscountRecommendation.status r2 = Status.approved
    /\ List.length (decisions once) = 1%nat
    /\ List.length (decisions twice) = 2%nat.
Proof.
  cbv zeta. eexists. eexists.
  split; [vm_compute; reflexivity|].
  split; [vm_compute; reflexivity|].
  repeat split; try reflexivity.
  vm_compute. discriminate.
Qed.

(** C2, as first stated, fails: the pending recommendation is approved,
    and a later reject naming the same id turns the approved
    recommendation into a rejected one. *)
Lemma approved_recommendation_is_rejected_later :
  let approved :=
    approveRecommendation Fixture.rt "rec_1" None None Fixture.service in
  let later := rejectRecommendation Fixture.rt "rec_1" None approved in
  option_map DiscountRecommendation.status
    (nth_error (recommendations Fixture.service) 0)
  = Some Status.pending
  /\ option_map DiscountRecommendation.status
       (nth_error (recommendations approved) 0)
     = Some Status.approved
  /\ option_map DiscountRecommendation.status
       (nth_error (recommendations later) 0)
     = Some Status.rejected.
Proof. repeat split. Qed.

Lemma generate_without_model_or_history_throws_witness :
  trainedModelData Fixture.untrained = None
  /\ generateRecommendationsFromTrainingData Fixture.rt Fixture.untrained
     = (Fixture.untrained,
        Thrown
          "No trained model data available. Please train the model first.").
Proof.
  split; [reflexivity|].
  apply generate_without_model_or_history_throws. left. reflexivity.
Defined.

Lemma generate_replaces_pending_witness :
  exists batch this',
    generateRecommendationsFromTrainingData Fixture.rt Fixture.service
    = (this', Returned batch)
    /\ recommendations this' = (Fixture.rec2 :: batch)%list
    /\ Forall isPending batch.
Proof.
  destruct (generate_replaces_pending Fixture.rt Fixture.service)
    as (batch & this' & Hrun & Hrecs & _ & Hpending & _).
  - simpl. discriminate.
  - simpl. discriminate.
  - exists batch, this'. split; [exact Hrun|]. split; [exact Hrecs|].
    exact Hpending.
Defined.

Lemma unknown_id_only_appends_a_decision_witness :
  recommendations
    (approveRecommendation Fixture.rt "rec_9" None (Some "late")
       Fixture.service)
  = [Fixture.rec1; Fixture.rec2]
  /\ List.length
       (decisions
          (approveRecommendation Fixture.rt "rec_9" None (Some "late")
             Fixture.service))
     = 1%nat.
Proof.
  destruct (unknown_id_only_appends_a_decision Fixture.rt Fixture.service
              "rec_9" None (Some "late"))
    as (Hrecs & Hdecisions & _).
  - intros r [<-|[<-|[]]]; simpl; discriminate.
  - split; [exact Hrecs|]. rewrite Hdecisions. reflexivity.
Defined.

Lemma zero_override_is_swallowed_witness :
  decisions
    (approveRecommendation Fixture.rt "rec_1" (Some 0) None Fixture.service)
  = [ {| DiscountDecision.recommendationId := "rec_1";
         DiscountDecision.decision := Decision.approved;
         DiscountDecision.actualDiscountApplied := Some 25;
         DiscountDecision.ownerNotes := None;
         DiscountDecision.timestamp := 1700000000000%Z |} ].
Proof.
  exact (proj2 (proj2 (zero_override_is_swallowed Fixture.rt
                         Fixture.service Fixture.rec1 None
                         eq_refl eq_refl))).
Defined.

(** "which deals are cheap" has one keyword of [price_inquiry] and two of
    [deal_inquiry]; [price_inquiry], declared first, is returned. *)
Lemma intent_is_first_match_witness :
  ChatbotService.intent
    (ChatbotService.analyzeIntent "Which deals are cheap" [])
  <> "deal_inquiry".
Proof.
  destruct (proj2 (intent_is_first_match_in_declaration_order
                     "Which deals are cheap" [])
              1%nat 2%nat
              (nth 1 ChatbotService.intents ("", []))
              (nth 2 ChatbotService.intents ("", []))
              eq_refl eq_refl (le_n 2) eq_refl eq_refl)
    as [Hne _].
  exact Hne.
Defined.

End AtTheFixtures.

(* ================================================================= *)
(** ** More on rounding and bounds *)

Section Rounding.

Lemma Math_round_mono (x y : Q) :
  x <= y -> JsNum.Math_round x <= JsNum.Math_round y.
Proof.
  intro H. unfold JsNum.Math_round.
  rewrite <- Zle_Qle. apply Qfloor_resp_le. lra.
Qed.

Lemma Math_round_inject (z : Z) :
  JsNum.Math_round (inject_Z z) = inject_Z z.
Proof.
  unfold JsNum.Math_round. f_equal.
  assert (H1 : (z <= Qfloor (inject_Z z + (1 # 2)))%Z).
  { rewrite <- (Qfloor_Z z) at 1. apply Qfloor_resp_le. lra. }
  assert (H2 : (Qfloor (inject_Z z + (1 # 2)) < z + 1)%Z).
  { rewrite Zlt_Qlt.
    apply Qle_lt_trans with (inject_Z z + (1 # 2)); [apply Qfloor_le|].
    rewrite inject_Z_plus. change (inject_Z 1) with 1. lra. }
  lia.
Qed.

Lemma Math_round_between (x : Q) (lo hi : Z) :
  inject_Z lo <= x -> x <= inject_Z hi ->
  inject_Z lo <= JsNum.Math_round x <= inject_Z hi.
Proof.
  intros Hlo Hhi. split.
  - rewrite <- (Math_round_inject lo). now apply Math_round_mono.
  - rewrite <- (Math_round_inject hi). now apply Math_round_mono.
Qed.

Lemma Math_floor_between (x : Q) (lo hi : Z) :
  inject_Z lo <= x -> x < inject_Z hi ->
  inject_Z lo <= JsNum.Math_floor x <= inject_Z hi - 1.
Proof.
  intros Hlo Hhi. unfold JsNum.Math_floor.
  assert (H1 : (lo <= Qfloor x)%Z).
  { rewrite <- (Qfloor_Z lo). now apply Qfloor_resp_le. }
  assert (H2 : (Qfloor x < hi)%Z).
  { rewrite Zlt_Qlt. apply Qle_lt_trans with x; [apply Qfloor_le|exact Hhi]. }
  split.
  - now rewrite <- Zle_Qle.
  - setoid_replace (inject_Z hi - 1) with (inject_Z (hi - 1))
      by (unfold Zminus; rewrite inject_Z_plus; reflexivity).
    rewrite <- Zle_Qle. lia.
Qed.

Lemma clamped_between (lo hi x : Q) :
  lo <= hi ->
  lo <= JsNum.Math_min hi (JsNum.Math_max lo x) <= hi.
Proof.
  intro H. unfold JsNum.Math_min, JsNum.Math_max. split.
  - apply Q.min_glb; [exact H|apply Q.le_max_l].
  - apply Q.le_min_l.
Qed.

Lemma of_nat_nonneg (n : nat) : 0 <= JsNum.of_nat n.
Proof.
  unfold JsNum.of_nat. change 0 with (inject_Z 0).
  rewrite <- Zle_Qle. lia.
Qed.

End Rounding.

(* ================================================================= *)
(** ** Bounds of the prediction and of the discount *)

Section PredictionBounds.

Lemma expiryAdjusted_between (hours rate : Q) :
  0 <= rate ->
  rate <= expiryAdjusted hours rate <= rate * 2.
Proof.
  intro H. unfold expiryAdjusted.
  destruct (_ <=? 1); [lra|].
  destruct (_ <=? 2); [lra|].
  destruct (_ <=? 3); lra.
Qed.

Lemma environmentAdjusted_between (pattern : HistoricalPattern)
    (conditions : CurrentConditions) (rate : Q) :
  0 <= rate ->
  rate <= environmentAdjusted pattern conditions rate <= rate * 1.56.
Proof.
  intro H. unfold environmentAdjusted.
  destruct (exceeds (cc_temperature conditions) _ 5);
    destruct (exceeds (cc_humidity conditions) _ 10); lra.
Qed.

Lemma stockAdjusted_between (stock rate : Q) :
  0 <= rate ->
  rate <= stockAdjusted stock rate <= rate * 1.1.
Proof.
  intro H. unfold stockAdjusted.
  destruct (stock >? 50) eqn:E1; [lra|].
  destruct (stock >? 100) eqn:E2; [|lra].
  exfalso. apply gtb_le in E1. apply gtb_lt in E2. lra.
Qed.

(** X1.  The adjustment chain never lowers a non-negative historical rate
    and never raises it beyond the product of its largest factors,
    2 x 1.3 x 1.2 x 1.1 = 3.432. *)
Theorem adjustedWasteRate_between (currentStock hoursUntilExpiry : Q)
    (historicalPattern : HistoricalPattern)
    (currentConditions : CurrentConditions) :
  0 <= wasteRate historicalPattern ->
  wasteRate historicalPattern
  <= adjustedWasteRate currentStock hoursUntilExpiry historicalPattern
       currentConditions
  <= wasteRate historicalPattern * 3.432.
Proof.
  intro H. unfold adjustedWasteRate.
  pose proof (expiryAdjusted_between hoursUntilExpiry _ H) as H1.
  set (a := expiryAdjusted hoursUntilExpiry (wasteRate historicalPattern))
    in *.
  assert (Ha : 0 <= a) by lra.
  pose proof (environmentAdjusted_between historicalPattern
                currentConditions a Ha) as H2.
  set (b := environmentAdjusted historicalPattern currentConditions a) in *.
  assert (Hb : 0 <= b) by lra.
  pose proof (stockAdjusted_between currentStock b Hb) as H3.
  lra.
Qed.

Lemma finalWastePercentage_between (x : Q) :
  0 <= JsNum.Math_min 100 (JsNum.Math_max 0 x) <= 100.
Proof. apply clamped_between. lra. Qed.

Lemma prediction_percentage_between (currentStock hoursUntilExpiry : Q)
    (historicalPattern : HistoricalPattern)
    (currentConditions : CurrentConditions) :
  0 <= p_wastePercentage
         (calculatePredictedWaste currentStock hoursUntilExpiry
            historicalPattern currentConditions)
    <= 100.
Proof.
  unfold calculatePredictedWaste. cbn [p_wastePercentage].
  set (f := JsNum.Math_min 100 (JsNum.Math_max 0 _)).
  pose proof (finalWastePercentage_between
                (adjustedWasteRate currentStock hoursUntilExpiry
                   historicalPattern currentConditions)) as Hf.
  fold f in Hf.
  destruct (Math_round_between (f * 10) 0 1000) as [H1 H2].
  - change (inject_Z 0) with 0. lra.
  - change (inject_Z 1000) with 1000. lra.
  - change (inject_Z 0) with 0 in H1. change (inject_Z 1000) with 1000 in H2.
    split.
    + apply Qle_shift_div_l; lra.
    + apply Qle_shift_div_r; lra.
Qed.

Lemma prediction_confidence_between (currentStock hoursUntilExpiry : Q)
    (historicalPattern : HistoricalPattern)
    (currentConditions : CurrentConditions) :
  50 <= p_confidence
          (calculatePredictedWaste currentStock hoursUntilExpiry
             historicalPattern currentConditions)
     <= 95.
Proof.
  unfold calculatePredictedWaste. cbn [p_confidence].
  apply (Math_round_between _ 50 95).
  - change (inject_Z 50) with 50. unfold JsNum.Math_min.
    apply Q.min_glb; [lra|].
    assert (H : 0 <= Qmin 30
                       (JsNum.of_nat (dataPoints historicalPattern) * 5)).
    { apply Q.min_glb; [lra|].
      pose proof (of_nat_nonneg (dataPoints historicalPattern)). lra. }
    destruct (hoursUntilExpiry <=? 24); lra.
  - change (inject_Z 95) with 95. apply Q.le_min_l.
Qed.

Lemma prediction_amount_between (currentStock hoursUntilExpiry : Q)
    (historicalPattern : HistoricalPattern)
    (currentConditions : CurrentConditions) :
  0 <= currentStock ->
  0 <= p_wasteAmount
         (calculatePredictedWaste currentStock hoursUntilExpiry
            historicalPattern currentConditions)
    <= JsNum.Math_round currentStock.
Proof.
  intro Hs. unfold calculatePredictedWaste. cbn [p_wasteAmount].
  set (f := JsNum.Math_min 100 (JsNum.Math_max 0 _)).
  pose proof (finalWastePercentage_between
                (adjustedWasteRate currentStock hoursUntilExpiry
                   historicalPattern currentConditions)) as Hf.
  fold f in Hf.
  assert (H0 : 0 <= f / 100 * currentStock).
  { apply Qmult_le_0_compat; [|exact Hs]. apply Qle_shift_div_l; lra. }
  assert (H1 : f / 100 * currentStock <= currentStock).
  { setoid_replace currentStock with (1 * currentStock) at 2 by ring.
    apply Qmult_le_compat_r; [|exact Hs]. apply Qle_shift_div_r; lra. }
  split.
  - change 0 with (JsNum.Math_round (inject_Z 0)).
    apply Math_round_mono. exact H0.
  - apply Math_round_mono. exact H1.
Qed.

(** X2.  Whatever the inputs, the predicted waste percentage lies between
    0 and 100 and the confidence between 50 and 95; for a stock that is a
    whole non-negative number the predicted waste amount lies between 0
    and the stock. *)
Theorem prediction_is_bounded (stock : Z) (hoursUntilExpiry : Q)
    (historicalPattern : HistoricalPattern)
    (currentConditions : CurrentConditions) :
  (0 <= stock)%Z ->
  let prediction :=
    calculatePredictedWaste (inject_Z stock) hoursUntilExpiry
      historicalPattern currentConditions in
  0 <= p_wastePercentage prediction <= 100
  /\ 50 <= p_confidence prediction <= 95
  /\ 0 <= p_wasteAmount prediction <= inject_Z stock.
Proof.
  intro H. cbv zeta. split; [apply prediction_percentage_between|].
  split; [apply prediction_confidence_between|].
  assert (Hs : 0 <= inject_Z stock).
  { change 0 with (inject_Z 0). now rewrite <- Zle_Qle. }
  pose proof (prediction_amount_between (inject_Z stock) hoursUntilExpiry
                historicalPattern currentConditions Hs) as Hb.
  rewrite Math_round_inject in Hb. exact Hb.
Qed.

Lemma calculateOptimalDiscount_between (w h : Q) (p : HistoricalPattern) :
  5 <= calculateOptimalDiscount w h p <= 70.
Proof. apply clamped_between. lra. Qed.

(** The rank of a risk level. *)
Lemma getRiskLevel_cases (w : Q) :
  (w < 15 /\ getRiskLevel w = low)
  \/ (15 <= w < 30 /\ getRiskLevel w = medium)
  \/ (30 <= w < 50 /\ getRiskLevel w = high)
  \/ (50 <= w /\ getRiskLevel w = critical).
Proof.
  unfold getRiskLevel, JsNum.geb.
  destruct (50 <=? w) eqn:E1; [apply leb_le in E1; auto 6|].
  destruct (30 <=? w) eqn:E2.
  { apply leb_le in E2. right. right. left. split; [|reflexivity].
    split; [exact E2|]. apply Qnot_le_lt. intro H. apply leb_le in H.
    congruence. }
  destruct (15 <=? w) eqn:E3.
  { apply leb_le in E3. right. left. split; [|reflexivity].
    split; [exact E3|]. apply Qnot_le_lt. intro H. apply leb_le in H.
    congruence. }
  left. split; [|reflexivity].
  apply Qnot_le_lt. intro H. apply leb_le in H. congruence.
Qed.

End PredictionBounds.

(* ================================================================= *)
(** ** Monotonicity of the discount and of the risk level *)

Section Monotonicity.

Lemma leb_gt (x y : Q) : (x <=? y) = false <-> y < x.
Proof.
  split; intro H.
  - apply Qnot_le_lt. intro Hle. apply leb_le in Hle. congruence.
  - destruct (x <=? y) eqn:E; [|reflexivity].
    apply leb_le in E. exfalso. exact (Qlt_not_le _ _ H E).
Qed.

(** X3.  The suggested discount never decreases when the predicted waste
    percentage increases, and never increases when the time left until
    expiry increases. *)
Theorem calculateOptimalDiscount_monotone (w1 w2 h1 h2 : Q)
    (historicalPattern : HistoricalPattern) :
  w1 <= w2 -> h1 <= h2 ->
  calculateOptimalDiscount w1 h2 historicalPattern
  <= calculateOptimalDiscount w2 h1 historicalPattern.
Proof.
  intros Hw Hh. unfold calculateOptimalDiscount.
  destruct (5 <=? dataPoints historicalPattern)%nat;
    (destruct (w1 >=? 60) eqn:A1;
     [|destruct (w1 >=? 40) eqn:A2;
       [|destruct (w1 >=? 25) eqn:A3; [|destruct (w1 >=? 15) eqn:A4]]]);
    (destruct (w2 >=? 60) eqn:B1;
     [|destruct (w2 >=? 40) eqn:B2;
       [|destruct (w2 >=? 25) eqn:B3; [|destruct (w2 >=? 15) eqn:B4]]]);
    (destruct (h1 <=? 6) eqn:C1;
     [|destruct (h1 <=? 12) eqn:C2; [|destruct (h1 <=? 24) eqn:C3]]);
    (destruct (h2 <=? 6) eqn:D1;
     [|destruct (h2 <=? 12) eqn:D2; [|destruct (h2 <=? 24) eqn:D3]]);
    unfold JsNum.geb in *;
    repeat match goal with
           | H : (_ <=? _) = true |- _ => apply leb_le in H
           | H : (_ <=? _) = false |- _ => apply leb_gt in H
           end;
    try (exfalso; lra); vm_compute; discriminate.
Qed.

(** X4.  The risk level never decreases when the waste percentage
    increases. *)
Theorem getRiskLevel_monotone (w1 w2 : Q) :
  w1 <= w2 ->
  (riskRank (getRiskLevel w1) <= riskRank (getRiskLevel w2))%nat.
Proof.
  intro H.
  destruct (getRiskLevel_cases w1) as [[H1 ->]|[[H1 ->]|[[H1 ->]|[H1 ->]]]];
    destruct (getRiskLevel_cases w2)
      as [[H2 ->]|[[H2 ->]|[[H2 ->]|[H2 ->]]]];
    simpl; try lia; exfalso; lra.
Qed.

End Monotonicity.

(* ================================================================= *)
(** ** The sort of the runtime *)

Section Sorting.

Context {A : Type} (key : A -> Q) (cmp : A -> A -> Q).

Lemma insertBy_perm (a : A) (l : list A) :
  Permutation (JsArray.insertBy cmp a l) (a :: l).
Proof.
  induction l as [|b l IH]; simpl; [reflexivity|].
  destruct (cmp a b >? 0); [|reflexivity].
  rewrite IH. apply perm_swap.
Qed.

Lemma sort_perm (l : list A) : Permutation (JsArray.sort cmp l) l.
Proof.
  unfold JsArray.sort. induction l as [|a l IH]; simpl; [reflexivity|].
  rewrite insertBy_perm. now constructor.
Qed.

Hypothesis cmp_key : forall a b, cmp a b == key b - key a.

Lemma insertBy_descending (a : A) (l : list A) :
  descendingBy key l -> descendingBy key (JsArray.insertBy cmp a l).
Proof.
  unfold descendingBy. intro H.
  induction H as [|b l Hl IH Hb]; simpl.
  - constructor; constructor.
  - destruct (cmp a b >? 0) eqn:E.
    + apply gtb_lt in E. rewrite cmp_key in E.
      constructor; [exact IH|].
      eapply Permutation_Forall; [symmetry; apply insertBy_perm|].
      constructor; [lra|exact Hb].
    + apply gtb_le in E. rewrite cmp_key in E.
      constructor; [constructor; assumption|].
      constructor; [lra|].
      apply (Forall_impl _ (P := fun x => key x <= key b)); [|exact Hb].
      intros x Hx. lra.
Qed.

Lemma sort_descending (l : list A) : descendingBy key (JsArray.sort cmp l).
Proof.
  unfold JsArray.sort. induction l as [|a l IH]; simpl.
  - constructor.
  - now apply insertBy_descending.
Qed.

End Sorting.

Section Queries.

Import DiscountRecommendationService.

Lemma inject_Z_minus (a b : Z) : inject_Z (a - b) == inject_Z a - inject_Z b.
Proof.
  unfold Z.sub. rewrite inject_Z_plus, inject_Z_opp. reflexivity.
Qed.

(** X5.  [getAllRecommendations] returns the stored recommendations, each
    as often as it is stored, with timestamps in descending order, and
    leaves the store holding that same list; decisions are untouched. *)
Theorem getAllRecommendations_newest_first (this : Service) :
  let result := getAllRecommendations this in
  Permutation (snd result) (recommendations this)
  /\ descendingBy (fun r => inject_Z (DiscountRecommendation.timestamp r))
       (snd result)
  /\ recommendations (fst result) = snd result
  /\ decisions (fst result) = decisions this.
Proof.
  cbv zeta. unfold getAllRecommendations. simpl.
  split; [apply sort_perm|]. split; [|split; reflexivity].
  apply sort_descending. intros a b. apply inject_Z_minus.
Qed.

(** X6.  [getDecisionHistory] returns the recorded decisions, each as
    often as it is recorded, latest first, and leaves the store holding
    that same list. *)
Theorem getDecisionHistory_latest_first (this : Service) :
  let result := getDecisionHistory this in
  Permutation (snd result) (decisions this)
  /\ descendingBy (fun d => inject_Z (DiscountDecision.timestamp d))
       (snd result)
  /\ decisions (fst result) = snd result
  /\ recommendations (fst result) = recommendations this.
Proof.
  cbv zeta. unfold getDecisionHistory. simpl.
  split; [apply sort_perm|]. split; [|split; reflexivity].
  apply sort_descending. intros a b. apply inject_Z_minus.
Qed.

Lemma status_partition (l : list DiscountRecommendation.t) :
  List.length l
  = (List.length
       (filter (fun r => Status.eqb (DiscountRecommendation.status r)
                                    Status.approved) l)
     + List.length
         (filter (fun r => Status.eqb (DiscountRecommendation.status r)
                                      Status.rejected) l)
     + List.length
         (filter (fun r => Status.eqb (DiscountRecommendation.status r)
                                      Status.pending) l)
     + List.length
         (filter (fun r => Status.eqb (DiscountRecommendation.status r)
                                      Status.applied) l))%nat.
Proof.
  induction l as [|r l IH]; simpl; [reflexivity|].
  destruct (DiscountRecommendation.status r); simpl; lia.
Qed.

(** X7.  In the statistics the total is the number of approved, rejected,
    pending and applied recommendations together, and the approval rate
    is a whole number between 0 and 100, 0 on an empty store. *)
Theorem getRecommendationStats_consistent (this : Service) :
  let stats := getRecommendationStats this in
  total stats
  = (approved stats + rejected stats + pending stats
     + List.length (withStatus Status.applied this))%nat
  /\ 0 <= approvalRate stats <= 100
  /\ (exists n : Z, approvalRate stats = inject_Z n)
  /\ (recommendations this = [] -> approvalRate stats = 0).
Proof.
  cbv zeta. unfold getRecommendationStats, withStatus. simpl.
  split; [apply status_partition|].
  pose proof (status_partition (recommendations this)) as Hp.
  set (n := List.length (recommendations this)) in *.
  set (a := List.length (filter _ (recommendations this))) in *.
  split; [|split].
  - destruct (0 <? n)%nat eqn:E; [|lra].
    apply Nat.ltb_lt in E.
    assert (Hn : 0 < JsNum.of_nat n).
    { unfold JsNum.of_nat. change 0 with (inject_Z 0).
      rewrite <- Zlt_Qlt. lia. }
    assert (Ha : JsNum.of_nat a <= JsNum.of_nat n).
    { unfold JsNum.of_nat. rewrite <- Zle_Qle. lia. }
    pose proof (of_nat_nonneg a) as Ha0.
    apply (Math_round_between _ 0 100).
    + change (inject_Z 0) with 0.
      apply Qmult_le_0_compat; [|lra].
      apply Qle_shift_div_l; lra.
    + change (inject_Z 100) with 100.
      assert (JsNum.of_nat a / JsNum.of_nat n <= 1).
      { apply Qle_shift_div_r; lra. }
      lra.
  - destruct (0 <? n)%nat.
    + eexists. unfold JsNum.Math_round. reflexivity.
    + exists 0%Z. reflexivity.
  - intro H. subst n. rewrite H. reflexivity.
Qed.

End Queries.

(* ================================================================= *)
(** ** What the generator produces *)

Section Batch.

Import DiscountRecommendationService.

Variable rt : Runtime.

Lemma Math_round_comp (x y : Q) :
  x == y -> JsNum.Math_round x = JsNum.Math_round y.
Proof. intro H. unfold JsNum.Math_round. now rewrite H. Qed.

Lemma simulated_stock (r : Q) :
  0 <= r < 1 ->
  20 <= JsNum.Math_floor (r * 80) + 20 <= 99
  /\ JsNum.Math_round (JsNum.Math_floor (r * 80) + 20)
     == JsNum.Math_floor (r * 80) + 20.
Proof.
  intro H.
  destruct (Math_floor_between (r * 80) 0 80) as [H1 H2].
  { change (inject_Z 0) with 0. lra. }
  { change (inject_Z 80) with 80. lra. }
  change (inject_Z 0) with 0 in H1. change (inject_Z 80) with 80 in H2.
  split; [lra|].
  unfold JsNum.Math_floor.
  rewrite (Math_round_comp _ (inject_Z (Qfloor (r * 80) + 20))).
  - rewrite Math_round_inject. rewrite inject_Z_plus. reflexivity.
  - rewrite inject_Z_plus. reflexivity.
Qed.

Lemma simulated_hours (r : Q) :
  0 <= r < 1 -> 6 <= JsNum.Math_floor (r * 72) + 6 <= 77.
Proof.
  intro H.
  destruct (Math_floor_between (r * 72) 0 72) as [H1 H2].
  { change (inject_Z 0) with 0. lra. }
  { change (inject_Z 72) with 72. lra. }
  change (inject_Z 0) with 0 in H1. change (inject_Z 72) with 72 in H2.
  lra.
Qed.

Lemma simulated_price (r : Q) :
  0 <= r < 1 ->
  2 <= JsNum.Math_round ((r * 15 + 2) * 100) / 100 <= 17.
Proof.
  intro H.
  destruct (Math_round_between ((r * 15 + 2) * 100) 200 1700) as [H1 H2].
  { change (inject_Z 200) with 200. lra. }
  { change (inject_Z 1700) with 1700. lra. }
  change (inject_Z 200) with 200 in H1.
  change (inject_Z 1700) with 1700 in H2.
  split.
  - apply Qle_shift_div_l; lra.
  - apply Qle_shift_div_r; lra.
Qed.

(** A price in whole cents, discounted by between 0 and 100 percent and
    rounded to cents, is between 0 and the price. *)
Lemma discounted_price_between (cents : Z) (discount : Q) :
  0 <= discount <= 100 ->
  (0 <= cents)%Z ->
  0 <= JsNum.Math_round
         (inject_Z cents / 100 * (1 - discount / 100) * 100) / 100
    <= inject_Z cents / 100.
Proof.
  intros Hd Hc.
  assert (Hq : 0 <= inject_Z cents).
  { change 0 with (inject_Z 0). now rewrite <- Zle_Qle. }
  set (x := inject_Z cents / 100 * (1 - discount / 100) * 100).
  assert (Hx : x == inject_Z cents * (1 - discount / 100)).
  { unfold x. field. }
  assert (Hf : 0 <= 1 - discount / 100 <= 1).
  { assert (0 <= discount / 100) by (apply Qle_shift_div_l; lra).
    assert (discount / 100 <= 1) by (apply Qle_shift_div_r; lra).
    lra. }
  destruct (Math_round_between x 0 cents) as [H1 H2].
  { change (inject_Z 0) with 0. rewrite Hx.
    apply Qmult_le_0_compat; lra. }
  { rewrite Hx. nra. }
  change (inject_Z 0) with 0 in H1.
  split.
  - apply Qle_shift_div_l; lra.
  - apply Qle_shift_div_r; [lra|].
    setoid_replace (inject_Z cents / 100 * 100) with (inject_Z cents)
      by field.
    exact H2.
Qed.

(** One turn of the loop pushes nothing, or one recommendation for the
    product at hand. *)
Lemma forEachProduct_step (this : Service) (loop : Loop)
    (productName : string) :
  newRecommendations (forEachProduct rt this loop productName)
  = newRecommendations loop
  \/ exists r,
       newRecommendations (forEachProduct rt this loop productName)
       = (newRecommendations loop ++ [r])%list
       /\ DiscountRecommendation.productName r = productName
       /\ (fairRandom rt -> wellFormed r).
Proof.
  unfold forEachProduct.
  destruct (find _ (userTrainingData this)) as [productData|]; [|now left].
  set (pattern :=
         analyzeHistoricalWastePattern rt this productName
           (UserTrainingData.category productData)).
  destruct ((0 <? dataPoints pattern)%nat && (wasteRate pattern >? 5))
    eqn:Egate; [|now left].
  destruct (_ || _); [|now left].
  right. eexists. split; [reflexivity|]. split; [reflexivity|].
  intro Hfair.
  apply andb_true_iff in Egate. destruct Egate as [Epoints _].
  apply Nat.ltb_lt in Epoints.
  pose proof (Hfair (draws loop)) as R0.
  pose proof (Hfair (draws loop + 1)%nat) as R1.
  pose proof (Hfair (draws loop + 2)%nat) as R2.
  destruct (simulated_stock _ R0) as [Hstock Hround].
  pose proof (simulated_hours _ R1) as Hhours.
  pose proof (simulated_price _ R2) as Hprice.
  unfold wellFormed.
  cbn [DiscountRecommendation.set_reasoning
         DiscountRecommendation.status DiscountRecommendation.currentStock
         DiscountRecommendation.hoursUntilExpiry
         DiscountRecommendation.currentPrice
         DiscountRecommendation.suggestedDiscountPercentage
         DiscountRecommendation.predictedWastePercentage
         DiscountRecommendation.predictedWasteAmount
         DiscountRecommendation.confidence
         DiscountRecommendation.discountedPrice
         DiscountRecommendation.basedOnDataPoints].
  split; [reflexivity|]. split; [exact Hstock|]. split; [exact Hhours|].
  split; [exact Hprice|].
  split; [apply calculateOptimalDiscount_between|].
  split; [apply prediction_percentage_between|].
  split.
  { match goal with
    | |- 0 <= p_wasteAmount (calculatePredictedWaste ?s ?h ?p ?c) <= _ =>
        pose proof (prediction_amount_between s h p c) as Ha
    end.
    rewrite Hround in Ha. apply Ha. lra. }
  split; [apply prediction_confidence_between|].
  split; [|exact Epoints].
  match goal with
  | |- 0 <= JsNum.Math_round (JsNum.Math_round ?y / 100 * (1 - ?d / 100)
                               * 100) / 100 <= _ =>
      apply (discounted_price_between (Qfloor (y + (1 # 2))) d)
  end.
  - pose proof (calculateOptimalDiscount_between
                  (p_wastePercentage
                     (calculatePredictedWaste
                        (JsNum.Math_floor (Math_random rt (draws loop) * 80)
                         + 20)
                        (JsNum.Math_floor
                           (Math_random rt (draws loop + 1) * 72) + 6)
                        pattern
                        {| cc_temperature :=
                             UserTrainingData.temperature productData
                             + (Math_random rt (draws loop + 3) * 10 - 5);
                           cc_humidity :=
                             UserTrainingData.humidity productData
                             + (Math_random rt (draws loop + 4) * 20 - 10)
                        |}))
                  (JsNum.Math_floor (Math_random rt (draws loop + 1) * 72)
                   + 6)
                  pattern) as Hd.
    lra.
  - destruct (Math_round_between
                ((Math_random rt (draws loop + 2) * 15 + 2) * 100) 0 1700)
      as [H0 _].
    { change (inject_Z 0) with 0. lra. }
    { change (inject_Z 1700) with 1700. lra. }
    unfold JsNum.Math_round in H0. now rewrite <- Zle_Qle in H0.
Qed.

Lemma unique_In (l : list string) (x : string) :
  In x (JsArray.unique l) <-> In x l.
Proof.
  induction l as [|y l IH]; simpl; [tauto|].
  rewrite filter_In, IH, negb_true_iff, String.eqb_neq.
  destruct (string_dec y x) as [->|Hne]; [tauto|].
  split; [tauto|]. intros [H|H]; [tauto|]. right. split; [exact H|].
  congruence.
Qed.

Lemma unique_NoDup (l : list string) : NoDup (JsArray.unique l).
Proof.
  induction l as [|y l IH]; simpl; constructor.
  - rewrite filter_In, negb_true_iff, String.eqb_neq. tauto.
  - now apply NoDup_filter.
Qed.

Lemma unique_length (l : list string) :
  (List.length (JsArray.unique l) <= List.length l)%nat.
Proof.
  induction l as [|y l IH]; simpl; [lia|].
  pose proof (filter_length_le (fun z => negb (String.eqb z y))
                (JsArray.unique l)).
  lia.
Qed.

(** The whole loop: what it adds to the batch, for products without
    repetition. *)
Lemma loop_adds (this : Service) (products : list string) (loop : Loop) :
  NoDup products ->
  exists added,
    newRecommendations (fold_left (forEachProduct rt this) products loop)
    = (newRecommendations loop ++ added)%list
    /\ (fairRandom rt -> Forall wellFormed added)
    /\ NoDup (map DiscountRecommendation.productName added)
    /\ incl (map DiscountRecommendation.productName added) products
    /\ (List.length added <= List.length products)%nat.
Proof.
  revert loop. induction products as [|p products IH]; intros loop Hnd.
  - exists []. simpl. rewrite app_nil_r.
    repeat split; auto; try constructor. intros x [].
  - inversion Hnd as [|? ? Hp Hnd']; subst.
    destruct (IH (forEachProduct rt this loop p) Hnd')
      as (added & Hout & Hwf & Hnames & Hincl & Hlen).
    simpl fold_left. rewrite Hout.
    destruct (forEachProduct_step this loop p) as [Hstep|(r & Hstep & Hr & Hwr)];
      rewrite Hstep.
    + exists added. repeat split; auto.
      * intros x Hx. right. now apply Hincl.
      * simpl. lia.
    + exists (r :: added). rewrite <- app_assoc. simpl.
      repeat split; auto.
      * constructor; [|exact Hnames].
        rewrite Hr. intro Hin. apply Hp. now apply Hincl.
      * intros x [Hx|Hx]; [left; congruence|right; now apply Hincl].
      * lia.
Qed.

(** A successful run, laid out: the batch is the sorted output of the
    loop over the distinct product names. *)
Lemma generate_returns (this : Service) :
  trainedModelData this <> None ->
  userTrainingData this <> [] ->
  exists added,
    snd (generateRecommendationsFromTrainingData rt this)
    = Returned (JsArray.sort byUrgency added)
    /\ recommendations
         (fst (generateRecommendationsFromTrainingData rt this))
       = (filter (fun r =>
                    negb (Status.eqb (DiscountRecommendation.status r)
                                     Status.pending))
                 (recommendations this)
          ++ JsArray.sort byUrgency added)%list
    /\ (fairRandom rt -> Forall wellFormed added)
    /\ Forall isPending added
    /\ NoDup (map DiscountRecommendation.productName added)
    /\ incl (map DiscountRecommendation.productName added)
           (map UserTrainingData.productName (userTrainingData this))
    /\ (List.length added <= List.length (userTrainingData this))%nat.
Proof.
  intros Hm Hd. unfold generateRecommendationsFromTrainingData.
  destruct (trainedModelData this) as [m|] eqn:Em; [|congruence].
  destruct (userTrainingData this) as [|d l] eqn:Ed; [congruence|].
  cbn [List.length Nat.eqb]. rewrite <- Ed.
  destruct (loop_adds this
              (JsArray.unique
                 (map UserTrainingData.productName (userTrainingData this)))
              {| newRecommendations := []; draws := 0; ticks := 0 |}
              (unique_NoDup _))
    as (added & Hout & Hwf & Hnames & Hincl & Hlen).
  cbn [newRecommendations app] in Hout.
  exists added. cbn [fst snd recommendations]. rewrite Hout.
  split; [reflexivity|]. split; [reflexivity|]. split; [exact Hwf|].
  split.
  { rewrite <- Hout. apply loop_pending. constructor. }
  split; [exact Hnames|]. split.
  - intros x Hx. apply unique_In. now apply Hincl.
  - pose proof (unique_length
                  (map UserTrainingData.productName (userTrainingData this)))
      as Hu.
    rewrite length_map in Hu.
    assert (He : List.length (userTrainingData this) = S (List.length l))
      by (rewrite Ed; reflexivity).
    lia.
Qed.

(** X8.  When [Math.random] stays in [0, 1), every recommendation of a
    generated batch is pending, with a stock between 20 and 99, between 6
    and 77 hours left, a price between 2 and 17, a suggested discount
    between 5 and 70, a predicted waste percentage between 0 and 100 and a
    predicted waste amount between 0 and the stock, a confidence between
    50 and 95, a discounted price between 0 and the price, and at least
    one historical data point behind it. *)
Theorem generated_batch_is_well_formed (this : Service) :
  fairRandom rt ->
  trainedModelData this <> None ->
  userTrainingData this <> [] ->
  exists batch,
    snd (generateRecommendationsFromTrainingData rt this) = Returned batch
    /\ Forall wellFormed batch.
Proof.
  intros Hfair Hm Hd.
  destruct (generate_returns this Hm Hd) as (added & Hret & _ & Hwf & _).
  eexists. split; [exact Hret|].
  eapply Permutation_Forall; [symmetry; apply sort_perm|]. now apply Hwf.
Qed.

(** X9.  A generated batch is ranked: along the list the urgency score
    (predicted waste percentage / 100) x (72 - hours until expiry) / 72
    never increases. *)
Theorem generated_batch_is_ranked (this : Service) :
  trainedModelData this <> None ->
  userTrainingData this <> [] ->
  exists batch,
    snd (generateRecommendationsFromTrainingData rt this) = Returned batch
    /\ descendingBy urgencyOf batch.
Proof.
  intros Hm Hd.
  destruct (generate_returns this Hm Hd) as (added & Hret & _).
  eexists. split; [exact Hret|].
  apply sort_descending. intros a b. reflexivity.
Qed.

(** X10.  A generated batch holds at most one recommendation per product
    name, every name being a product name of the history as it is written
    there; so it is never longer than the history. *)
Theorem generated_batch_has_one_per_product (this : Service) :
  trainedModelData this <> None ->
  userTrainingData this <> [] ->
  exists batch,
    snd (generateRecommendationsFromTrainingData rt this) = Returned batch
    /\ NoDup (map DiscountRecommendation.productName batch)
    /\ incl (map DiscountRecommendation.productName batch)
           (map UserTrainingData.productName (userTrainingData this))
    /\ (List.length batch <= List.length (userTrainingData this))%nat.
Proof.
  intros Hm Hd.
  destruct (generate_returns this Hm Hd)
    as (added & Hret & _ & _ & _ & Hnames & Hincl & Hlen).
  eexists. split; [exact Hret|].
  pose proof (sort_perm byUrgency added) as Hperm.
  split; [|split].
  - eapply Permutation_NoDup; [|exact Hnames].
    apply Permutation_map. now symmetry.
  - intros x Hx. apply Hincl.
    eapply Permutation_in; [|exact Hx]. now apply Permutation_map.
  - rewrite (Permutation_length Hperm). exact Hlen.
Qed.

Lemma filter_all {A : Type} (p : A -> bool) (l : list A) :
  Forall (fun x => p x = true) l -> filter p l = l.
Proof.
  intro H. induction H as [|x l Hx Hl IH]; simpl; [reflexivity|].
  now rewrite Hx, IH.
Qed.

Lemma filter_none {A : Type} (p : A -> bool) (l : list A) :
  filter p (filter (fun x => negb (p x)) l) = [].
Proof.
  induction l as [|x l IH]; simpl; [reflexivity|].
  destruct (p x) eqn:E; simpl; [exact IH|]. now rewrite E.
Qed.

(** X11.  After a successful generation the pending queue is exactly the
    batch returned, in the order returned: nothing pending survives from
    before. *)
Theorem pending_after_generation_is_the_batch (this : Service) :
  trainedModelData this <> None ->
  userTrainingData this <> [] ->
  snd (generateRecommendationsFromTrainingData rt this)
  = Returned
      (getPendingRecommendations
         (fst (generateRecommendationsFromTrainingData rt this))).
Proof.
  intros Hm Hd.
  destruct (generate_returns this Hm Hd)
    as (added & Hret & Hrecs & _ & Hpending & _).
  rewrite Hret. f_equal. unfold getPendingRecommendations.
  rewrite Hrecs, filter_app.
  rewrite (filter_none
             (fun r => Status.eqb (DiscountRecommendation.status r)
                                  Status.pending)).
  simpl. symmetry. apply filter_all.
  eapply Permutation_Forall; [symmetry; apply sort_perm|].
  eapply Forall_impl; [|exact Hpending].
  intros r Hr. unfold isPending in Hr. now rewrite Hr.
Qed.




End Batch.

(* ================================================================= *)
(** ** The pending queue and the decision log *)

Section Queue.

Import DiscountRecommendationService.

Variable rt : Runtime.

Lemma pending_updateFirst (recommendationId : string)
    (f : DiscountRecommendation.t -> DiscountRecommendation.t)
    (l : list DiscountRecommendation.t) :
  (forall r, Status.eqb (DiscountRecommendation.status (f r)) Status.pending
             = false) ->
  NoDup (map DiscountRecommendation.id l) ->
  filter (fun r => Status.eqb (DiscountRecommendation.status r)
                              Status.pending)
         (JsArray.updateFirst (hasId recommendationId) f l)
  = filter (fun r => negb (hasId recommendationId r))
      (filter (fun r => Status.eqb (DiscountRecommendation.status r)
                                   Status.pending) l).
Proof.
  intros Hf. induction l as [|x l IH]; intro Hnd; simpl; [reflexivity|].
  inversion Hnd as [|? ? Hx Hnd']; subst.
  destruct (hasId recommendationId x) eqn:E.
  - simpl. rewrite Hf.
    assert (Hrest :
      filter (fun r => negb (hasId recommendationId r))
        (filter (fun r => Status.eqb (DiscountRecommendation.status r)
                                     Status.pending) l)
      = filter (fun r => Status.eqb (DiscountRecommendation.status r)
                                    Status.pending) l).
    { apply filter_all. apply Forall_forall. intros r Hr.
      apply filter_In in Hr. destruct Hr as [Hr _].
      apply negb_true_iff. destruct (hasId recommendationId r) eqn:Er;
        [|reflexivity].
      exfalso. apply Hx. apply hasId_true in E. apply hasId_true in Er.
      rewrite E, <- Er. now apply in_map. }
    destruct (Status.eqb (DiscountRecommendation.status x) Status.pending);
      simpl; [rewrite E; simpl|]; now rewrite Hrest.
  - simpl.
    destruct (Status.eqb (DiscountRecommendation.status x) Status.pending);
      simpl; [rewrite E; simpl|]; now rewrite (IH Hnd').
Qed.

Lemma updateFirst_ids (recommendationId : string)
    (f : DiscountRecommendation.t -> DiscountRecommendation.t)
    (l : list DiscountRecommendation.t) :
  (forall r, DiscountRecommendation.id (f r) = DiscountRecommendation.id r) ->
  map DiscountRecommendation.id
    (JsArray.updateFirst (hasId recommendationId) f l)
  = map DiscountRecommendation.id l.
Proof.
  intro Hf. induction l as [|x l IH]; simpl; [reflexivity|].
  destruct (hasId recommendationId x); simpl; [now rewrite Hf|].
  now rewrite IH.
Qed.

(** X12.  When the stored ids are distinct, an approve or reject call
    removes from the pending queue the recommendation it names, if it is
    there, and nothing else, keeping the order; the stored ids stay the
    same, so they stay distinct. *)
Theorem decision_leaves_the_pending_queue (this : Service) (c : Call) :
  NoDup (map DiscountRecommendation.id (recommendations this)) ->
  getPendingRecommendations (perform rt this c)
  = filter (fun r => negb (hasId (targetOf c) r))
      (getPendingRecommendations this)
  /\ map DiscountRecommendation.id (recommendations (perform rt this c))
     = map DiscountRecommendation.id (recommendations this).
Proof.
  intro Hnd. unfold getPendingRecommendations.
  destruct c as [rid d notes|rid notes]; simpl; split.
  - apply pending_updateFirst; [|exact Hnd].
    intro r. now rewrite approve_status.
  - apply updateFirst_ids. apply approve_id.
  - apply pending_updateFirst; [|exact Hnd]. reflexivity.
  - apply updateFirst_ids. reflexivity.
Qed.

Lemma perform_log (this : Service) (c : Call) :
  map logEntry (decisions (perform rt this c))
  = (map logEntry (decisions this) ++ [(targetOf c, kindOf c)])%list.
Proof.
  destruct c as [rid d notes|rid notes]; simpl; unfold JsArray.push;
    rewrite map_app; reflexivity.
Qed.

(** X13.  The decision log is append-only and has one entry per call: after
    a session, the log is the log before followed by one decision for each
    call, in call order, naming the id the call named and recording its
    kind, whether or not the id was found. *)
Theorem session_appends_one_decision_per_call (calls : list Call)
    (this : Service) :
  map logEntry (decisions (session rt calls this))
  = (map logEntry (decisions this)
     ++ map (fun c => (targetOf c, kindOf c)) calls)%list
  /\ exists added,
       decisions (session rt calls this) = (decisions this ++ added)%list
       /\ List.length added = List.length calls.
Proof.
  unfold session. revert this.
  induction calls as [|c calls IH]; intro this; simpl.
  - rewrite app_nil_r. split; [reflexivity|].
    exists []. now rewrite app_nil_r.
  - destruct (IH (perform rt this c)) as [Hlog (added & Hadd & Hlen)].
    split.
    + rewrite Hlog, perform_log, <- app_assoc. reflexivity.
    + assert (Hone : exists d, decisions (perform rt this c)
                               = (decisions this ++ [d])%list).
      { destruct c; simpl; unfold JsArray.push; eexists; reflexivity. }
      destruct Hone as (d & Hd).
      exists (d :: added). rewrite Hadd, Hd, <- app_assoc. simpl.
      split; [reflexivity|]. now rewrite Hlen.
Qed.

(** X14.  An override that is not 0 is applied as given, without a range
    check: the stored price is currentPrice x (1 - d/100) and the
    estimated revenue is predictedWasteAmount x that price.  For a
    non-negative price an override between 0 and 100 gives a price between
    0 and the current price; for a positive price an override above 100
    gives a negative price. *)
Theorem override_is_not_range_checked (this : Service)
    (r : DiscountRecommendation.t) (d : Q) (notes : option string) :
  find (hasId (DiscountRecommendation.id r)) (recommendations this)
  = Some r ->
  ~ d == 0 ->
  exists r',
    find (hasId (DiscountRecommendation.id r))
      (recommendations
         (approveRecommendation rt (DiscountRecommendation.id r) (Some d)
            notes this))
    = Some r'
    /\ DiscountRecommendation.suggestedDiscountPercentage r' = d
    /\ DiscountRecommendation.discountedPrice r'
       = DiscountRecommendation.currentPrice r * (1 - d / 100)
    /\ DiscountRecommendation.estimatedRevenueSaved r'
       = DiscountRecommendation.predictedWasteAmount r
         * DiscountRecommendation.discountedPrice r'
    /\ (0 <= DiscountRecommendation.currentPrice r -> 0 <= d <= 100 ->
        0 <= DiscountRecommendation.discountedPrice r'
          <= DiscountRecommendation.currentPrice r)
    /\ (0 < DiscountRecommendation.currentPrice r -> 100 < d ->
        DiscountRecommendation.discountedPrice r' < 0).
Proof.
  intros Hfind Hd.
  assert (Ht : JsNum.truthy d = true).
  { unfold JsNum.truthy. apply negb_true_iff.
    destruct (Qeq_bool d 0) eqn:E; [|reflexivity].
    apply Qeq_bool_iff in E. contradiction. }
  exists (approve (Some d) r). split.
  { unfold approveRecommendation. cbn [recommendations].
    apply find_updateFirst; [exact Hfind|].
    apply hasId_true. apply approve_id. }
  unfold approve. rewrite Ht.
  cbn [DiscountRecommendation.set_status
         DiscountRecommendation.set_suggestedDiscountPercentage
         DiscountRecommendation.set_discountedPrice
         DiscountRecommendation.set_estimatedRevenueSaved
         DiscountRecommendation.suggestedDiscountPercentage
         DiscountRecommendation.discountedPrice
         DiscountRecommendation.estimatedRevenueSaved
         DiscountRecommendation.currentPrice
         DiscountRecommendation.predictedWasteAmount].
  split; [reflexivity|]. split; [reflexivity|]. split; [reflexivity|].
  set (price := DiscountRecommendation.currentPrice r).
  assert (Hq : d / 100 == d * (1 # 100)) by (field).
  split.
  - intros Hp Hr. rewrite Hq. split; nra.
  - intros Hp Hr. rewrite Hq. nra.
Qed.

Lemma nth_updateFirst_cases {A : Type} (p : A -> bool) (f : A -> A)
    (l : list A) (i : nat) (x : A) :
  nth_error l i = Some x ->
  nth_error (JsArray.updateFirst p f l) i
  = Some match find p (firstn i l) with
         | None => if p x then f x else x
         | Some _ => x
         end.
Proof.
  revert i. induction l as [|a l IH]; intros [|i]; simpl; try discriminate.
  - intro H. injection H as ->. destruct (p x); reflexivity.
  - intro H. destruct (p a); simpl; [exact H|]. now apply IH.
Qed.

Lemma find_hasId_ids (k : string) (l l' : list DiscountRecommendation.t) :
  map DiscountRecommendation.id l = map DiscountRecommendation.id l' ->
  find (hasId k) l = None -> find (hasId k) l' = None.
Proof.
  revert l'. induction l as [|x l IH]; intros [|y l']; simpl;
    try discriminate; [reflexivity|].
  intro H. injection H as Hxy Hl. unfold hasId at 1 3.
  rewrite Hxy. destruct (String.eqb _ k); [discriminate|]. now apply IH.
Qed.

Lemma perform_ids (this : Service) (c : Call) :
  map DiscountRecommendation.id (recommendations (perform rt this c))
  = map DiscountRecommendation.id (recommendations this).
Proof.
  destruct c as [rid d notes|rid notes]; simpl; apply updateFirst_ids.
  - intro r. apply approve_id.
  - intro r. reflexivity.
Qed.

Lemma resolvedAt_ids (l l' : list DiscountRecommendation.t) (i : nat)
    (r r' : DiscountRecommendation.t) :
  map DiscountRecommendation.id l = map DiscountRecommendation.id l' ->
  DiscountRecommendation.id r = DiscountRecommendation.id r' ->
  resolvedAt l i r -> resolvedAt l' i r'.
Proof.
  unfold resolvedAt. intros Hl Hr. rewrite <- Hr.
  apply find_hasId_ids. rewrite <- !firstn_map. now rewrite Hl.
Qed.

Lemma perform_resolved (this : Service) (c : Call) (i : nat)
    (r : DiscountRecommendation.t) :
  nth_error (recommendations this) i = Some r ->
  exists r',
    nth_error (recommendations (perform rt this c)) i = Some r'
    /\ DiscountRecommendation.id r' = DiscountRecommendation.id r
    /\ (resolvedAt (recommendations this) i r ->
        DiscountRecommendation.status r'
        = statusAfter [c] (DiscountRecommendation.id r)
            (DiscountRecommendation.status r))
    /\ (~ resolvedAt (recommendations this) i r -> r' = r).
Proof.
  intro H. unfold resolvedAt, statusAfter. simpl fold_left.
  assert (Hcases : forall f,
            nth_error
              (JsArray.updateFirst (hasId (targetOf c)) f
                 (recommendations this)) i
            = Some r
              /\ (String.eqb (targetOf c) (DiscountRecommendation.id r)
                  = false
                  \/ find (hasId (DiscountRecommendation.id r))
                       (firstn i (recommendations this)) <> None)
            \/ nth_error
                 (JsArray.updateFirst (hasId (targetOf c)) f
                    (recommendations this)) i
               = Some (f r)
               /\ String.eqb (targetOf c) (DiscountRecommendation.id r)
                  = true
               /\ find (hasId (DiscountRecommendation.id r))
                    (firstn i (recommendations this)) = None).
  { intro f. rewrite (nth_updateFirst_cases _ f _ _ _ H).
    assert (Hh : hasId (targetOf c) r
                 = String.eqb (targetOf c) (DiscountRecommendation.id r))
      by (unfold hasId; apply String.eqb_sym).
    rewrite Hh.
    destruct (String.eqb_spec (targetOf c) (DiscountRecommendation.id r))
      as [E|E].
    - rewrite E.
      destruct (find _ (firstn i _)).
      + left. split; [reflexivity|]. right. discriminate.
      + right. repeat split.
    - left. split; [destruct (find _ (firstn i _)); reflexivity|].
      left. reflexivity. }
  destruct c as [rid d notes|rid notes];
    cbn [perform approveRecommendation rejectRecommendation recommendations
         targetOf kindOf statusOf] in *.
  - destruct (Hcases (approve d)) as [[Hn Hwhy]|(Hn & Ht & Hf)].
    + exists r. split; [exact Hn|]. split; [reflexivity|]. split; [|auto].
      intro Hres. destruct Hwhy as [Ht|Hf]; [now rewrite Ht|contradiction].
    + exists (approve d r). split; [exact Hn|].
      split; [apply approve_id|]. split.
      * intros _. rewrite Ht. apply approve_status.
      * intro Hres. contradiction.
  - destruct (Hcases (DiscountRecommendation.set_status Status.rejected))
      as [[Hn Hwhy]|(Hn & Ht & Hf)].
    + exists r. split; [exact Hn|]. split; [reflexivity|]. split; [|auto].
      intro Hres. destruct Hwhy as [Ht|Hf]; [now rewrite Ht|contradiction].
    + exists (DiscountRecommendation.set_status Status.rejected r).
      split; [exact Hn|]. split; [reflexivity|]. split.
      * intros _. rewrite Ht. reflexivity.
      * intro Hres. contradiction.
Qed.

Lemma session_resolved (calls : list Call) (this : Service) (i : nat)
    (r : DiscountRecommendation.t) :
  nth_error (recommendations this) i = Some r ->
  exists r',
    nth_error (recommendations (session rt calls this)) i = Some r'
    /\ (resolvedAt (recommendations this) i r ->
        DiscountRecommendation.status r'
        = statusAfter calls (DiscountRecommendation.id r)
            (DiscountRecommendation.status r))
    /\ (~ resolvedAt (recommendations this) i r -> r' = r).
Proof.
  unfold session. revert this r.
  induction calls as [|c calls IH]; intros this r H.
  - exists r. simpl. auto.
  - destruct (perform_resolved this c i r H) as (r1 & H1 & Hid & Hs & Hn).
    destruct (IH _ _ H1) as (r' & H' & Hs' & Hn').
    exists r'. simpl fold_left. split; [exact H'|]. split.
    + intro Hres. rewrite Hs'.
      * rewrite Hid, (Hs Hres). reflexivity.
      * apply (resolvedAt_ids (recommendations this) _ i r r1);
          [symmetry; apply perform_ids|now symmetry|exact Hres].
    + intro Hres. rewrite Hn'.
      * now apply Hn.
      * intro Hres1. apply Hres.
        apply (resolvedAt_ids (recommendations (perform rt this c)) _ i r1 r);
          [apply perform_ids|exact Hid|exact Hres1].
Qed.


Lemma statusAfter_app (before after : list Call) (recommendationId : string)
    (s : Status.t) :
  statusAfter (before ++ after) recommendationId s
  = statusAfter after recommendationId
      (statusAfter before recommendationId s).
Proof. unfold statusAfter. apply fold_left_app. Qed.

Lemma statusAfter_others (calls : list Call) (recommendationId : string)
    (s : Status.t) :
  (forall c, In c calls -> targetOf c <> recommendationId) ->
  statusAfter calls recommendationId s = s.
Proof.
  unfold statusAfter. revert s.
  induction calls as [|c calls IH]; intros s H; simpl; [reflexivity|].
  destruct (String.eqb_spec (targetOf c) recommendationId) as [E|_].
  - exfalso. apply (H c); [now left|exact E].
  - apply IH. intros c' Hc'. apply H. now right.
Qed.

(** The last call naming the id decides. *)
Lemma statusAfter_last (before after : list Call) (c : Call)
    (recommendationId : string) (s : Status.t) :
  targetOf c = recommendationId ->
  (forall c', In c' after -> targetOf c' <> recommendationId) ->
  statusAfter (before ++ c :: after) recommendationId s
  = statusOf (kindOf c).
Proof.
  intros Hc Hafter.
  rewrite statusAfter_app.
  change (c :: after) with ([c] ++ after)%list.
  rewrite statusAfter_app, (statusAfter_others after _ _ Hafter).
  unfold statusAfter. simpl.
  apply String.eqb_eq in Hc. now rewrite Hc.
Qed.

(** C2 (as amended).  Through any session of approve and reject calls a
    stored recommendation keeps its place and its id; its status either
    stays what it was or is approved or rejected, so it never returns to
    pending and a decided recommendation stays decided; and calls naming
    other ids leave the whole object unchanged.  The decided states are
    not terminal: on the recommendation its id resolves to (the first
    stored one with that id, the one [find] returns) every call naming
    the id writes its own decision whatever the status was, so the status
    after the session is the decision of the last call naming the id;
    a recommendation that an earlier one shares its id with is never
    changed. *)
Theorem status_only_moves_to_decided (calls : list Call) (this : Service)
    (i : nat) (r : DiscountRecommendation.t) :
  nth_error (recommendations this) i = Some r ->
  exists r',
    nth_error (recommendations (session rt calls this)) i = Some r'
    /\ DiscountRecommendation.id r' = DiscountRecommendation.id r
    /\ (DiscountRecommendation.status r' = DiscountRecommendation.status r
        \/ decided (DiscountRecommendation.status r'))
    /\ (DiscountRecommendation.status r' = Status.pending ->
        DiscountRecommendation.status r = Status.pending)
    /\ (decided (DiscountRecommendation.status r) ->
        decided (DiscountRecommendation.status r'))
    /\ ((forall c, In c calls ->
                   targetOf c <> DiscountRecommendation.id r) ->
        r' = r)
    /\ (resolvedAt (recommendations this) i r ->
        DiscountRecommendation.status r'
        = statusAfter calls (DiscountRecommendation.id r)
            (DiscountRecommendation.status r)
        /\ forall before c after,
             calls = (before ++ c :: after)%list ->
             targetOf c = DiscountRecommendation.id r ->
             (forall c', In c' after ->
                         targetOf c' <> DiscountRecommendation.id r) ->
             DiscountRecommendation.status r' = statusOf (kindOf c))
    /\ (~ resolvedAt (recommendations this) i r -> r' = r).
Proof.
  intro H.
  destruct (session_position rt calls this i r H) as (r' & H' & Hid & Hs).
  destruct (session_resolved calls this i r H) as (r2 & H2 & Hfirst & Hlater).
  assert (E : r2 = r') by congruence. subst r2.
  exists r'. split; [exact H'|]. split; [exact Hid|].
  assert (Hlast :
    resolvedAt (recommendations this) i r ->
    DiscountRecommendation.status r'
    = statusAfter calls (DiscountRecommendation.id r)
        (DiscountRecommendation.status r)
    /\ forall before c after,
         calls = (before ++ c :: after)%list ->
         targetOf c = DiscountRecommendation.id r ->
         (forall c', In c' after ->
                     targetOf c' <> DiscountRecommendation.id r) ->
         DiscountRecommendation.status r' = statusOf (kindOf c)).
  { intro Hres. split; [now apply Hfirst|].
    intros before c after -> Hc Hafter.
    rewrite (Hfirst Hres). now apply statusAfter_last. }
  destruct Hs as [->|(Hd & c & Hin & Ht)].
  - split; [now left|]. split; [auto|]. split; [auto|]. split; [auto|].
    split; [exact Hlast|exact Hlater].
  - split; [now right|]. split.
    { intro Hp. destruct Hd as [Hd|Hd]; rewrite Hd in Hp; discriminate. }
    split; [intros _; exact Hd|]. split.
    { intro Hall. exfalso. exact (Hall c Hin Ht). }
    split; [exact Hlast|exact Hlater].
Qed.

End Queue.

(* ================================================================= *)
(** ** Validating and storing training data *)

Section Validation.

Variable parse : string -> option Q.

Lemma ltb_ge (x y : Q) : (x <? y) = false <-> y <= x.
Proof.
  unfold JsNum.ltb. rewrite negb_false_iff. apply Qle_bool_iff.
Qed.

Lemma truthy_nonempty (s : string) :
  JsString.truthy s = true <-> s <> EmptyString.
Proof.
  unfold JsString.truthy. rewrite negb_true_iff. apply String.eqb_neq.
Qed.

Lemma flagged_nil {A : Type} (b : bool) (x : A) (rest : list A) :
  ((if b then [x] else []) ++ rest)%list = [] <-> b = false /\ rest = [].
Proof.
  destruct b; simpl; split; try tauto; try discriminate.
  intros [H _]. discriminate.
Qed.

Lemma rowErrors_nil (row : UserTrainingData.t) (index : nat) :
  UserTrainingService.rowErrors parse row index = []
  <-> rowAccepted parse row.
Proof.
  unfold UserTrainingService.rowErrors, rowAccepted.
  rewrite !flagged_nil.
  rewrite <- (app_nil_r (if (_ || _) then _ else _)), flagged_nil.
  rewrite negb_false_iff, truthy_nonempty.
  rewrite !orb_false_iff, !negb_false_iff, !truthy_nonempty.
  rewrite !ltb_ge, !gtb_le.
  tauto.
Qed.

Lemma indexed_errors_nil (data : list UserTrainingData.t) (start : nat) :
  flat_map (fun entry =>
              UserTrainingService.rowErrors parse (fst entry) (snd entry))
           (JsArray.indexedFrom start data) = []
  <-> Forall (rowAccepted parse) data.
Proof.
  revert start. induction data as [|row data IH]; intro start; simpl.
  - split; [constructor|reflexivity].
  - split.
    + intro H. apply app_eq_nil in H. destruct H as [H1 H2].
      constructor; [now apply rowErrors_nil in H1|now apply IH in H2].
    + intro H. inversion H as [|? ? H1 H2]; subst.
      apply (rowErrors_nil row start) in H1. apply (IH (S start)) in H2.
      simpl in H1. now rewrite H1, H2.
Qed.

Lemma validateData_valid (data : list UserTrainingData.t) :
  UserTrainingService.valid (UserTrainingService.validateData parse data)
  = true
  <-> Forall (rowAccepted parse) data.
Proof.
  unfold UserTrainingService.validateData. simpl.
  rewrite Nat.eqb_eq, length_zero_iff_nil. apply indexed_errors_nil.
Qed.

(** X15.  A batch validates exactly when every row has a non-blank product
    name, both dates, an expiry date that does not precede or equal the
    purchase date when both parse, no negative stock or waste, a waste not
    above the initial stock, a temperature between -20 and 120 and a
    humidity between 0 and 100; so two batches validate together exactly
    when each validates alone, and the empty batch validates. *)
Theorem validateData_accepts_row_by_row
    (data more : list UserTrainingData.t) :
  (UserTrainingService.valid (UserTrainingService.validateData parse data)
   = true
   <-> Forall (rowAccepted parse) data)
  /\ UserTrainingService.valid
       (UserTrainingService.validateData parse (data ++ more))
     = UserTrainingService.valid
         (UserTrainingService.validateData parse data)
       && UserTrainingService.valid
            (UserTrainingService.validateData parse more)
  /\ UserTrainingService.valid (UserTrainingService.validateData parse [])
     = true.
Proof.
  split; [apply validateData_valid|]. split; [|reflexivity].
  apply eq_true_iff_eq.
  rewrite andb_true_iff, !validateData_valid. apply Forall_app.
Qed.

Lemma handleDataUpload_cases (data : list UserTrainingData.t)
    (this : UserTrainingService.State) :
  (Forall (rowAccepted parse) data
   /\ handleDataUpload parse data this
      = UserTrainingService.addTrainingData data this)
  \/ (~ Forall (rowAccepted parse) data
      /\ handleDataUpload parse data this = this).
Proof.
  unfold handleDataUpload.
  destruct (UserTrainingService.valid _) eqn:E.
  - left. split; [now apply validateData_valid|reflexivity].
  - right. split; [|reflexivity].
    intro H. apply validateData_valid in H. congruence.
Qed.

(** X16.  An upload is all or nothing: a batch in which every row is
    acceptable is appended whole to the stored data, any other batch
    leaves the store exactly as it was.  So a store whose rows are all
    acceptable stays so through any series of uploads, and only grows. *)
Theorem upload_is_all_or_nothing (data : list UserTrainingData.t)
    (batches : list (list UserTrainingData.t))
    (this : UserTrainingService.State) :
  (Forall (rowAccepted parse) data ->
   UserTrainingService.trainingData (handleDataUpload parse data this)
   = (UserTrainingService.trainingData this ++ data)%list)
  /\ (~ Forall (rowAccepted parse) data ->
      handleDataUpload parse data this = this)
  /\ (Forall (rowAccepted parse) (UserTrainingService.trainingData this) ->
      Forall (rowAccepted parse)
        (UserTrainingService.trainingData (uploads parse batches this)))
  /\ exists added,
       UserTrainingService.trainingData (uploads parse batches this)
       = (UserTrainingService.trainingData this ++ added)%list.
Proof.
  split; [|split; [|split]].
  - intro H. destruct (handleDataUpload_cases data this) as [[_ ->]|[Hn _]];
      [reflexivity|contradiction].
  - intro H. destruct (handleDataUpload_cases data this) as [[Hy _]|[_ ->]];
      [contradiction|reflexivity].
  - unfold uploads. revert this.
    induction batches as [|batch batches IH]; intros this H; simpl.
    + exact H.
    + apply IH.
      destruct (handleDataUpload_cases batch this) as [[Hy ->]|[_ ->]];
        [|exact H].
      simpl. apply Forall_app. now split.
  - unfold uploads. revert this.
    induction batches as [|batch batches IH]; intro this; simpl.
    + exists []. now rewrite app_nil_r.
    + destruct (IH (handleDataUpload parse batch this)) as (added & Hadd).
      rewrite Hadd.
      destruct (handleDataUpload_cases batch this) as [[_ ->]|[_ ->]].
      * exists (batch ++ added)%list. simpl. now rewrite app_assoc.
      * exists added. reflexivity.
Qed.

End Validation.

(* ================================================================= *)
(** ** The waste rate of validated data *)

Section ValidatedRate.

Lemma sumOf_le {A : Type} (f g : A -> Q) (l : list A) :
  Forall (fun d => f d <= g d) l -> JsArray.sumOf f l <= JsArray.sumOf g l.
Proof.
  intro H. induction H as [|d l Hd Hl IH].
  - unfold JsArray.sumOf. simpl. lra.
  - unfold JsArray.sumOf in *. simpl.
    rewrite (fold_sum_shift f l (0 + f d)), (fold_sum_shift g l (0 + g d)).
    unfold JsArray.sumOf. lra.
Qed.

Lemma wasteRateOf_between (l : list UserTrainingData.t) :
  Forall (fun d => 0 <= UserTrainingData.wasteAmount d
                   /\ UserTrainingData.wasteAmount d
                      <= UserTrainingData.initialStock d) l ->
  0 <= UserTrainingService.wasteRateOf l <= 100.
Proof.
  intro H. rewrite wasteRateOf_guard.
  assert (HW : 0 <= JsArray.sumOf UserTrainingData.wasteAmount l).
  { apply sumOf_nonneg. eapply Forall_impl; [|exact H]. intros d [Hd _].
    exact Hd. }
  assert (HS : JsArray.sumOf UserTrainingData.wasteAmount l
               <= JsArray.sumOf UserTrainingData.initialStock l).
  { apply sumOf_le. eapply Forall_impl; [|exact H]. intros d [_ Hd].
    exact Hd. }
  destruct (_ >? 0) eqn:E; [|lra].
  apply gtb_lt in E.
  set (W := JsArray.sumOf UserTrainingData.wasteAmount l) in *.
  set (S := JsArray.sumOf UserTrainingData.initialStock l) in *.
  assert (H0 : 0 <= W / S) by (apply Qle_shift_div_l; lra).
  assert (H1 : W / S <= 1) by (apply Qle_shift_div_r; lra).
  lra.
Qed.

Lemma accepted_waste (parse : string -> option Q)
    (l : list UserTrainingData.t) :
  Forall (rowAccepted parse) l ->
  Forall (fun d => 0 <= UserTrainingData.wasteAmount d
                   /\ UserTrainingData.wasteAmount d
                      <= UserTrainingData.initialStock d) l.
Proof.
  apply Forall_impl. unfold rowAccepted. tauto.
Qed.

Lemma Forall_filter {A : Type} (P : A -> Prop) (p : A -> bool)
    (l : list A) :
  Forall P l -> Forall P (filter p l).
Proof.
  intro H. induction H as [|x l Hx Hl IH]; simpl; [constructor|].
  destruct (p x); [constructor|]; assumption.
Qed.

(** X17.  On data that passes [validateData] every waste rate lies between
    0 and 100: the one [calculateWasteRate] returns for any product name
    or category, and the one [analyzeHistoricalWastePattern] reports for
    any product and category. *)
Theorem validated_waste_rate_is_a_percentage
    (parse : string -> option Q) (rt : Runtime)
    (data : list UserTrainingData.t) :
  UserTrainingService.valid (UserTrainingService.validateData parse data)
  = true ->
  (forall name cat,
     0 <= UserTrainingService.calculateWasteRate data name cat <= 100)
  /\ (forall model recs decs productName category,
        0 <= wasteRate
               (DiscountRecommendationService.analyzeHistoricalWastePattern
                  rt
                  {| recommendations := recs; decisions := decs;
                     trainedModelData := model; userTrainingData := data |}
                  productName category)
          <= 100).
Proof.
  intro H. apply validateData_valid in H. apply accepted_waste in H.
  split.
  - intros name cat. unfold UserTrainingService.calculateWasteRate.
    apply wasteRateOf_between.
    unfold UserTrainingService.relevantData,
      UserTrainingService.getProductData,
      UserTrainingService.getCategoryData.
    destruct (UserTrainingService.given name);
      [|destruct (UserTrainingService.given cat)];
      try apply Forall_filter; exact H.
  - intros model recs decs productName category.
    unfold DiscountRecommendationService.analyzeHistoricalWastePattern.
    rewrite wasteRate_patternOf. apply wasteRateOf_between.
    unfold DiscountRecommendationService.relevantData. simpl.
    destruct (0 <? _)%nat; apply Forall_filter; exact H.
Qed.

End ValidatedRate.

(* ================================================================= *)
(** ** The summary, the training run and the sessions *)

Section Summary.

Lemma sumOf_cons {A : Type} (f : A -> Q) (x : A) (l : list A) :
  JsArray.sumOf f (x :: l) == f x + JsArray.sumOf f l.
Proof.
  unfold JsArray.sumOf. simpl.
  rewrite (fold_sum_shift f l (0 + f x)). unfold JsArray.sumOf. lra.
Qed.

Lemma sumOf_ext {A : Type} (f g : A -> Q) (l : list A) :
  (forall x, f x == g x) -> JsArray.sumOf f l == JsArray.sumOf g l.
Proof.
  intro H. induction l as [|x l IH].
  - reflexivity.
  - rewrite !sumOf_cons, IH, H. reflexivity.
Qed.

Lemma sumOf_plus {A : Type} (f g : A -> Q) (l : list A) :
  JsArray.sumOf (fun x => f x + g x) l
  == JsArray.sumOf f l + JsArray.sumOf g l.
Proof.
  induction l as [|x l IH].
  - unfold JsArray.sumOf. simpl. lra.
  - rewrite !sumOf_cons, IH. lra.
Qed.

Lemma sumOf_map {A B : Type} (f : B -> Q) (g : A -> B) (l : list A) :
  JsArray.sumOf f (map g l) == JsArray.sumOf (fun x => f (g x)) l.
Proof.
  induction l as [|x l IH].
  - reflexivity.
  - simpl map. rewrite !sumOf_cons, IH. reflexivity.
Qed.

(** Among distinct keys exactly one is the key looked for. *)
Lemma one_key_counts (k : string) (u : list string) :
  NoDup u -> In k u ->
  list_sum (map (fun c => if String.eqb k c then 1 else 0)%nat u) = 1%nat.
Proof.
  intros Hnd. induction Hnd as [|c u Hc Hnd IH]; intro Hin; [destruct Hin|].
  simpl. destruct (String.eqb_spec k c) as [->|Hne].
  - assert (Hz : list_sum
                   (map (fun c0 => if String.eqb c c0 then 1 else 0)%nat u)
                 = 0%nat).
    { clear IH Hin Hnd. induction u as [|a u IHu]; [reflexivity|].
      simpl. destruct (String.eqb_spec c a) as [->|_].
      - exfalso. apply Hc. now left.
      - apply IHu. intro H. apply Hc. now right. }
    now rewrite Hz.
  - destruct Hin as [->|Hin]; [congruence|]. now apply IH.
Qed.

Lemma one_key_weighs (k : string) (w : Q) (u : list string) :
  NoDup u -> In k u ->
  JsArray.sumOf (fun c => if String.eqb k c then w else 0) u == w.
Proof.
  intros Hnd. induction Hnd as [|c u Hc Hnd IH]; intro Hin; [destruct Hin|].
  rewrite sumOf_cons. destruct (String.eqb_spec k c) as [->|Hne].
  - assert (Hz : JsArray.sumOf
                   (fun c0 => if String.eqb c c0 then w else 0) u == 0).
    { clear IH Hin Hnd. induction u as [|a u IHu]; [reflexivity|].
      rewrite sumOf_cons. destruct (String.eqb_spec c a) as [->|_].
      - exfalso. apply Hc. now left.
      - rewrite IHu; [lra|]. intro H. apply Hc. now right. }
    rewrite Hz. lra.
  - destruct Hin as [->|Hin]; [congruence|]. rewrite IH by exact Hin. lra.
Qed.

Lemma list_sum_plus {A : Type} (f g : A -> nat) (l : list A) :
  list_sum (map (fun x => f x + g x)%nat l)
  = (list_sum (map f l) + list_sum (map g l))%nat.
Proof. induction l as [|x l IH]; simpl; lia. Qed.

Section ByKey.

Context {B : Type} (key : B -> string) (u : list string).
Hypothesis u_distinct : NoDup u.

Lemma count_by_key (l : list B) :
  (forall x, In x l -> In (key x) u) ->
  list_sum
    (map (fun c => List.length (filter (fun d => String.eqb (key d) c) l)) u)
  = List.length l.
Proof.
  induction l as [|x l IH]; intro Hin.
  - simpl. clear u_distinct Hin. induction u as [|c u' IHu]; [reflexivity|].
    simpl. exact IHu.
  - transitivity
      (list_sum
         (map (fun c =>
                 (if String.eqb (key x) c then 1 else 0)
                 + List.length
                     (filter (fun d => String.eqb (key d) c) l))%nat u)).
    { f_equal. apply map_ext. intro c. simpl.
      destruct (String.eqb (key x) c); reflexivity. }
    rewrite list_sum_plus.
    rewrite (one_key_counts (key x) u u_distinct) by (apply Hin; now left).
    rewrite IH by (intros y Hy; apply Hin; now right).
    reflexivity.
Qed.

Lemma weight_by_key (w : B -> Q) (l : list B) :
  (forall x, In x l -> In (key x) u) ->
  JsArray.sumOf
    (fun c => JsArray.sumOf w (filter (fun d => String.eqb (key d) c) l)) u
  == JsArray.sumOf w l.
Proof.
  induction l as [|x l IH]; intro Hin.
  - simpl. clear u_distinct Hin. induction u as [|c u' IHu]; [reflexivity|].
    rewrite sumOf_cons, IHu. unfold JsArray.sumOf. simpl. lra.
  - rewrite sumOf_cons.
    rewrite (sumOf_ext _
               (fun c =>
                  (if String.eqb (key x) c then w x else 0)
                  + JsArray.sumOf w
                      (filter (fun d => String.eqb (key d) c) l))).
    + rewrite sumOf_plus.
      rewrite (one_key_weighs (key x) (w x) u u_distinct)
        by (apply Hin; now left).
      rewrite IH by (intros y Hy; apply Hin; now right).
      reflexivity.
    + intro c. simpl.
      destruct (String.eqb (key x) c); [apply sumOf_cons|lra].
Qed.

End ByKey.

(** X18.  In the data summary the breakdown lists each category once, the
    counts of the breakdown add up to the number of records and its waste
    figures add up to the total waste; there are never more categories
    than records. *)
Theorem getDataSummary_breakdown_adds_up (this : UserTrainingService.State) :
  let summary := UserTrainingService.getDataSummary this in
  let breakdown := UserTrainingService.DataSummary.categoryBreakdown summary in
  NoDup (map UserTrainingService.CategoryBreakdown.category breakdown)
  /\ list_sum (map UserTrainingService.CategoryBreakdown.count breakdown)
     = UserTrainingService.DataSummary.totalRecords summary
  /\ JsArray.sumOf UserTrainingService.CategoryBreakdown.waste breakdown
     == UserTrainingService.DataSummary.totalWaste summary
  /\ UserTrainingService.DataSummary.categories summary
     = List.length breakdown
  /\ (UserTrainingService.DataSummary.categories summary
      <= UserTrainingService.DataSummary.totalRecords summary)%nat.
Proof.
  cbv zeta. unfold UserTrainingService.getDataSummary.
  cbn [UserTrainingService.DataSummary.categoryBreakdown
         UserTrainingService.DataSummary.totalRecords
         UserTrainingService.DataSummary.totalWaste
         UserTrainingService.DataSummary.categories].
  set (data := UserTrainingService.trainingData this).
  set (cats := JsArray.unique (map UserTrainingData.category data)).
  assert (Hin : forall x, In x data -> In (UserTrainingData.category x) cats).
  { intros x Hx. apply unique_In. now apply in_map. }
  rewrite !map_map. cbn [UserTrainingService.CategoryBreakdown.category
                           UserTrainingService.CategoryBreakdown.count].
  rewrite map_id.
  split; [apply unique_NoDup|]. split; [|split; [|split]].
  - unfold UserTrainingService.inCategory. fold data.
    apply (count_by_key UserTrainingData.category cats (unique_NoDup _)
             data Hin).
  - rewrite sumOf_map.
    cbn [UserTrainingService.CategoryBreakdown.waste].
    unfold UserTrainingService.inCategory. fold data.
    apply (weight_by_key UserTrainingData.category cats (unique_NoDup _)
             UserTrainingData.wasteAmount data Hin).
  - now rewrite length_map.
  - pose proof (unique_length (map UserTrainingData.category data)) as H.
    rewrite length_map in H. exact H.
Qed.

End Summary.

Section Training.

Variable rt : Runtime.

(** X19.  [trainModel] on an empty store throws and leaves the service as
    it was.  When a run completes, with [Math.random] in [0, 1), the
    session is marked completed with an accuracy between 65 and 95, and at
    least 90 once the store holds 100 records. *)
Theorem training_accuracy_is_bounded (this : UserTrainingService.State)
    (session : TrainingSession.t) :
  0 <= Math_random rt 0 < 1 ->
  let done := UserTrainingService.trainingCompleted rt this session in
  (UserTrainingService.trainingData this = [] ->
   UserTrainingService.trainModel rt this
   = (this,
      Thrown "No training data available. Please upload data first."))
  /\ TrainingSession.status done = SessionStatus.completed
  /\ 65 <= TrainingSession.modelAccuracy done <= 95
  /\ ((100 <= List.length (UserTrainingService.trainingData this))%nat ->
      90 <= TrainingSession.modelAccuracy done).
Proof.
  intro Hr. cbv zeta. split; [|split; [reflexivity|]].
  { intro H. unfold UserTrainingService.trainModel. now rewrite H. }
  unfold UserTrainingService.trainingCompleted.
  cbn [TrainingSession.modelAccuracy].
  set (n := JsNum.of_nat (List.length (UserTrainingService.trainingData this))).
  assert (Hn : 0 <= n) by apply of_nat_nonneg.
  assert (Hq : n / 100 * 100 == n) by field.
  unfold JsNum.Math_min. rewrite Hq.
  assert (Hdq : 0 <= Qmin 100 n <= 100).
  { split; [apply Q.min_glb; lra|apply Q.le_min_l]. }
  assert (Hb : Qmin 100 n / 100 * 25 == Qmin 100 n * (1 # 4)) by field.
  rewrite Hb. split.
  - split; [apply Q.min_glb; lra|apply Q.le_min_l].
  - intro H100.
    assert (H : 100 <= n).
    { unfold n, JsNum.of_nat. change 100 with (inject_Z 100).
      rewrite <- Zle_Qle. lia. }
    rewrite (Q.min_l 100 n) by exact H.
    apply Q.min_glb; lra.
Qed.

Lemma descending_head {A : Type} (key : A -> Q) (x : A) (l : list A) :
  descendingBy key (x :: l) -> forall y, In y (x :: l) -> key y <= key x.
Proof.
  intros H y [<-|Hy]; [lra|].
  inversion H as [|? ? _ Hx]; subst.
  rewrite Forall_forall in Hx. now apply Hx.
Qed.

(** X20.  [getLatestSession] returns nothing exactly when no session is
    stored; otherwise it returns a stored session whose timestamp no other
    stored session exceeds. *)
Theorem getLatestSession_is_latest (this : UserTrainingService.State) :
  let latest := snd (UserTrainingService.getLatestSession this) in
  (latest = None <-> UserTrainingService.trainingSessions this = [])
  /\ (forall s, latest = Some s ->
        In s (UserTrainingService.trainingSessions this)
        /\ forall s', In s' (UserTrainingService.trainingSessions this) ->
             (TrainingSession.timestamp s' <= TrainingSession.timestamp s)%Z).
Proof.
  cbv zeta. unfold UserTrainingService.getLatestSession,
    UserTrainingService.getTrainingSessions. cbn [fst snd].
  set (sessions := UserTrainingService.trainingSessions this).
  pose proof (sort_perm UserTrainingService.latestSessionFirst sessions)
    as Hperm.
  pose proof (sort_descending
                (fun s => inject_Z (TrainingSession.timestamp s))
                UserTrainingService.latestSessionFirst
                (fun a b => inject_Z_minus _ _) sessions) as Hsorted.
  destruct (JsArray.sort UserTrainingService.latestSessionFirst sessions)
    as [|s sorted] eqn:E.
  - apply Permutation_nil in Hperm. simpl. split; [tauto|].
    intros s H. discriminate.
  - simpl. split.
    + split; [discriminate|]. intro H. rewrite H in Hperm.
      symmetry in Hperm. apply Permutation_nil in Hperm. discriminate.
    + intros s0 H. injection H as <-. split.
      * eapply Permutation_in; [exact Hperm|now left].
      * intros s' Hs'. rewrite Zle_Qle.
        apply (descending_head _ s sorted Hsorted).
        eapply Permutation_in; [symmetry; exact Hperm|exact Hs'].
Qed.

End Training.

(* ================================================================= *)
(** ** The analysis of an utterance *)

Section Analysis.

Import ChatbotService.

Lemma detectIntent_range (table : list (string * list string))
    (lowerMessage : string) (context : list string) :
  (fst (detectIntent table lowerMessage context) = "general"%string
   /\ snd (detectIntent table lowerMessage context) = 0.5)
  \/ (In (fst (detectIntent table lowerMessage context)) (map fst table)
      /\ 0.7 <= snd (detectIntent table lowerMessage context) <= 1.05
      /\ (context = [] ->
          snd (detectIntent table lowerMessage context) <= 0.95)).
Proof.
  induction table as [|[name keywords] table IH]; simpl; [now left|].
  destruct (0 <? List.length (matchesOf lowerMessage keywords))%nat eqn:E.
  - right. apply Nat.ltb_lt in E. split; [now left|].
    set (n := JsNum.of_nat (List.length (matchesOf lowerMessage keywords))).
    assert (Hn : 1 <= n).
    { unfold n, JsNum.of_nat. change 1 with (inject_Z 1).
      rewrite <- Zle_Qle. lia. }
    assert (Hc : 0.7 <= JsNum.Math_min 0.95 (0.6 + n * 0.1) <= 0.95).
    { unfold JsNum.Math_min. split; [apply Q.min_glb; lra|apply Q.le_min_l]. }
    destruct context as [|ctx context]; simpl.
    + split; [lra|]. intros _. lra.
    + destruct (existsb _ keywords || existsb _ context); simpl.
      * split; [lra|]. discriminate.
      * split; [lra|]. discriminate.
  - destruct IH as [IH|(Hin & Hc & H0)]; [now left|].
    right. split; [now right|]. split; assumption.
Qed.

(** X21.  [analyzeIntent] either finds no intent, and answers "general"
    with confidence 0.5, or answers an intent of the table with a
    confidence between 0.7 and 1.05, at most 0.95 when no context is
    given.  The bound 1.05 is reached: a confidence can exceed 1. *)
Theorem analyzeIntent_confidence_range (message : string)
    (context : list string) :
  let analysis := analyzeIntent message context in
  ((intent analysis = "general"%string /\ confidence analysis = 0.5)
   \/ (In (intent analysis) (map fst intents)
       /\ 0.7 <= confidence analysis <= 1.05
       /\ (context = [] -> confidence analysis <= 0.95)))
  /\ confidence
       (analyzeIntent "cheap budget affordable price" ["cheap"%string])
     == 1.05.
Proof.
  cbv zeta. split; [|vm_compute; reflexivity].
  unfold analyzeIntent. cbn [intent confidence].
  apply detectIntent_range.
Qed.

Lemma filtered_keys_NoDup {K V : Type} (p : K * V -> bool)
    (l : list (K * V)) :
  NoDup (map fst l) -> NoDup (map fst (filter p l)).
Proof.
  induction l as [|x l IH]; simpl; [constructor|].
  intro H. inversion H as [|? ? Hx Hl]; subst.
  destruct (p x); simpl; [|now apply IH].
  constructor; [|now apply IH].
  intro Hin. apply Hx. apply in_map_iff in Hin.
  destruct Hin as (y & Hy & Hin). apply filter_In in Hin.
  apply in_map_iff. exists y. tauto.
Qed.

(** X22.  The entities of an analysis are category names of the table,
    groceries, electronics, clothing and home, each at most once. *)
Theorem analyzeIntent_entities (message : string) (context : list string) :
  let found := entities (analyzeIntent message context) in
  NoDup found
  /\ incl found
       ["groceries"; "electronics"; "clothing"; "home"]%string
  /\ (List.length found <= 4)%nat.
Proof.
  cbv zeta. unfold analyzeIntent. cbn [entities]. unfold detectCategories.
  set (p := fun entry : string * list string => _).
  assert (Hnd : NoDup (map fst categories)).
  { repeat (constructor; [simpl; intuition discriminate|]). constructor. }
  split; [now apply filtered_keys_NoDup|]. split.
  - intros x Hx. apply in_map_iff in Hx. destruct Hx as (y & Hy & Hin).
    apply filter_In in Hin. destruct Hin as [Hin _].
    change (In x (map fst categories)). apply in_map_iff. now exists y.
  - rewrite length_map.
    pose proof (filter_length_le p categories) as H. exact H.
Qed.

End Analysis.

(* ================================================================= *)
(** ** The conversation memory *)

Section Memory.

Import ChatbotService.

Lemma arrayIncludes_In (l : list string) (x : string) :
  arrayIncludes l x = true <-> In x l.
Proof.
  unfold arrayIncludes. rewrite existsb_exists. split.
  - intros (y & Hy & E). apply String.eqb_eq in E. now subst.
  - intro H. exists x. split; [exact H|apply String.eqb_refl].
Qed.

(** Appending once: the list grows by the new string or stays. *)
Lemma append_once (l : list string) (x : string) :
  NoDup l ->
  let l' := if arrayIncludes l x then l else JsArray.push l x in
  NoDup l' /\ In x l' /\ exists added, l' = (l ++ added)%list
                                       /\ incl added [x].
Proof.
  intro H. cbv zeta. destruct (arrayIncludes l x) eqn:E.
  - apply arrayIncludes_In in E. split; [exact H|]. split; [exact E|].
    exists []. rewrite app_nil_r. split; [reflexivity|]. intros y [].
  - unfold JsArray.push. split; [|split].
    + apply NoDup_app; [exact H|repeat constructor; intros []|].
      intros y Hy [<-|[]]. apply arrayIncludes_In in Hy. congruence.
    + apply in_or_app. right. now left.
    + exists [x]. split; [reflexivity|apply incl_refl].
Qed.

Lemma interests_grow (cats : list string) (memory : ConversationMemory) :
  NoDup (userInterests memory) ->
  NoDup (preferredCategories memory) ->
  let memory' :=
    fold_left (fun m category => updateUserInterests category m)
              cats memory in
  NoDup (userInterests memory')
  /\ NoDup (preferredCategories memory')
  /\ (exists added, userInterests memory'
                    = (userInterests memory ++ added)%list
                    /\ incl added cats)
  /\ (exists added, preferredCategories memory'
                    = (preferredCategories memory ++ added)%list
                    /\ incl added cats)
  /\ incl cats (userInterests memory')
  /\ incl cats (preferredCategories memory')
  /\ priceRange memory' = priceRange memory.
Proof.
  revert memory. induction cats as [|c cats IH]; intros memory Hu Hp.
  - cbv zeta. simpl. repeat split; auto.
    + exists []. rewrite app_nil_r. split; [reflexivity|apply incl_refl].
    + exists []. rewrite app_nil_r. split; [reflexivity|apply incl_refl].
    + intros x [].
    + intros x [].
  - cbv zeta. simpl fold_left.
    destruct (append_once (userInterests memory) c Hu)
      as (Hu1 & Hin1 & a1 & Ha1 & Hi1).
    destruct (append_once (preferredCategories memory) c Hp)
      as (Hp1 & Hin2 & a2 & Ha2 & Hi2).
    destruct (IH (updateUserInterests c memory) Hu1 Hp1)
      as (Hu2 & Hp2 & (b1 & Hb1 & Hj1) & (b2 & Hb2 & Hj2) & Hc1 & Hc2 & Hr).
    cbv zeta in *.
    split; [exact Hu2|]. split; [exact Hp2|].
    cbn [updateUserInterests userInterests preferredCategories] in Hb1, Hb2.
    split; [|split; [|split; [|split]]].
    + exists (a1 ++ b1)%list. rewrite Hb1, Ha1, app_assoc.
      split; [reflexivity|].
      apply incl_app; [|now apply incl_tl].
      intros x Hx. left. destruct (Hi1 x Hx) as [<-|[]]. reflexivity.
    + exists (a2 ++ b2)%list. rewrite Hb2, Ha2, app_assoc.
      split; [reflexivity|].
      apply incl_app; [|now apply incl_tl].
      intros x Hx. left. destruct (Hi2 x Hx) as [<-|[]]. reflexivity.
    + intros x [<-|Hx]; [|now apply Hc1].
      rewrite Hb1. apply in_or_app. left. exact Hin1.
    + intros x [<-|Hx]; [|now apply Hc2].
      rewrite Hb2. apply in_or_app. left. exact Hin2.
    + exact Hr.
Qed.

Lemma lower_keeps_digits (c : ascii) :
  JsString.isDigit (JsString.lower_ascii c) = JsString.isDigit c.
Proof.
  destruct c as [[] [] [] [] [] [] [] []]; reflexivity.
Qed.

Lemma toLowerCase_digits (s : string) :
  hasDigit (JsString.toLowerCase s) = hasDigit s.
Proof.
  induction s as [|c s IH]; simpl; [reflexivity|].
  now rewrite lower_keeps_digits, IH.
Qed.

Lemma stripPrefix_digits (prefix s rest : string) :
  JsString.stripPrefix prefix s = Some rest ->
  hasDigit rest = true -> hasDigit s = true.
Proof.
  revert s. induction prefix as [|a prefix IH]; intros s H Hd; simpl in H.
  - injection H as <-. exact Hd.
  - destruct s as [|b s]; [discriminate|].
    destruct (Ascii.eqb a b); [|discriminate].
    simpl. rewrite (IH s H Hd). apply orb_true_r.
Qed.

Lemma leadingDigits_digits (s : string) :
  JsString.truthy (JsString.leadingDigits s) = true -> hasDigit s = true.
Proof.
  destruct s as [|c s]; simpl; [discriminate|].
  destruct (JsString.isDigit c); [reflexivity|discriminate].
Qed.

Lemma priceAfter_digits (keyword s digits : string) :
  priceAfter keyword s = Some digits -> hasDigit s = true.
Proof.
  unfold priceAfter.
  destruct (JsString.stripPrefix keyword s) as [rest|] eqn:E;
    [|discriminate].
  destruct (JsString.truthy _) eqn:Et; [|discriminate].
  intros _. apply (stripPrefix_digits _ _ _ E).
  apply leadingDigits_digits in Et.
  destruct rest as [|c rest]; [exact Et|].
  destruct (Ascii.eqb_spec c "$"%char) as [->|Hne].
  - simpl. exact Et.
  - replace (match String c rest with
             | String "$"%char rest' => rest'
             | _ => String c rest
             end) with (String c rest) in Et; [exact Et|].
    destruct c as [[] [] [] [] [] [] [] []]; try reflexivity.
    congruence.
Qed.

Lemma priceMatch_digits (s digits : string) :
  priceMatch s = Some digits -> hasDigit s = true.
Proof.
  induction s as [|c s IH]; simpl.
  - unfold priceAt. simpl. discriminate.
  - destruct (priceAt (String c s)) as [d|] eqn:E.
    + intros _. unfold priceAt in E.
      destruct (priceAfter "under " (String c s)) eqn:E1;
        [now apply priceAfter_digits in E1|].
      destruct (priceAfter "less than " (String c s)) eqn:E2;
        [now apply priceAfter_digits in E2|].
      destruct (priceAfter "maximum " (String c s)) eqn:E3;
        [now apply priceAfter_digits in E3|].
      now apply priceAfter_digits in E.
    + intro H. rewrite (IH H). apply orb_true_r.
Qed.

Lemma entities_detected (message : string) (context : list string) :
  entities (analyzeIntent message context)
  = detectCategories (JsString.toLowerCase message).
Proof. reflexivity. Qed.

(** The two ways [remember] ends. *)
Lemma remember_cases (message : string) (memory : ConversationMemory) :
  let grown :=
    fold_left (fun m category => updateUserInterests category m)
              (detectCategories (JsString.toLowerCase message)) memory in
  (priceMatch (JsString.toLowerCase message) = None
   /\ remember message memory = grown)
  \/ (exists digits,
        priceMatch (JsString.toLowerCase message) = Some digits
        /\ remember message memory
           = {| userInterests := userInterests grown;
                preferredCategories := preferredCategories grown;
                priceRange :=
                  Some {| min := 0;
                          max := inject_Z
                                   (Z.of_N (JsString.digitsValue 0 digits))
                       |};
                previousPurchases := previousPurchases grown;
                sessionStartTime := sessionStartTime grown |}).
Proof.
  cbv zeta. unfold remember.
  destruct (priceMatch (JsString.toLowerCase message)) as [digits|].
  - right. exists digits. split; reflexivity.
  - left. split; reflexivity.
Qed.

(** The memory after [remember], from the memory [grown] the detected
    categories leave. *)
Lemma price_written (message : string) (before grown after : ConversationMemory)
    (found : list string) :
  NoDup (userInterests grown) ->
  NoDup (preferredCategories grown) ->
  (exists added, userInterests grown
                 = (userInterests before ++ added)%list
                 /\ incl added found) ->
  (exists added, preferredCategories grown
                 = (preferredCategories before ++ added)%list
                 /\ incl added found) ->
  incl found (userInterests grown) ->
  incl found (preferredCategories grown) ->
  priceRange grown = priceRange before ->
  (priceMatch (JsString.toLowerCase message) = None /\ after = grown)
  \/ (exists digits,
        priceMatch (JsString.toLowerCase message) = Some digits
        /\ after
           = {| userInterests := userInterests grown;
                preferredCategories := preferredCategories grown;
                priceRange :=
                  Some {| min := 0;
                          max := inject_Z
                                   (Z.of_N (JsString.digitsValue 0 digits))
                       |};
                previousPurchases := previousPurchases grown;
                sessionStartTime := sessionStartTime grown |}) ->
  NoDup (userInterests after)
  /\ NoDup (preferredCategories after)
  /\ (exists added, userInterests after
                    = (userInterests before ++ added)%list
                    /\ incl added found)
  /\ (exists added, preferredCategories after
                    = (preferredCategories before ++ added)%list
                    /\ incl added found)
  /\ incl found (userInterests after)
  /\ incl found (preferredCategories after)
  /\ (priceRange after = priceRange before
      \/ exists n : N,
           priceRange after
           = Some {| min := 0; max := inject_Z (Z.of_N n) |})
  /\ (hasDigit message = false ->
      priceRange after = priceRange before).
Proof.
  intros H1 H2 H3 H4 H5 H6 H7 [[E ->]|(digits & E & ->)].
  - split; [exact H1|]. split; [exact H2|]. split; [exact H3|].
    split; [exact H4|]. split; [exact H5|]. split; [exact H6|]. split.
    + left. exact H7.
    + intros _. exact H7.
  - cbn [userInterests preferredCategories priceRange].
    split; [exact H1|]. split; [exact H2|]. split; [exact H3|].
    split; [exact H4|]. split; [exact H5|]. split; [exact H6|]. split.
    + right. eexists. reflexivity.
    + intro Hd. apply priceMatch_digits in E.
      rewrite toLowerCase_digits in E. congruence.
Qed.

(** X23.  What an utterance writes to the memory: the two interest lists
    ([userInterests] and [preferredCategories]) stay free of repetitions
    and only grow at the end, by categories detected in the utterance, all
    of which both lists then contain; the price range is left
    as it was or becomes a range from 0 to a whole number, and an utterance
    without a digit never changes it. *)
Theorem remember_keeps_the_memory_tidy (message : string)
    (memory : ConversationMemory) :
  NoDup (userInterests memory) ->
  NoDup (preferredCategories memory) ->
  let memory' := remember message memory in
  let found := entities (analyzeIntent message []) in
  NoDup (userInterests memory')
  /\ NoDup (preferredCategories memory')
  /\ (exists added, userInterests memory'
                    = (userInterests memory ++ added)%list
                    /\ incl added found)
  /\ (exists added, preferredCategories memory'
                    = (preferredCategories memory ++ added)%list
                    /\ incl added found)
  /\ incl found (userInterests memory')
  /\ incl found (preferredCategories memory')
  /\ (priceRange memory' = priceRange memory
      \/ exists n : N,
           priceRange memory'
           = Some {| min := 0; max := inject_Z (Z.of_N n) |})
  /\ (hasDigit message = false ->
      priceRange memory' = priceRange memory).
Proof.
  intros Hu Hp.
  destruct (interests_grow (detectCategories (JsString.toLowerCase message))
              memory Hu Hp)
    as (H1 & H2 & H3 & H4 & H5 & H6 & H7).
  exact (price_written message memory _ (remember message memory)
           (entities (analyzeIntent message []))
           H1 H2 H3 H4 H5 H6 H7 (remember_cases message memory)).
Qed.

End Memory.

(* ================================================================= *)
(** ** Selecting products *)

Section Selection.

Context {A : Type} (key : A -> Q) (cmp : A -> A -> Q) (keep : A -> bool).
Hypothesis cmp_key : forall a b, cmp a b == key b - key a.

Lemma firstn_In (k : nat) (l : list A) (x : A) :
  In x (firstn k l) -> In x l.
Proof.
  intro H. rewrite <- (firstn_skipn k l). apply in_or_app. now left.
Qed.

Lemma sorted_app_cross (R : A -> A -> Prop) (l1 l2 : list A) :
  StronglySorted R (l1 ++ l2) ->
  forall x y, In x l1 -> In y l2 -> R x y.
Proof.
  induction l1 as [|a l1 IH]; simpl; intros H x y Hx Hy; [destruct Hx|].
  inversion H as [|? ? Hs Ha]; subst.
  destruct Hx as [<-|Hx].
  - rewrite Forall_forall in Ha. apply Ha. apply in_or_app. now right.
  - now apply IH.
Qed.

Lemma sorted_firstn (R : A -> A -> Prop) (k : nat) (l : list A) :
  StronglySorted R l -> StronglySorted R (firstn k l).
Proof.
  revert k. induction l as [|a l IH]; intros [|k] H; simpl;
    try constructor.
  - inversion H; subst. now apply IH.
  - inversion H as [|? ? Hs Ha]; subst.
    rewrite Forall_forall in *. intros x Hx. apply Ha.
    eapply firstn_In; eauto.
Qed.

(** The first [limit] of the kept elements, sorted by decreasing key. *)
Lemma selection (catalog : list A) (limit : nat) :
  let chosen :=
    JsArray.slice0 limit (JsArray.sort cmp (filter keep catalog)) in
  Forall (fun x => keep x = true /\ In x catalog) chosen
  /\ descendingBy key chosen
  /\ List.length chosen
     = Nat.min limit (List.length (filter keep catalog))
  /\ (forall x, In x catalog -> keep x = true ->
                In x chosen \/ forall y, In y chosen -> key x <= key y).
Proof.
  cbv zeta. unfold JsArray.slice0.
  pose proof (sort_perm cmp (filter keep catalog)) as Hperm.
  pose proof (sort_descending key cmp cmp_key (filter keep catalog))
    as Hsorted.
  set (sorted := JsArray.sort cmp (filter keep catalog)) in *.
  split; [|split; [|split]].
  - apply Forall_forall. intros x Hx. apply firstn_In in Hx.
    apply (Permutation_in _ Hperm) in Hx. apply filter_In in Hx. tauto.
  - now apply sorted_firstn.
  - rewrite length_firstn, (Permutation_length Hperm). reflexivity.
  - intros x Hx Hk.
    assert (Hin : In x sorted).
    { apply (Permutation_in _ (Permutation_sym Hperm)).
      apply filter_In. now split. }
    rewrite <- (firstn_skipn limit sorted) in Hin, Hsorted.
    apply in_app_or in Hin. destruct Hin as [Hin|Hin]; [now left|].
    right. intros y Hy.
    apply (sorted_app_cross _ _ _ Hsorted y x Hy Hin).
Qed.

End Selection.

Section Products.

Import ChatbotService.

Variable mockProducts : list Product.t.

Lemma sorted_impl {A : Type} (R S : A -> A -> Prop) (l : list A) :
  (forall a b, R a b -> S a b) -> StronglySorted R l -> StronglySorted S l.
Proof.
  intros HRS H. induction H as [|a l Hs IH Ha]; constructor.
  - exact IH.
  - eapply Forall_impl; [|exact Ha]. intros b. apply HRS.
Qed.

Lemma sorted_map {A B : Type} (f : A -> B) (R : B -> B -> Prop)
    (l : list A) :
  StronglySorted (fun a b => R (f a) (f b)) l ->
  StronglySorted R (map f l).
Proof.
  intro H. induction H as [|a l Hs IH Ha]; simpl; constructor.
  - exact IH.
  - apply Forall_map. exact Ha.
Qed.

(** X24.  [getBudgetProducts] returns cards of catalog products priced at
    most [maxPrice], in ascending order of price, as many as the limit
    allows; they are the cheapest: every catalog product within the budget
    is among them or costs at least as much as each of them. *)
Theorem getBudgetProducts_are_the_cheapest (limit : nat) (maxPrice : Q) :
  let result := getBudgetProducts mockProducts limit maxPrice in
  Forall (fun card => ProductCard.price card <= maxPrice) result
  /\ ascendingBy ProductCard.price result
  /\ incl result (map toCard mockProducts)
  /\ List.length result
     = Nat.min limit
         (List.length
            (filter (fun p => Product.price p <=? maxPrice) mockProducts))
  /\ (forall p, In p mockProducts -> Product.price p <= maxPrice ->
                In (toCard p) result
                \/ forall card, In card result ->
                                ProductCard.price card <= Product.price p).
Proof.
  cbv zeta. unfold getBudgetProducts.
  assert (Hcmp : forall a b : Product.t,
             Product.price a - Product.price b
             == - Product.price b - - Product.price a)
    by (intros a b; ring).
  destruct (selection (fun p => - Product.price p)
              (fun a b => Product.price a - Product.price b)
              (fun p => Product.price p <=? maxPrice)
              Hcmp mockProducts limit)
    as (Hkeep & Hsorted & Hlen & Htop).
  set (chosen := JsArray.slice0 limit _) in *.
  split; [|split; [|split; [|split]]].
  - apply Forall_map. eapply Forall_impl; [|exact Hkeep].
    intros p [Hp _]. apply leb_le in Hp. exact Hp.
  - apply sorted_map. unfold descendingBy in Hsorted.
    eapply sorted_impl; [|exact Hsorted].
    intros a b Hab. simpl in *. lra.
  - intros card Hc. apply in_map_iff in Hc. destruct Hc as (p & <- & Hp).
    rewrite Forall_forall in Hkeep. apply in_map. now apply Hkeep.
  - now rewrite length_map.
  - intros p Hp Hprice.
    destruct (Htop p Hp) as [Hin|Hle]; [now apply leb_le| |].
    + left. now apply in_map.
    + right. intros card Hc. apply in_map_iff in Hc.
      destruct Hc as (q & <- & Hq). specialize (Hle q Hq). simpl. lra.
Qed.

(** X25.  [getDealsProducts] returns cards of catalog products that carry
    a deal, by decreasing discount, as many as the limit allows; they are
    the best deals: every catalog product with a deal is among them or has
    a discount no larger than each of theirs. *)
Theorem getDealsProducts_are_the_best_deals (limit : nat) :
  let result := getDealsProducts mockProducts limit in
  Forall (fun card => ProductCard.deal card <> None) result
  /\ descendingBy cardDiscount result
  /\ incl result (map toCard mockProducts)
  /\ (List.length result <= limit)%nat
  /\ (forall p, In p mockProducts -> Product.deal p <> None ->
                In (toCard p) result
                \/ forall card, In card result ->
                                discountOr0 p <= cardDiscount card).
Proof.
  cbv zeta. unfold getDealsProducts.
  assert (Hcmp : forall a b : Product.t,
             discountOr0 b - discountOr0 a == discountOr0 b - discountOr0 a)
    by (intros a b; reflexivity).
  destruct (selection discountOr0
              (fun a b => discountOr0 b - discountOr0 a)
              (fun p => match Product.deal p with
                        | Some _ => true
                        | None => false
                        end)
              Hcmp mockProducts limit)
    as (Hkeep & Hsorted & Hlen & Htop).
  set (chosen := JsArray.slice0 limit _) in *.
  split; [|split; [|split; [|split]]].
  - apply Forall_map. eapply Forall_impl; [|exact Hkeep].
    intros p [Hp _]. simpl. destruct (Product.deal p); congruence.
  - apply sorted_map. exact Hsorted.
  - intros card Hc. apply in_map_iff in Hc. destruct Hc as (p & <- & Hp).
    rewrite Forall_forall in Hkeep. apply in_map. now apply Hkeep.
  - rewrite length_map, Hlen. apply Nat.le_min_l.
  - intros p Hp Hdeal.
    destruct (Htop p Hp) as [Hin|Hle].
    + destruct (Product.deal p); congruence.
    + left. now apply in_map.
    + right. intros card Hc. apply in_map_iff in Hc.
      destruct Hc as (q & <- & Hq). exact (Hle q Hq).
Qed.

Lemma filter_twice {A : Type} (p q : A -> bool) (l : list A) :
  filter q (filter p l) = filter (fun x => p x && q x) l.
Proof.
  induction l as [|x l IH]; simpl; [reflexivity|].
  destruct (p x); simpl; [|exact IH].
  destruct (q x); now rewrite IH.
Qed.

(** The products [getPersonalizedProducts] chooses from. *)
Lemma personalized_filter (category : string)
    (priceRange : option PriceRange) :
  exists keep : Product.t -> bool,
    (forall limit,
       getPersonalizedProducts mockProducts category limit priceRange
       = map toCard
           (JsArray.slice0 limit
              (JsArray.sort (fun a b => hasDeal b - hasDeal a)
                 (filter keep mockProducts))))
    /\ forall p, keep p = true <->
                 Product.category p = category
                 /\ match priceRange with
                    | Some range => min range <= Product.price p <= max range
                    | None => True
                    end.
Proof.
  destruct priceRange as [range|].
  - exists (fun p => String.eqb (Product.category p) category
                     && ((Product.price p >=? min range)
                         && (Product.price p <=? max range))).
    split.
    + intro limit. unfold getPersonalizedProducts.
      rewrite filter_twice. reflexivity.
    + intro p. rewrite !andb_true_iff, String.eqb_eq.
      unfold JsNum.geb. rewrite !leb_le. tauto.
  - exists (fun p => String.eqb (Product.category p) category).
    split; [reflexivity|].
    intro p. rewrite String.eqb_eq. tauto.
Qed.

(** X26.  [getPersonalizedProducts] returns at most [limit] cards, all of
    catalog products of the category asked for and, when a price range is
    given, priced within it; cards with a deal come before cards without;
    and when some qualifying product carries a deal and is left out,
    every card returned carries one. *)
Theorem getPersonalizedProducts_puts_deals_first (category : string)
    (limit : nat) (priceRange : option PriceRange) :
  let result :=
    getPersonalizedProducts mockProducts category limit priceRange in
  let qualifies p :=
    Product.category p = category
    /\ match priceRange with
       | Some range => min range <= Product.price p <= max range
       | None => True
       end in
  (List.length result <= limit)%nat
  /\ (forall card, In card result ->
        exists p, In p mockProducts /\ qualifies p /\ card = toCard p)
  /\ StronglySorted
       (fun a b => ProductCard.deal a = None -> ProductCard.deal b = None)
       result
  /\ (forall p, In p mockProducts -> qualifies p ->
                Product.deal p <> None ->
                In (toCard p) result
                \/ Forall (fun card => ProductCard.deal card <> None)
                          result).
Proof.
  cbv zeta.
  destruct (personalized_filter category priceRange) as (keep & Heq & Hkeep).
  rewrite Heq.
  assert (Hcmp : forall a b : Product.t,
             hasDeal b - hasDeal a == hasDeal b - hasDeal a)
    by (intros a b; reflexivity).
  destruct (selection hasDeal (fun a b => hasDeal b - hasDeal a) keep
              Hcmp mockProducts limit)
    as (Hk & Hsorted & Hlen & Htop).
  set (chosen := JsArray.slice0 limit _) in *.
  split; [|split; [|split]].
  - rewrite length_map, Hlen. apply Nat.le_min_l.
  - intros card Hc. apply in_map_iff in Hc. destruct Hc as (p & <- & Hp).
    rewrite Forall_forall in Hk. destruct (Hk p Hp) as [Hkp Hin].
    exists p. split; [exact Hin|]. split; [now apply Hkeep|reflexivity].
  - apply sorted_map. eapply sorted_impl; [|exact Hsorted].
    intros a b Hab. unfold hasDeal in Hab. simpl.
    destruct (Product.deal a), (Product.deal b); try congruence.
    exfalso. lra.
  - intros p Hp Hq Hdeal.
    destruct (Htop p Hp) as [Hin|Hle]; [now apply Hkeep| |].
    + left. now apply in_map.
    + right. apply Forall_map. apply Forall_forall. intros q Hqin.
      specialize (Hle q Hqin). unfold hasDeal in Hle. simpl.
      destruct (Product.deal p); [|congruence].
      destruct (Product.deal q); [discriminate|]. exfalso. lra.
Qed.

Lemma fold_pushes (f g : string -> string) (l base : list string) :
  fold_left (fun acc x => JsArray.push (JsArray.push acc (f x)) (g x))
            l base
  = (base ++ flat_map (fun x => [f x; g x]) l)%list.
Proof.
  revert base. induction l as [|x l IH]; intro base; simpl.
  - now rewrite app_nil_r.
  - rewrite IH. unfold JsArray.push. now rewrite <- !app_assoc.
Qed.

Lemma suggestionsFor_length (intent : string) :
  List.length (suggestionsFor intent) = 4%nat.
Proof.
  unfold suggestionsFor.
  destruct (find _ baseSuggestions) as [entry|] eqn:E; [|reflexivity].
  apply find_some in E. destruct E as [E _].
  assert (H : Forall (fun e : string * list string =>
                        List.length (snd e) = 4%nat) baseSuggestions)
    by (repeat constructor).
  rewrite Forall_forall in H. now apply H.
Qed.

Lemma first_four (base extra : list string) :
  List.length base = 4%nat -> firstn 4 (base ++ extra) = base.
Proof.
  intro H. rewrite firstn_app, H. simpl firstn at 2.
  rewrite app_nil_r. rewrite <- H. apply firstn_all.
Qed.

Lemma generateContextualSuggestions_base (memory : ConversationMemory)
    (intent : string) (found : list string) :
  generateContextualSuggestions memory intent found = suggestionsFor intent.
Proof.
  unfold generateContextualSuggestions, JsArray.slice0.
  pose proof (suggestionsFor_length intent) as H4.
  set (base := suggestionsFor intent) in *.
  assert (H : exists extra,
            (if (0 <? List.length found)%nat
             then fold_left
                    (fun suggestions entity =>
                       JsArray.push
                         (JsArray.push suggestions
                            ("More " ++ entity ++ " items")%string)
                         (entity ++ " deals")%string)
                    found base
             else base) = (base ++ extra)%list).
  { destruct (0 <? List.length found)%nat.
    - eexists. apply (fold_pushes
                        (fun entity => ("More " ++ entity ++ " items")%string)
                        (fun entity => (entity ++ " deals")%string)).
    - exists []. now rewrite app_nil_r. }
  destruct H as (extra & ->).
  destruct (0 <? List.length (preferredCategories memory))%nat;
    [destruct (preferredCategories memory)|];
    unfold JsArray.push; rewrite <- ?app_assoc; now apply first_four.
Qed.

(** X27.  The suggestions [generateContextualSuggestions] returns are
    always the four fixed suggestions of the intent (those of a greeting
    for an intent without its own): the suggestions added for the entities
    and for the preferred category fall beyond the fourth place and are
    never returned. *)
Theorem suggestions_are_always_the_base_four (memory : ConversationMemory)
    (intent : string) (found : list string) :
  generateContextualSuggestions memory intent found = suggestionsFor intent
  /\ List.length (generateContextualSuggestions memory intent found)
     = 4%nat
  /\ generateContextualSuggestions memory intent found
     = generateContextualSuggestions
         {| userInterests := []; preferredCategories := [];
            priceRange := None; previousPurchases := [];
            sessionStartTime := 0 |}
         intent [].
Proof.
  rewrite !generateContextualSuggestions_base.
  split; [reflexivity|]. split; [apply suggestionsFor_length|reflexivity].
Qed.

Lemma sliced_cards_length {A : Type} (limit : nat) (l : list A)
    (f : A -> ProductCard.t) :
  (List.length (map f (JsArray.slice0 limit l)) <= limit)%nat.
Proof. rewrite length_map. apply firstn_le_length. Qed.

Lemma respond_sizes (rt : Runtime) (hour : nat)
    (memory : ConversationMemory) (analysis : Analysis)
    (context : list string) :
  let response := respond rt hour mockProducts memory analysis context in
  (forall cards, products response = Some cards ->
                 (List.length cards <= 4)%nat)
  /\ exists offered,
       suggestions response = Some offered
       /\ (4 <= List.length offered <= 5)%nat.
Proof.
  cbv zeta. unfold respond.
  repeat match goal with
         | |- context [if String.eqb ?a ?b then _ else _] =>
             destruct (String.eqb a b)
         end;
    try destruct (entities analysis) as [|category rest];
    try destruct (0 <? List.length context)%nat;
    cbn [products suggestions];
    (split;
     [ intros cards H; try discriminate; injection H as <-;
       first [ apply sliced_cards_length
             | apply firstn_le_length ]
     | eexists; split; [reflexivity|];
       rewrite ?generateContextualSuggestions_base, ?suggestionsFor_length;
       simpl; lia ]).
Qed.

Lemma lastN_push (n : nat) (l : list string) (x : string) :
  JsArray.lastN (S n) (JsArray.push l x)
  = (JsArray.lastN n l ++ [x])%list.
Proof.
  unfold JsArray.lastN, JsArray.push. rewrite length_app. simpl.
  replace (List.length l + 1 - S n)%nat with (List.length l - n)%nat by lia.
  rewrite skipn_app.
  replace (List.length l - n - List.length l)%nat with 0%nat by lia.
  reflexivity.
Qed.

(** X28.  [generateResponse] appends the utterance to the history, counts
    one more message and keeps what [analyzeIntent] wrote to the memory;
    its response offers between 4 and 5 suggestions and, when it shows
    products, at most 4 of them.  The context read back afterwards is the
    last messages of the history, at most 5, the utterance being the
    last. *)
Theorem generateResponse_effects (rt : Runtime) (hour : nat)
    (userMessage : string) (context : list string) (this : State) :
  let result :=
    generateResponse rt hour mockProducts userMessage context this in
  conversationHistory (fst result)
  = (conversationHistory this ++ [userMessage])%list
  /\ totalMessages (userEngagement (fst result))
     = S (totalMessages (userEngagement this))
  /\ conversationMemory (fst result)
     = remember userMessage (conversationMemory this)
  /\ (forall cards, products (snd result) = Some cards ->
                    (List.length cards <= 4)%nat)
  /\ (exists offered,
        suggestions (snd result) = Some offered
        /\ (4 <= List.length offered <= 5)%nat)
  /\ getConversationContext (fst result)
     = (JsArray.lastN 4 (conversationHistory this) ++ [userMessage])%list
  /\ (List.length (getConversationContext (fst result)) <= 5)%nat.
Proof.
  cbv zeta. unfold generateResponse. cbn [fst snd].
  cbn [conversationHistory userEngagement totalMessages conversationMemory].
  split; [reflexivity|]. split; [reflexivity|]. split; [reflexivity|].
  pose proof (respond_sizes rt hour
                (remember userMessage (conversationMemory this))
                (analyzeIntent userMessage context) context) as [Hp Hs].
  split; [exact Hp|]. split; [exact Hs|].
  unfold getConversationContext. cbn [conversationHistory].
  rewrite lastN_push. split; [reflexivity|].
  rewrite length_app. unfold JsArray.lastN. rewrite length_skipn.
  simpl. lia.
Qed.

End Products.

(* ================================================================= *)
(** ** The further properties at the fixtures *)

Section FurtherAtTheFixtures.

Import DiscountRecommendationService.
Local Open Scope string_scope.

Lemma fixture_random_is_fair : fairRandom Fixture.rt.
Proof. intro n. simpl. split; [discriminate|reflexivity]. Defined.

Lemma fixture_milk_is_accepted :
  Forall (rowAccepted Fixture.parse) [Fixture.milk].
Proof.
  exact (proj1 (validateData_valid Fixture.parse [Fixture.milk]) eq_refl).
Defined.



(** Approved, then rejected: the last call naming the id decides. *)
Lemma status_only_moves_to_decided_witness :
  nth_error (recommendations Fixture.service) 0 = Some Fixture.rec1
  /\ resolvedAt (recommendations Fixture.service) 0 Fixture.rec1
  /\ exists r',
       nth_error
         (recommendations
            (session Fixture.rt
               [Approve "rec_1" None None; Reject "rec_2" None;
                Reject "rec_1" None]
               Fixture.service)) 0
       = Some r'
       /\ DiscountRecommendation.id r' = "rec_1"
       /\ DiscountRecommendation.status r' = Status.rejected.
Proof.
  split; [reflexivity|]. split; [reflexivity|].
  destruct (status_only_moves_to_decided Fixture.rt
              [Approve "rec_1" None None; Reject "rec_2" None;
               Reject "rec_1" None]
              Fixture.service 0 Fixture.rec1 eq_refl)
    as (r' & Hnth & Hid & _ & _ & _ & _ & Hlast & _).
  exists r'. split; [exact Hnth|]. split; [exact Hid|].
  exact (proj1 (Hlast eq_refl)).
Defined.

Lemma adjustedWasteRate_between_witness :
  wasteRate Fixture.pattern
  <= adjustedWasteRate 60 30 Fixture.pattern Fixture.conditions
  <= wasteRate Fixture.pattern * 3.432.
Proof.
  apply (adjustedWasteRate_between 60 30 Fixture.pattern Fixture.conditions).
  simpl. discriminate.
Defined.

Lemma prediction_is_bounded_witness :
  0 <= p_wastePercentage
         (calculatePredictedWaste (inject_Z 60) 30 Fixture.pattern
            Fixture.conditions) <= 100
  /\ 50 <= p_confidence
             (calculatePredictedWaste (inject_Z 60) 30 Fixture.pattern
                Fixture.conditions) <= 95
  /\ 0 <= p_wasteAmount
            (calculatePredictedWaste (inject_Z 60) 30 Fixture.pattern
               Fixture.conditions) <= inject_Z 60.
Proof.
  apply (prediction_is_bounded 60 30 Fixture.pattern Fixture.conditions).
  lia.
Defined.

Lemma calculateOptimalDiscount_monotone_witness :
  calculateOptimalDiscount 20 30 Fixture.pattern
  <= calculateOptimalDiscount 45 6 Fixture.pattern.
Proof.
  apply (calculateOptimalDiscount_monotone 20 45 6 30 Fixture.pattern);
    discriminate.
Defined.

Lemma getRiskLevel_monotone_witness :
  (riskRank (getRiskLevel 20) <= riskRank (getRiskLevel 45))%nat.
Proof. apply (getRiskLevel_monotone 20 45). discriminate. Defined.

Lemma getRecommendationStats_consistent_witness :
  approvalRate
    (getRecommendationStats (clearRecommendations Fixture.service)) = 0.
Proof.
  apply (proj2 (proj2 (proj2 (getRecommendationStats_consistent
                                (clearRecommendations Fixture.service))))).
  reflexivity.
Defined.

Lemma generated_batch_is_well_formed_witness :
  exists batch,
    snd (generateRecommendationsFromTrainingData Fixture.rt Fixture.service)
    = Returned batch
    /\ Forall wellFormed batch.
Proof.
  apply (generated_batch_is_well_formed Fixture.rt Fixture.service).
  - exact fixture_random_is_fair.
  - simpl. discriminate.
  - simpl. discriminate.
Defined.

Lemma generated_batch_is_ranked_witness :
  exists batch,
    snd (generateRecommendationsFromTrainingData Fixture.rt Fixture.service)
    = Returned batch
    /\ descendingBy urgencyOf batch.
Proof.
  apply (generated_batch_is_ranked Fixture.rt Fixture.service);
    simpl; discriminate.
Defined.

Lemma generated_batch_has_one_per_product_witness :
  exists batch,
    snd (generateRecommendationsFromTrainingData Fixture.rt Fixture.service)
    = Returned batch
    /\ NoDup (map DiscountRecommendation.productName batch)
    /\ incl (map DiscountRecommendation.productName batch)
            (map UserTrainingData.productName
               (userTrainingData Fixture.service))
    /\ (List.length batch
        <= List.length (userTrainingData Fixture.service))%nat.
Proof.
  apply (generated_batch_has_one_per_product Fixture.rt Fixture.service);
    simpl; discriminate.
Defined.

Lemma pending_after_generation_witness :
  snd (generateRecommendationsFromTrainingData Fixture.rt Fixture.service)
  = Returned
      (getPendingRecommendations
         (fst (generateRecommendationsFromTrainingData Fixture.rt
                 Fixture.service))).
Proof.
  apply (pending_after_generation_is_the_batch Fixture.rt Fixture.service);
    simpl; discriminate.
Defined.

Lemma decision_leaves_the_pending_queue_witness :
  getPendingRecommendations
    (perform Fixture.rt Fixture.service (Approve "rec_1" None None))
  = filter (fun r => negb (hasId "rec_1" r))
      (getPendingRecommendations Fixture.service).
Proof.
  apply (proj1 (decision_leaves_the_pending_queue Fixture.rt
                  Fixture.service (Approve "rec_1" None None)
                  ltac:(simpl; repeat constructor; simpl;
                        intuition discriminate))).
Defined.

Lemma override_is_not_range_checked_witness :
  exists r',
    find (hasId "rec_1")
      (recommendations
         (approveRecommendation Fixture.rt "rec_1" (Some 140) None
            Fixture.service))
    = Some r'
    /\ DiscountRecommendation.discountedPrice r' < 0.
Proof.
  destruct (override_is_not_range_checked Fixture.rt Fixture.service
              Fixture.rec1 140 None eq_refl ltac:(discriminate))
    as (r' & Hfound & _ & _ & _ & _ & Hneg).
  exists r'. split; [exact Hfound|]. apply Hneg; reflexivity.
Defined.

Lemma validateData_accepts_row_by_row_witness :
  Forall (rowAccepted Fixture.parse) [Fixture.milk]
  /\ ~ Forall (rowAccepted Fixture.parse) [Fixture.milk; Fixture.spoiled].
Proof.
  split.
  - exact (proj1 (proj1 (validateData_accepts_row_by_row Fixture.parse
                           [Fixture.milk] [])) eq_refl).
  - intro H.
    apply (proj2 (proj1 (validateData_accepts_row_by_row Fixture.parse
                           [Fixture.milk; Fixture.spoiled] []))) in H.
    vm_compute in H. discriminate.
Defined.

Lemma upload_is_all_or_nothing_witness :
  UserTrainingService.trainingData
    (handleDataUpload Fixture.parse [Fixture.milk] Fixture.store)
  = [Fixture.milk; Fixture.milk]
  /\ handleDataUpload Fixture.parse [Fixture.milk; Fixture.spoiled]
       Fixture.store
     = Fixture.store.
Proof.
  split.
  - exact (proj1 (upload_is_all_or_nothing Fixture.parse [Fixture.milk] []
                    Fixture.store) fixture_milk_is_accepted).
  - apply (proj1 (proj2 (upload_is_all_or_nothing Fixture.parse
                           [Fixture.milk; Fixture.spoiled] []
                           Fixture.store))).
    intro H. apply validateData_valid in H. vm_compute in H. discriminate.
Defined.

Lemma validated_waste_rate_witness :
  0 <= UserTrainingService.calculateWasteRate [Fixture.milk]
         (Some "milk") None <= 100.
Proof.
  exact (proj1 (validated_waste_rate_is_a_percentage Fixture.parse
                  Fixture.rt [Fixture.milk] eq_refl)
           (Some "milk") None).
Defined.

Lemma training_accuracy_is_bounded_witness :
  65 <= TrainingSession.modelAccuracy
          (UserTrainingService.trainingCompleted Fixture.rt Fixture.store
             Fixture.session1) <= 95.
Proof.
  apply (training_accuracy_is_bounded Fixture.rt Fixture.store
           Fixture.session1).
  simpl. split; [discriminate|reflexivity].
Defined.

Lemma getLatestSession_is_latest_witness :
  In Fixture.session1
    (UserTrainingService.trainingSessions
       (UserTrainingService.mkState [Fixture.milk] [Fixture.session1])).
Proof.
  apply (proj2 (getLatestSession_is_latest
                  (UserTrainingService.mkState [Fixture.milk]
                     [Fixture.session1]))
           Fixture.session1 eq_refl).
Defined.

Lemma analyzeIntent_confidence_range_witness :
  ChatbotService.confidence (ChatbotService.analyzeIntent "hello" [])
  <= 0.95.
Proof.
  destruct (proj1 (analyzeIntent_confidence_range "hello" []))
    as [[Hgeneral _]|(_ & _ & Hbound)].
  - vm_compute in Hgeneral. discriminate.
  - apply Hbound. reflexivity.
Defined.

Lemma remember_keeps_the_memory_tidy_witness :
  NoDup
    (ChatbotService.userInterests
       (ChatbotService.remember "Cheap food under $25" Fixture.memory)).
Proof.
  assert (Hhome : NoDup ["home"]) by (repeat constructor; intros []).
  destruct (remember_keeps_the_memory_tidy "Cheap food under $25"
              Fixture.memory Hhome Hhome)
    as (Hinterests & _).
  exact Hinterests.
Defined.

Lemma getBudgetProducts_witness :
  Forall (fun card => ProductCard.price card <= 10)
    (ChatbotService.getBudgetProducts MockData.mockProducts 4 10)
  /\ (In (ChatbotService.toCard (nth 5 MockData.mockProducts
                                   (Product.mk "" "" "" 0 "" 0 0 None None)))
         (ChatbotService.getBudgetProducts MockData.mockProducts 4 10)
      \/ forall card,
           In card (ChatbotService.getBudgetProducts MockData.mockProducts
                      4 10) ->
           ProductCard.price card <= 8.99).
Proof.
  destruct (getBudgetProducts_are_the_cheapest MockData.mockProducts 4 10)
    as (Hwithin & _ & _ & _ & Htop).
  split; [exact Hwithin|].
  apply (Htop (nth 5 MockData.mockProducts
                 (Product.mk "" "" "" 0 "" 0 0 None None))).
  - simpl. tauto.
  - simpl. discriminate.
Defined.

Lemma getDealsProducts_witness :
  In (ChatbotService.toCard (nth 9 MockData.mockProducts
                               (Product.mk "" "" "" 0 "" 0 0 None None)))
     (ChatbotService.getDealsProducts MockData.mockProducts 4)
  \/ forall card,
       In card (ChatbotService.getDealsProducts MockData.mockProducts 4) ->
       5 <= cardDiscount card.
Proof.
  destruct (getDealsProducts_are_the_best_deals MockData.mockProducts 4)
    as (_ & _ & _ & _ & Htop).
  apply (Htop (nth 9 MockData.mockProducts
                 (Product.mk "" "" "" 0 "" 0 0 None None))).
  - simpl. tauto.
  - simpl. discriminate.
Defined.

Lemma getPersonalizedProducts_witness :
  Forall (fun card =>
            exists p, In p MockData.mockProducts
                      /\ Product.category p = "electronics"
                      /\ card = ChatbotService.toCard p)
         (ChatbotService.getPersonalizedProducts MockData.mockProducts
            "electronics" 2 None).
Proof.
  apply Forall_forall. intros card Hcard.
  destruct (proj1 (proj2 (getPersonalizedProducts_puts_deals_first
                            MockData.mockProducts "electronics" 2 None))
              card Hcard)
    as (p & Hin & [Hcat _] & Heq).
  exists p. split; [exact Hin|]. split; [exact Hcat|exact Heq].
Defined.

Lemma generateResponse_effects_witness :
  exists cards,
    ChatbotService.products
      (snd (ChatbotService.generateResponse Fixture.rt 9
              MockData.mockProducts "Any deals today?" [] Fixture.chat))
    = Some cards
    /\ (List.length cards <= 4)%nat.
Proof.
  eexists. split; [vm_compute; reflexivity|].
  apply (proj1 (proj2 (proj2 (proj2
           (generateResponse_effects MockData.mockProducts Fixture.rt 9
              "Any deals today?" [] Fixture.chat))))).
  vm_compute. reflexivity.
Defined.

End FurtherAtTheFixtures.
